(* ===================================================================== *)
(* LTA questionnaire: skip-logic router, progress accounting and         *)
(* funnel/report scoring (js/router.js, js/analytics.js, js/db.js).      *)
(*                                                                       *)
(* The JavaScript classes are embedded shallowly:                        *)
(*  - JS numbers are the binary64 numbers, held as rationals extended    *)
(*    with NaN and the two infinities; *, / and + round their exact      *)
(*    result to the nearest binary64 number, ties to even (the sign of   *)
(*    zero is not represented);                                          *)
(*  - a property read of an object literal finds the literal's own       *)
(*    properties and the members inherited from Object.prototype;        *)
(*  - JS strings are held by their UTF-8 encoding;                       *)
(*  - JS Map objects keyed by strings are stdpp gmaps;                   *)
(*  - methods that read or write `this`, the IndexedDB stores or the     *)
(*    clock are computations in a state-and-exception monad;             *)
(*  - the recursive question walk carries fuel, and an evaluation        *)
(*    relation says which outcome a call produces.                       *)
(* ===================================================================== *)

From Stdlib Require Import QArith Qround Qpower Lqa.
From stdpp Require Import gmap strings list fin_maps.
From Stdlib Require Import Ascii String.

Local Open Scope Z_scope.

(* --------------------------------------------------------------------- *)
(* JavaScript numbers                                                     *)
(* --------------------------------------------------------------------- *)

Module JS.

Inductive number :=
| Num (q : Q)
| PInf
| NInf
| NaN.

Definition ofZ (z : Z) : number := Num (inject_Z z).
Definition ofNat (n : nat) : number := ofZ (Z.of_nat n).

(* IEEE comparison: no answer as soon as one side is NaN. *)
Definition cmp (a b : number) : option comparison :=
  match a, b with
  | NaN, _ | _, NaN => None
  | Num x, Num y => Some (Qcompare x y)
  | NInf, NInf | PInf, PInf => Some Eq
  | NInf, _ | _, PInf => Some Lt
  | _, NInf | PInf, _ => Some Gt
  end.

(* a < b, a <= b, a >= b, a === b on numbers *)
Definition lt (a b : number) : bool :=
  match cmp a b with Some Lt => true | _ => false end.
Definition le (a b : number) : bool :=
  match cmp a b with Some Lt | Some Eq => true | _ => false end.
Definition ge (a b : number) : bool := le b a.
Definition gt (a b : number) : bool := lt b a.

Definition isNaN (a : number) : bool :=
  match a with NaN => true | _ => false end.

(* Math.max / Math.min of two arguments *)
Definition Math_max (a b : number) : number :=
  match cmp a b with
  | None => NaN
  | Some Lt => b
  | Some _ => a
  end.

Definition Math_min (a b : number) : number :=
  match cmp a b with
  | None => NaN
  | Some Gt => b
  | Some _ => a
  end.

Definition sgn (q : Q) : comparison := Qcompare q 0.

(* --- rounding to binary64 --- *)

Definition pow2 (e : Z) : Q := (2 ^ e)%Q.

(* the nearest integer, a tie going to the even one *)
Definition halfEven (q : Q) : Z :=
  let f := Qfloor q in
  match (q - inject_Z f ?= 1 # 2)%Q with
  | Lt => f
  | Gt => f + 1
  | Eq => if Z.even f then f else f + 1
  end.

(* for 0 < q: the exponent b with 2^b <= q < 2^(b+1) *)
Definition binade (q : Q) : Z :=
  let b := Z.log2 (Qnum q) - Z.log2 (Zpos (Qden q)) in
  if Qle_bool (pow2 b) q then b else b - 1.

(* for 0 < q: the nearest multiple of the unit in the last place of q,
   which is 2^(b-52) in the binade b and 2^-1074 below the normal range *)
Definition nearest (q : Q) : Q :=
  let e := Z.max (binade q) (-1022) - 52 in
  (inject_Z (halfEven (q / pow2 e)) * pow2 e)%Q.

(* the binary64 number an exact result is rounded to *)
Definition fromQ (q : Q) : number :=
  match (q ?= 0)%Q with
  | Eq => Num 0
  | Gt =>
      let r := nearest q in
      if Qle_bool (pow2 1024) r then PInf else Num (Qred r)
  | Lt =>
      let r := nearest (- q) in
      if Qle_bool (pow2 1024) r then NInf else Num (Qred (- r))
  end.

(* a * b *)
Definition mul (a b : number) : number :=
  match a, b with
  | NaN, _ | _, NaN => NaN
  | Num x, Num y => fromQ (x * y)
  | Num x, PInf | PInf, Num x =>
      match sgn x with Eq => NaN | Gt => PInf | Lt => NInf end
  | Num x, NInf | NInf, Num x =>
      match sgn x with Eq => NaN | Gt => NInf | Lt => PInf end
  | PInf, PInf | NInf, NInf => PInf
  | PInf, NInf | NInf, PInf => NInf
  end.

(* a / b *)
Definition div (a b : number) : number :=
  match a, b with
  | NaN, _ | _, NaN => NaN
  | Num x, Num y =>
      match sgn y with
      | Eq => match sgn x with Eq => NaN | Gt => PInf | Lt => NInf end
      | _ => fromQ (x / y)
      end
  | Num _, (PInf | NInf) => Num 0
  | PInf, Num y => match sgn y with Lt => NInf | _ => PInf end
  | NInf, Num y => match sgn y with Lt => PInf | _ => NInf end
  | (PInf | NInf), (PInf | NInf) => NaN
  end.

(* a + b *)
Definition add (a b : number) : number :=
  match a, b with
  | NaN, _ | _, NaN => NaN
  | Num x, Num y => fromQ (x + y)
  | PInf, NInf | NInf, PInf => NaN
  | PInf, _ | _, PInf => PInf
  | NInf, _ | _, NInf => NInf
  end.

(* Math.round: nearest integer, halves towards +infinity; exact, since a
   binary64 number with a fractional part is below 2^52 *)
Definition Math_round (a : number) : number :=
  match a with
  | Num q => ofZ (Qfloor (q + (1 # 2)))
  | other => other
  end.

(* --- values that need not be numbers --- *)

(* What a property read or a sum can yield besides a number: a built-in
   function, an object without enumerable properties of its own
   (Object.prototype, or the {} its structured clone is), and a string
   that is not a numeric literal. *)
Inductive value :=
| Number (n : number)
| Function (name : string)
| Object
| Text.

(* ToNumber *)
Definition ToNumber (v : value) : number :=
  match v with
  | Number n => n
  | Function _ | Object | Text => NaN
  end.

(* the method names every ordinary object inherits from Object.prototype *)
Definition inheritedMethods : list string :=
  ["constructor"; "hasOwnProperty"; "isPrototypeOf"; "propertyIsEnumerable";
   "toLocaleString"; "toString"; "valueOf";
   "__defineGetter__"; "__defineSetter__"; "__lookupGetter__";
   "__lookupSetter__"].

(* o[key] for a key that is no own property of the ordinary object o *)
Definition inherited (key : string) : option value :=
  if String.eqb key "__proto__" then Some Object
  else if existsb (String.eqb key) inheritedMethods then Some (Function key)
  else None.

(* table[key] || 0 for an object literal whose own properties are numbers *)
Definition lookupOrZero (table : list (string * number)) (key : string) : value :=
  match List.find (fun entry => String.eqb (fst entry) key) table with
  | Some (_, n) =>
      match cmp n (ofZ 0) with
      | None | Some Eq => Number (ofZ 0)
      | _ => Number n
      end
  | None =>
      match inherited key with
      | Some v => v
      | None => Number (ofZ 0)
      end
  end.

(* a + b where a is a number or a string: a number is added, anything
   else is converted to a string and appended *)
Definition plus (a b : value) : value :=
  match a, b with
  | Number x, Number y => Number (add x y)
  | _, _ => Text
  end.

(* the structured clone algorithm rejects functions *)
Definition cloneable (v : value) : bool :=
  match v with
  | Function _ => false
  | _ => true
  end.

End JS.


(* --------------------------------------------------------------------- *)
(* JavaScript strings, held by their UTF-8 encoding                       *)
(* --------------------------------------------------------------------- *)

Module Str.

Definition byte (c : ascii) : nat := nat_of_ascii c.

(* s.length: the number of UTF-16 code units. Every byte that starts a
   character counts one, and one more when the character lies beyond the
   basic plane (four bytes, a surrogate pair). *)
Fixpoint length (s : string) : nat :=
  match s with
  | EmptyString => 0
  | String c rest =>
      let n := byte c in
      ((if (n <? 128)%nat || (192 <=? n)%nat then 1 else 0)
       + (if (240 <=? n)%nat then 1 else 0)
       + length rest)%nat
  end.

(* White space as /\s/, trim and parseInt know it: TAB, LF, VT, FF, CR,
   SP, U+00A0, U+1680, U+2000..U+200A, U+2028, U+2029, U+202F, U+205F,
   U+3000 and U+FEFF.  The result is the number of bytes of the white
   space character s starts with, 0 when it starts with none. *)
Definition spaceWidth (s : string) : nat :=
  match s with
  | String c rest =>
      let n := byte c in
      if ((9 <=? n)%nat && (n <=? 13)%nat) || (n =? 32)%nat then 1%nat
      else
        match rest with
        | String c1 rest1 =>
            let n1 := byte c1 in
            if (n =? 194)%nat && (n1 =? 160)%nat then 2%nat
            else
              match rest1 with
              | String c2 _ =>
                  let n2 := byte c2 in
                  if ((n =? 225)%nat && (n1 =? 154)%nat && (n2 =? 128)%nat)
                     || ((n =? 226)%nat && (n1 =? 128)%nat
                         && (((128 <=? n2)%nat && (n2 <=? 138)%nat)
                             || (n2 =? 168)%nat || (n2 =? 169)%nat
                             || (n2 =? 175)%nat))
                     || ((n =? 226)%nat && (n1 =? 129)%nat && (n2 =? 159)%nat)
                     || ((n =? 227)%nat && (n1 =? 128)%nat && (n2 =? 128)%nat)
                     || ((n =? 239)%nat && (n1 =? 187)%nat && (n2 =? 191)%nat)
                  then 3%nat
                  else 0%nat
              | EmptyString => 0%nat
              end
        | EmptyString => 0%nat
        end
  | EmptyString => 0%nat
  end.

(* s without its leading white space; [skip] counts the bytes still to
   drop of a white space character already seen *)
Fixpoint dropSpaces (s : string) (skip : nat) : string :=
  match s with
  | EmptyString => EmptyString
  | String c rest =>
      match skip with
      | S skip' => dropSpaces rest skip'
      | O =>
          match spaceWidth s with
          | O => s
          | S skip' => dropSpaces rest skip'
          end
      end
  end.

Definition trimStart (s : string) : string := dropSpaces s 0.

(* s consists of white space only *)
Definition blank (s : string) : bool :=
  match trimStart s with EmptyString => true | _ => false end.

Fixpoint trimEnd (s : string) : string :=
  match s with
  | EmptyString => EmptyString
  | String c rest => if blank s then EmptyString else String c (trimEnd rest)
  end.

Definition trim (s : string) : string := trimEnd (trimStart s).

(* text.split(/\s+/).length: one piece more than there are maximal runs
   of white space; [inRun] says whether the previous character was
   white. *)
Fixpoint countRuns (s : string) (skip : nat) (inRun : bool) : nat :=
  match s with
  | EmptyString => 0
  | String c rest =>
      match skip with
      | S skip' => countRuns rest skip' inRun
      | O =>
          match spaceWidth s with
          | O => countRuns rest 0 false
          | S skip' =>
              if inRun then countRuns rest skip' true
              else S (countRuns rest skip' true)
          end
      end
  end.

Definition splitSpaces_length (s : string) : nat := S (countRuns s 0 false).

Definition lowerChar (c : ascii) : ascii :=
  let n := byte c in
  if ((65 <=? n)%nat && (n <=? 90)%nat) then ascii_of_nat (n + 32) else c.

(* toLowerCase, as far as the ASCII characters of the result go: the
   ASCII capitals, U+0130 (which becomes i followed by U+0307) and U+212A
   (the Kelvin sign, which becomes k).  The other letters keep their
   bytes here; their lower-case forms are not ASCII either, so that
   includes() of an ASCII word gives the same answer. *)
Fixpoint lower (s : string) (skip : nat) : string :=
  match s with
  | EmptyString => EmptyString
  | String c rest =>
      match skip with
      | S skip' => lower rest skip'
      | O =>
          match rest with
          | String c1 rest1 =>
              if (byte c =? 196)%nat && (byte c1 =? 176)%nat then
                String "i" (String (ascii_of_nat 204)
                  (String (ascii_of_nat 135) (lower rest 1)))
              else
                match rest1 with
                | String c2 _ =>
                    if (byte c =? 226)%nat && (byte c1 =? 132)%nat
                       && (byte c2 =? 170)%nat
                    then String "k" (lower rest 2)
                    else String (lowerChar c) (lower rest 0)
                | EmptyString => String (lowerChar c) (lower rest 0)
                end
          | EmptyString => String (lowerChar c) EmptyString
          end
      end
  end.

Definition toLowerCase (s : string) : string := lower s 0.

(* text.includes(needle) *)
Definition includes (text needle : string) : bool :=
  match index 0 needle text with Some _ => true | None => false end.

(* s.split(sep): the first piece, and the second one when there is one *)
Fixpoint untilSep (sep : ascii) (s : string) : string * option string :=
  match s with
  | EmptyString => (EmptyString, None)
  | String c rest =>
      if Ascii.eqb c sep then (EmptyString, Some rest)
      else let '(hd, tl) := untilSep sep rest in (String c hd, tl)
  end.

Definition split2 (sep : ascii) (s : string) : string * option string :=
  let '(first, rest) := untilSep sep s in
  (first, option_map (fun r => fst (untilSep sep r)) rest).

(* String(v) inside a template literal or as a property key, for a
   property that may be absent *)
Definition interpolate (v : option string) : string :=
  match v with Some s => s | None => "undefined" end.

Definition digitValue (c : ascii) : option Z :=
  let n := Z.of_nat (nat_of_ascii c) in
  if (48 <=? n) && (n <=? 57) then Some (n - 48)
  else if (97 <=? n) && (n <=? 122) then Some (n - 87)
  else if (65 <=? n) && (n <=? 90) then Some (n - 55)
  else None.

(* the longest prefix of digits of the radix, read as a number *)
Fixpoint readDigits (radix : Z) (s : string) (acc : option Z) : option Z :=
  match s with
  | EmptyString => acc
  | String c rest =>
      match digitValue c with
      | Some d =>
          if d <? radix
          then readDigits radix rest (Some (radix * default 0 acc + d))
          else acc
      | None => acc
      end
  end.

Definition stripHexPrefix (s : string) : option string :=
  match s with
  | String "0" (String "x" rest) | String "0" (String "X" rest) => Some rest
  | _ => None
  end.

(* parseInt(s) with no radix argument; the integer read is rounded to the
   nearest binary64 number *)
Definition parseInt_string (s : string) : JS.number :=
  let s1 := trimStart s in
  let '(neg, s2) :=
    match s1 with
    | String "-" rest => (true, rest)
    | String "+" rest => (false, rest)
    | _ => (false, s1)
    end in
  let digits :=
    match stripHexPrefix s2 with
    | Some rest => readDigits 16 rest None
    | None => readDigits 10 s2 None
    end in
  match digits with
  | Some n => JS.fromQ (inject_Z (if neg then - n else n))
  | None => JS.NaN
  end.

(* parseInt(v) where v is a string property that may be undefined *)
Definition parseInt (v : option string) : JS.number :=
  parseInt_string (interpolate v).

End Str.


(* --------------------------------------------------------------------- *)
(* Data: the questionnaire configuration and the responses                *)
(* --------------------------------------------------------------------- *)

(* question.logic *)
Record Logic := mkLogic {
  stakeholderTypes : option (list string)
}.

(* an entry of config.questions; [q_required] is the truth value of the
   property `required` *)
Record Question := mkQuestion {
  q_id : string;
  q_section : string;
  q_required : bool;
  q_logic : option Logic
}.

(* rule.condition; the two flags are the truth values of `includesNone`
   and `includesAny`, [c_value] is absent when the property is *)
Record Condition := mkCondition {
  c_from : string;
  c_value : option string;
  c_includesNone : bool;
  c_includesAny : bool
}.

(* rule.target: an object { question: id } or a range string "qA-qB" *)
Inductive Target :=
| TargetQuestion (question : string)
| TargetRange (range : string).

(* an entry of config.skipLogic *)
Record Rule := mkRule {
  action : string;
  target : option Target;
  from : option string;
  condition : Condition
}.

(* LTA_QUESTIONNAIRE: the catalog is defined outside router.js,
   analytics.js and db.js and is a parameter of every operation.
   [skipLogic] holds the own properties of an object literal, whose
   prototype is Object.prototype. *)
Record Config := mkConfig {
  questions : list Question;
  skipLogic : gmap string Rule
}.

(* a response object as the renderer builds it *)
Record Response := mkResponse {
  r_questionId : string;
  r_section : option string;
  r_value : option string;
  r_values : option (list string);
  r_matrix : option (list (string * string))
}.

Inductive exn :=
| Error (message : string)
| TypeError (message : string)
| DataCloneError (message : string).

(* how a call ends *)
Inductive completion (A : Type) :=
| Return (a : A)
| Throw (e : exn).
Arguments Return {A} a.
Arguments Throw {A} e.

(* truth value of a string-valued property *)
Definition truthy (v : option string) : bool :=
  match v with
  | Some s => negb (String.eqb s "")
  | None => false
  end.

(* --------------------------------------------------------------------- *)
(* Array helpers on config.questions                                      *)
(* --------------------------------------------------------------------- *)

(* questions.find(q => q.id === qid) *)
Definition findQuestion (qs : list Question) (qid : string) : option Question :=
  List.find (fun q => String.eqb (q_id q) qid) qs.

Fixpoint position (qs : list Question) (qid : string) : option nat :=
  match qs with
  | [] => None
  | q :: rest =>
      if String.eqb (q_id q) qid then Some O
      else option_map S (position rest qid)
  end.

(* questions.findIndex(q => q.id === qid); an undefined qid matches no
   question *)
Definition findIndex (qs : list Question) (qid : option string) : Z :=
  match qid with
  | Some i =>
      match position qs i with
      | Some n => Z.of_nat n
      | None => -1
      end
  | None => -1
  end.

(* questions[i] *)
Definition item (qs : list Question) (i : Z) : option Question :=
  if i <? 0 then None else nth_error qs (Z.to_nat i).

(* --------------------------------------------------------------------- *)
(* class LTASkipLogicProcessor                                            *)
(* --------------------------------------------------------------------- *)

Module LTASkipLogicProcessor.

(* evaluateCondition: the JavaScript result is a boolean or, where an
   `&&` stops at a missing operand, undefined (None) *)
Definition evaluateCondition (condition : Condition)
    (responses : gmap string Response) : option bool :=
  if truthy (c_value condition) then
    match responses !! c_from condition with
    | None => None
    | Some response =>
        Some (bool_decide (r_value response = c_value condition))
    end
  else if c_includesNone condition then
    match responses !! c_from condition with
    | None => Some true
    | Some response =>
        match r_values response with
        | None => Some true
        | Some vs => Some (List.length vs =? 0)%nat
        end
    end
  else if c_includesAny condition then
    match responses !! c_from condition with
    | None => None
    | Some response =>
        match r_values response with
        | None => None
        | Some vs => Some (0 <? List.length vs)%nat
        end
    end
  else Some false.

(* the truth value an `if` sees *)
Definition met (v : option bool) : bool := default false v.

(* the stakeholder test of shouldSkip:
   !stakeholderType || !types.includes(stakeholderType) *)
Definition excluded (types : list string) (stakeholderType : option string) : bool :=
  negb (truthy stakeholderType)
  || negb (existsb (fun t => bool_decide (Some t = stakeholderType)) types).

Definition shouldSkip (cfg : Config) (questionId : string)
    (responses : gmap string Response) (stakeholderType : option string) : bool :=
  match findQuestion (questions cfg) questionId with
  | None => false
  | Some question =>
      let byStakeholder :=
        match q_logic question with
        | Some l =>
            match stakeholderTypes l with
            | Some types => excluded types stakeholderType
            | None => false
            end
        | None => false
        end in
      if byStakeholder then true
      else
        existsb
          (fun '(logicKey, rule) =>
             String.eqb (fst (Str.split2 "_" logicKey)) questionId
             && met (evaluateCondition (condition rule) responses))
          (map_to_list (skipLogic cfg))
  end.

(* getNextQuestionAfter; [fuel] bounds the depth of the recursion *)
Fixpoint getNextQuestionAfter (fuel : nat) (cfg : Config)
    (questionId : option string) (responses : gmap string Response)
    (stakeholderType : option string) : option (completion (option Question)) :=
  match fuel with
  | O => None
  | S fuel' =>
      let currentIndex := findIndex (questions cfg) questionId in
      let nextQuestion := item (questions cfg) (currentIndex + 1) in
      match nextQuestion with
      | Some next =>
          if shouldSkip cfg (q_id next) responses stakeholderType
          then getNextQuestionAfter fuel' cfg (Some (q_id next)) responses
                 stakeholderType
          else Some (Return nextQuestion)
      | None => Some (Return None)
      end
  end.

(* the for loop of handleSectionRouting, [n] iterations left from index i;
   None: the loop ran to its end *)
Fixpoint scanRange (n : nat) (i : Z) (cfg : Config)
    (responses : gmap string Response) (stakeholderType : option string)
    : option (completion (option Question)) :=
  match n with
  | O => None
  | S n' =>
      match item (questions cfg) i with
      | None => Some (Throw (TypeError "question is undefined"))
      | Some question =>
          if negb (shouldSkip cfg (q_id question) responses stakeholderType)
          then Some (Return (Some question))
          else scanRange n' (i + 1) cfg responses stakeholderType
      end
  end.

Definition handleSectionRouting (fuel : nat) (cfg : Config) (logicRule : Rule)
    (responses : gmap string Response) (stakeholderType : option string)
    : option (completion (option Question)) :=
  match target logicRule with
  | Some (TargetRange targetRange) =>
      let '(startQ, endQ) := Str.split2 "-" targetRange in
      let first := findIndex (questions cfg) (Some startQ) in
      let last := findIndex (questions cfg) endQ in
      match scanRange (Z.to_nat (last - first + 1)) first cfg responses
              stakeholderType with
      | Some found => Some found
      | None => getNextQuestionAfter fuel cfg endQ responses stakeholderType
      end
  | _ => Some (Throw (TypeError "targetRange.split is not a function"))
  end.

Definition applySkipLogic (fuel : nat) (cfg : Config) (logicRule : Rule)
    (responses : gmap string Response) (stakeholderType : option string)
    : option (completion (option Question)) :=
  if String.eqb (action logicRule) "skipTo" then
    match target logicRule with
    | Some (TargetQuestion question) =>
        Some (Return (findQuestion (questions cfg) question))
    | Some (TargetRange _) => Some (Return None)
    | None => Some (Throw (TypeError "logicRule.target is undefined"))
    end
  else if String.eqb (action logicRule) "show" then
    getNextQuestionAfter fuel cfg (from logicRule) responses stakeholderType
  else if String.eqb (action logicRule) "showSection" then
    handleSectionRouting fuel cfg logicRule responses stakeholderType
  else
    getNextQuestionAfter fuel cfg (from logicRule) responses stakeholderType.

(* `${currentQuestionId}_${responses.get(currentQuestionId)?.value}` *)
Definition logicKeyOf (currentQuestionId : string)
    (responses : gmap string Response) : string :=
  currentQuestionId ++ "_"
  ++ Str.interpolate (responses !! currentQuestionId ≫= r_value).

(* this.skipLogic[logicKey]: a rule of the literal, or a member the
   literal inherits from Object.prototype *)
Inductive Entry :=
| OwnRule (rule : Rule)
| Inherited (member : JS.value).

Definition skipLogicAt (cfg : Config) (logicKey : string) : option Entry :=
  match skipLogic cfg !! logicKey with
  | Some rule => Some (OwnRule rule)
  | None => option_map Inherited (JS.inherited logicKey)
  end.

(* getNextQuestion; None: the fuel ran out before the call ended *)
Fixpoint getNextQuestion (fuel : nat) (cfg : Config)
    (currentQuestionId : string) (responses : gmap string Response)
    (stakeholderType : option string) : option (completion (option Question)) :=
  match fuel with
  | O => None
  | S fuel' =>
      match findQuestion (questions cfg) currentQuestionId with
      | None => Some (Return (item (questions cfg) 0))
      | Some _ =>
          match skipLogicAt cfg (logicKeyOf currentQuestionId responses) with
          | Some (OwnRule logicRule) =>
              applySkipLogic fuel' cfg logicRule responses stakeholderType
          | Some (Inherited _) =>
              (* a function and Object.prototype are truthy and have no
                 action and no from: the default case of applySkipLogic *)
              getNextQuestionAfter fuel' cfg None responses stakeholderType
          | None =>
              let currentIndex :=
                findIndex (questions cfg) (Some currentQuestionId) in
              let nextQuestion := item (questions cfg) (currentIndex + 1) in
              match nextQuestion with
              | Some next =>
                  if shouldSkip cfg (q_id next) responses stakeholderType
                  then getNextQuestion fuel' cfg (q_id next) responses
                         stakeholderType
                  else Some (Return nextQuestion)
              | None => Some (Return None)
              end
          end
      end
  end.

(* a call of getNextQuestion ends with outcome r *)
Definition nextQuestion (cfg : Config) (currentQuestionId : string)
    (responses : gmap string Response) (stakeholderType : option string)
    (r : completion (option Question)) : Prop :=
  exists fuel,
    getNextQuestion fuel cfg currentQuestionId responses stakeholderType = Some r.

End LTASkipLogicProcessor.

(* --------------------------------------------------------------------- *)
(* Sessions, stored analytics and the state the singletons share          *)
(* --------------------------------------------------------------------- *)

(* a record of the object store 'sessions' *)
Record Session := mkSession {
  s_id : Z;
  s_createdAt : Z;
  s_lastModified : Z;
  s_completionStatus : string;
  s_currentSection : string;
  s_currentQuestion : string;
  s_stakeholderType : option string;
  s_progress : JS.number;
  s_completedAt : option Z
}.

Record AwarenessMetrics := mkAwareness {
  unaidedRecallScore : JS.number;
  aidedRecallScore : JS.number
}.
(* interestScore is what mapLikertToScore returned: not always a number *)
Record EngagementMetrics := mkEngagement { interestScore : JS.value }.
Record ConversionMetrics := mkConversion {
  npsScore : JS.number;
  npsCategory : string
}.
Record StrategicMetrics := mkStrategic { overallImpression : JS.number }.

(* the object generateFinalAnalytics builds *)
Record FinalAnalytics := mkFinalAnalytics {
  awareness : AwarenessMetrics;
  engagement : EngagementMetrics;
  conversion : ConversionMetrics;
  strategic : StrategicMetrics
}.

(* the value stored under the key 'funnel' of realTimeMetrics *)
Record FunnelMetrics := mkFunnel {
  f_awareness : JS.number;
  f_interest : JS.number;
  f_consideration : JS.number;
  f_action : JS.number;
  f_advocacy : JS.number
}.

(* the `data` of an analytics record: what router.js saves as
   'final_assessment', or what analytics.js saves as 'real_time' *)
Inductive AnalyticsData :=
| FinalAssessment (a : FinalAnalytics)
| RealTime (funnel : option FunnelMetrics).

(* a record of the object store 'analytics' *)
Record AnalyticsRecord := mkAnalyticsRecord {
  a_sessionId : Z;
  a_metricType : string;
  a_data : AnalyticsData;
  a_calculatedAt : Z
}.

(* The IndexedDB stores, the fields of LTA_ROUTER, and the clock.
   `new Date()` reads [clock] at the current tick and moves to the next
   tick, so that successive reads may, and need not, differ. *)
Record World := mkWorld {
  sessions : gmap Z Session;
  storedResponses : gmap (Z * string) Response;
  analytics : gmap (Z * string) AnalyticsRecord;
  currentSession : option Session;
  responses : gmap string Response;
  clock : nat -> Z;
  ticks : nat
}.

Definition with_sessions (v : gmap Z Session) (w : World) : World :=
  mkWorld v (storedResponses w) (analytics w) (currentSession w) (responses w)
    (clock w) (ticks w).
Definition with_storedResponses (v : gmap (Z * string) Response) (w : World)
    : World :=
  mkWorld (sessions w) v (analytics w) (currentSession w) (responses w)
    (clock w) (ticks w).
Definition with_analytics (v : gmap (Z * string) AnalyticsRecord) (w : World)
    : World :=
  mkWorld (sessions w) (storedResponses w) v (currentSession w) (responses w)
    (clock w) (ticks w).
Definition with_currentSession (v : option Session) (w : World) : World :=
  mkWorld (sessions w) (storedResponses w) (analytics w) v (responses w)
    (clock w) (ticks w).
Definition with_responses (v : gmap string Response) (w : World) : World :=
  mkWorld (sessions w) (storedResponses w) (analytics w) (currentSession w) v
    (clock w) (ticks w).
Definition with_ticks (v : nat) (w : World) : World :=
  mkWorld (sessions w) (storedResponses w) (analytics w) (currentSession w)
    (responses w) (clock w) v.

(* --------------------------------------------------------------------- *)
(* State and exceptions                                                   *)
(* --------------------------------------------------------------------- *)

Definition M (A : Type) : Type := World -> completion A * World.

Definition ret {A} (a : A) : M A := fun w => (Return a, w).
Definition throw {A} (e : exn) : M A := fun w => (Throw e, w).
Definition bind {A B} (m : M A) (k : A -> M B) : M B :=
  fun w =>
    match m w with
    | (Return a, w') => k a w'
    | (Throw e, w') => (Throw e, w')
    end.
Definition gets {A} (f : World -> A) : M A := fun w => (Return (f w), w).
Definition modify (f : World -> World) : M unit := fun w => (Return tt, f w).

Declare Scope js_scope.
Delimit Scope js_scope with js.
Notation "x <- m ;; k" := (bind m (fun x => k))
  (at level 100, m at next level, right associativity) : js_scope.
Notation "m ;;; k" := (bind m (fun _ => k))
  (at level 100, right associativity) : js_scope.

(* new Date() *)
Definition newDate : M Z :=
  fun w => (Return (clock w (ticks w)), with_ticks (S (ticks w)) w).

(* the outcome and the final state of a computation *)
Definition outcome {A} (r : completion A * World) : completion A := fst r.
Definition after {A} (r : completion A * World) : World := snd r.

Local Open Scope js_scope.

(* session objects with some properties replaced *)
Definition set_lastModified (t : Z) (s : Session) : Session :=
  mkSession (s_id s) (s_createdAt s) t (s_completionStatus s)
    (s_currentSection s) (s_currentQuestion s) (s_stakeholderType s)
    (s_progress s) (s_completedAt s).
Definition set_completionStatus (v : string) (s : Session) : Session :=
  mkSession (s_id s) (s_createdAt s) (s_lastModified s) v
    (s_currentSection s) (s_currentQuestion s) (s_stakeholderType s)
    (s_progress s) (s_completedAt s).
Definition set_completedAt (t : Z) (s : Session) : Session :=
  mkSession (s_id s) (s_createdAt s) (s_lastModified s) (s_completionStatus s)
    (s_currentSection s) (s_currentQuestion s) (s_stakeholderType s)
    (s_progress s) (Some t).
Definition set_position (question section : string) (s : Session) : Session :=
  mkSession (s_id s) (s_createdAt s) (s_lastModified s) (s_completionStatus s)
    section question (s_stakeholderType s) (s_progress s) (s_completedAt s).
Definition set_stakeholderType (v : option string) (s : Session) : Session :=
  mkSession (s_id s) (s_createdAt s) (s_lastModified s) (s_completionStatus s)
    (s_currentSection s) (s_currentQuestion s) v (s_progress s)
    (s_completedAt s).
Definition set_progress (v : JS.number) (s : Session) : Session :=
  mkSession (s_id s) (s_createdAt s) (s_lastModified s) (s_completionStatus s)
    (s_currentSection s) (s_currentQuestion s) (s_stakeholderType s) v
    (s_completedAt s).

(* Math.round((answered / total) * 100) *)
Definition percentageOf (answered total : nat) : JS.number :=
  JS.Math_round (JS.mul (JS.div (JS.ofNat answered) (JS.ofNat total)) (JS.ofZ 100)).

(* --------------------------------------------------------------------- *)
(* class LTAIndexedDB (the database is taken to be open)                  *)
(* --------------------------------------------------------------------- *)

Module LTAIndexedDB.

Definition getSession (sessionId : Z) : M (option Session) :=
  gets (fun w => sessions w !! sessionId).

(* `updates` is the object spread over the stored session; the record is
   put back under its own id (keyPath 'id') *)
Definition updateSession (sessionId : Z) (updates : Session -> Session)
    : M Session :=
  found <- getSession sessionId ;;
  match found with
  | None => throw (Error "Session not found")
  | Some session =>
      now <- newDate ;;
      let updatedSession := set_lastModified now (updates session) in
      (modify (fun w =>
         with_sessions (<[s_id updatedSession := updatedSession]> (sessions w)) w) ;;;
       ret updatedSession)
  end.

(* the stored object spreads responseData after the two key arguments, so
   its questionId is the one of responseData *)
Definition saveResponse (sessionId : Z) (questionId : string)
    (responseData : Response) : M Response :=
  _timestamp <- newDate ;;
  (modify (fun w =>
     with_storedResponses
       (<[(sessionId, r_questionId responseData) := responseData]>
          (storedResponses w)) w) ;;;
   ret responseData).

Definition getSessionResponses (sessionId : Z) : M (list Response) :=
  gets (fun w =>
    List.map snd
      (List.filter (fun kv => bool_decide (fst (fst kv) = sessionId))
         (map_to_list (storedResponses w)))).

(* store.put clones the record; a function in it makes put throw *)
Definition cloneableData (data : AnalyticsData) : bool :=
  match data with
  | FinalAssessment a => JS.cloneable (interestScore (engagement a))
  | RealTime _ => true
  end.

Definition saveAnalytics (sessionId : Z) (metricType : string)
    (data : AnalyticsData) : M AnalyticsRecord :=
  calculatedAt <- newDate ;;
  let record := mkAnalyticsRecord sessionId metricType data calculatedAt in
  if cloneableData data then
    (modify (fun w =>
       with_analytics (<[(sessionId, metricType) := record]> (analytics w)) w) ;;;
     ret record)
  else throw (DataCloneError "function could not be cloned").


Definition calculateProgress (cfg : Config) (sessionId : Z) : M JS.number :=
  stored <- getSessionResponses sessionId ;;
  let totalQuestions := List.length (questions cfg) in
  let answeredQuestions :=
    size (list_to_set (List.map r_questionId stored) : gset string) in
  let progress := percentageOf answeredQuestions totalQuestions in
  _ <- updateSession sessionId (set_progress progress) ;;
  ret progress.


Definition getAllAnalytics (sessionId : Z) : M (list AnalyticsRecord) :=
  gets (fun w =>
    List.map snd
      (List.filter (fun kv => bool_decide (fst (fst kv) = sessionId))
         (map_to_list (analytics w)))).

(* index.getAll('in_progress') on the index completionStatus *)
Definition getIncompleteSessions : M (list Session) :=
  gets (fun w =>
    List.filter (fun d => String.eqb (s_completionStatus d) "in_progress")
      (List.map snd (map_to_list (sessions w)))).

(* clearSession, once its transaction has completed: the cursors delete
   the responses and the analytics whose sessionId is the given one, and
   the session record is deleted by its key *)
Definition clearSession (sessionId : Z) : M unit :=
  modify (fun w =>
    with_sessions (delete sessionId (sessions w))
      (with_analytics
         (filter (fun kv => fst (fst kv) <> sessionId) (analytics w))
         (with_storedResponses
            (filter (fun kv => fst (fst kv) <> sessionId) (storedResponses w))
            w))).

End LTAIndexedDB.

(* --------------------------------------------------------------------- *)
(* class LTARouter                                                        *)
(* --------------------------------------------------------------------- *)

Module LTARouter.

(* reading a property of this.currentSession *)
Definition theSession : M Session :=
  cs <- gets currentSession ;;
  match cs with
  | Some s => ret s
  | None => throw (TypeError "this.currentSession is null")
  end.

Definition initialize (sessionId : Z) : M Session :=
  found <- LTAIndexedDB.getSession sessionId ;;
  (modify (with_currentSession found) ;;;
   match found with
   | None => throw (Error "Session not found")
   | Some session =>
       sessionResponses <- LTAIndexedDB.getSessionResponses sessionId ;;
       (modify (fun w =>
          with_responses
            (foldl (fun m response => <[r_questionId response := response]> m)
               (responses w) sessionResponses) w) ;;;
        ret session)
   end).

(* the callback of find reads this.currentSession, so an empty catalog
   never touches it *)
Definition getCurrentQuestion (cfg : Config) : M (option Question) :=
  match questions cfg with
  | [] => ret None
  | _ :: _ =>
      s <- theSession ;;
      ret (match findQuestion (questions cfg) (s_currentQuestion s) with
           | Some q => Some q
           | None => item (questions cfg) 0
           end)
  end.

(* getNextQuestion(currentResponse = null): the response, when there is
   one, is put into this.responses before the processor is asked; None:
   the fuel ran out *)
Definition getNextQuestion (fuel : nat) (cfg : Config)
    (currentResponse : option Response) (w : World)
    : option (completion (option Question) * World) :=
  let w1 :=
    match currentResponse with
    | Some r => with_responses (<[r_questionId r := r]> (responses w)) w
    | None => w
    end in
  match currentSession w1 with
  | None => Some (Throw (TypeError "this.currentSession is null"), w1)
  | Some s =>
      option_map (fun r => (r, w1))
        (LTASkipLogicProcessor.getNextQuestion fuel cfg (s_currentQuestion s)
           (responses w1) (s_stakeholderType s))
  end.

Definition navigateToQuestion (cfg : Config) (questionId : string)
    : M Question :=
  match findQuestion (questions cfg) questionId with
  | None => throw (Error ("Question " ++ questionId ++ " not found"))
  | Some question =>
      s <- theSession ;;
      (modify (with_currentSession
                 (Some (set_position questionId (q_section question) s))) ;;;
       (_ <- LTAIndexedDB.updateSession (s_id s)
               (set_position questionId (q_section question)) ;;
        ret question))
  end.

Definition saveResponse (cfg : Config) (response : option Response) : M unit :=
  match response with
  | None => ret tt
  | Some r =>
      s <- theSession ;;
      _ <- LTAIndexedDB.saveResponse (s_id s) (r_questionId r) r ;;
      (modify (fun w => with_responses (<[r_questionId r := r]> (responses w)) w) ;;;
       (s' <- theSession ;;
        _ <- LTAIndexedDB.calculateProgress cfg (s_id s') ;;
        if String.eqb (r_questionId r) "q1" && truthy (r_value r) then
          s'' <- theSession ;;
          (modify (with_currentSession
                     (Some (set_stakeholderType (r_value r) s''))) ;;;
           (_ <- LTAIndexedDB.updateSession (s_id s'')
                   (set_stakeholderType (r_value r)) ;;
            ret tt))
        else ret tt))
  end.

Record Progress := mkProgress {
  percentage : JS.number;
  answered : nat;
  total : nat
}.

Definition getProgress (cfg : Config) (w : World) : Progress :=
  let totalQuestions := List.length (questions cfg) in
  let answeredQuestions := size (responses w) in
  mkProgress (percentageOf answeredQuestions totalQuestions)
    answeredQuestions totalQuestions.

Definition canSubmit (cfg : Config) (w : World) : bool :=
  let requiredQuestions := List.filter q_required (questions cfg) in
  let unansweredRequired :=
    List.filter
      (fun q => negb (bool_decide (is_Some (responses w !! q_id q))))
      requiredQuestions in
  (List.length unansweredRequired =? 0)%nat.

(* --- helper methods for analytics --- *)

Definition concepts : list string :=
  ["limpopo"; "tourism"; "campaign"; "event"; "marketing"; "destination"; "lta"].

Definition extractConcepts (text : string) : list string :=
  List.filter (fun concept => Str.includes (Str.toLowerCase text) concept)
    concepts.

Definition analyzeOpenEndedResponse (text : option string) : JS.number :=
  match text with
  | Some t =>
      if String.eqb t "" then JS.ofZ 0
      else
        let wordCount := Str.splitSpaces_length (Str.trim t) in
        let uniqueConcepts := extractConcepts t in
        JS.Math_min
          (JS.add (JS.mul (JS.ofNat wordCount) (JS.fromQ (1 # 10)))
                  (JS.mul (JS.ofNat (List.length uniqueConcepts)) (JS.ofZ 2)))
          (JS.ofZ 10)
  | None => JS.ofZ 0
  end.

(* the table `scores` of calculateMatrixScore *)
Definition awarenessScores : list (string * JS.number) :=
  [("Not aware at all", JS.ofZ 0); ("Vaguely aware", JS.ofZ 1);
   ("Somewhat aware", JS.ofZ 2); ("Very aware", JS.ofZ 3);
   ("Extensively aware", JS.ofZ 4)].

(* scores[value] || 0 of calculateMatrixScore *)
Definition awarenessLevel (value : string) : JS.value :=
  JS.lookupOrZero awarenessScores value.

(* the sum starts as the number 0 and turns into a string at the first
   cell whose level is not a number; the division then sees NaN *)
Definition calculateMatrixScore (matrixData : option (list (string * string)))
    : JS.number :=
  match matrixData with
  | None => JS.ofZ 0
  | Some rows =>
      let total :=
        fold_left (fun sum row => JS.plus sum (awarenessLevel (snd row)))
          rows (JS.Number (JS.ofZ 0)) in
      JS.mul
        (JS.div (JS.ToNumber total)
           (JS.mul (JS.ofNat (List.length rows)) (JS.ofZ 4)))
        (JS.ofZ 10)
  end.

(* the table `scores` of mapLikertToScore *)
Definition likertScores : list (string * JS.number) :=
  [("Not at all", JS.ofZ 0); ("Slightly", JS.Num (5 # 2));
   ("Moderately", JS.ofZ 5); ("Significantly", JS.Num (15 # 2));
   ("Extremely", JS.ofZ 10)].

(* scores[value] || 0 *)
Definition mapLikertToScore (value : option string) : JS.value :=
  JS.lookupOrZero likertScores (Str.interpolate value).

Definition calculateNPSCategory (score : JS.number) : string :=
  if JS.ge score (JS.ofZ 9) then "promoter"
  else if JS.ge score (JS.ofZ 7) then "passive"
  else "detractor".

Definition calculateAwarenessMetrics (w : World) : AwarenessMetrics :=
  mkAwareness
    (match responses w !! "q8" with
     | Some q8Response => analyzeOpenEndedResponse (r_value q8Response)
     | None => JS.ofZ 0
     end)
    (match responses w !! "q9" with
     | Some q9Response => calculateMatrixScore (r_matrix q9Response)
     | None => JS.ofZ 0
     end).

Definition calculateEngagementMetrics (w : World) : EngagementMetrics :=
  mkEngagement
    (match responses w !! "q20" with
     | Some q20Response => mapLikertToScore (r_value q20Response)
     | None => JS.Number (JS.ofZ 0)
     end).

Definition calculateConversionMetrics (w : World) : ConversionMetrics :=
  let npsScore :=
    match responses w !! "q54" with
    | Some q54Response => Str.parseInt (r_value q54Response)
    | None => JS.ofZ 0
    end in
  mkConversion npsScore (calculateNPSCategory npsScore).

Definition calculateStrategicMetrics (w : World) : StrategicMetrics :=
  mkStrategic
    (match responses w !! "q87" with
     | Some q87Response => Str.parseInt (r_value q87Response)
     | None => JS.ofZ 0
     end).

(* the object literal of generateFinalAnalytics *)
Definition finalAnalyticsOf (w : World) : FinalAnalytics :=
  mkFinalAnalytics (calculateAwarenessMetrics w) (calculateEngagementMetrics w)
    (calculateConversionMetrics w) (calculateStrategicMetrics w).

Definition generateFinalAnalytics : M FinalAnalytics :=
  analytics <- gets finalAnalyticsOf ;;
  s <- theSession ;;
  _ <- LTAIndexedDB.saveAnalytics (s_id s) "final_assessment"
         (FinalAssessment analytics) ;;
  ret analytics.

Definition completeSession : M unit :=
  s <- theSession ;;
  (modify (with_currentSession (Some (set_completionStatus "completed" s))) ;;;
   (completedAt <- newDate ;;
    s1 <- theSession ;;
    (modify (with_currentSession (Some (set_completedAt completedAt s1))) ;;;
     (s2 <- theSession ;;
      completedAt' <- newDate ;;
      _ <- LTAIndexedDB.updateSession (s_id s2)
             (fun d => set_completedAt completedAt'
                         (set_completionStatus "completed" d)) ;;
      _ <- generateFinalAnalytics ;;
      ret tt)))).

(* the for loop of getPreviousQuestion over the indices n-1, ..., 0 *)
Fixpoint scanBack (n : nat) (cfg : Config) (responses : gmap string Response)
    (stakeholderType : option string) : completion (option Question) :=
  match n with
  | O => Return None
  | S i =>
      match nth_error (questions cfg) i with
      | None => Throw (TypeError "prevQuestion is undefined")
      | Some prevQuestion =>
          if negb (LTASkipLogicProcessor.shouldSkip cfg (q_id prevQuestion)
                     responses stakeholderType)
          then Return (Some prevQuestion)
          else scanBack i cfg responses stakeholderType
      end
  end.

Definition getPreviousQuestion (cfg : Config) : M (option Question) :=
  match questions cfg with
  | [] => ret None
  | _ :: _ =>
      s <- theSession ;;
      let currentIndex :=
        findIndex (questions cfg) (Some (s_currentQuestion s)) in
      if currentIndex <=? 0 then ret None
      else
        fun w =>
          (scanBack (Z.to_nat currentIndex) cfg (responses w)
             (s_stakeholderType s), w)
  end.



End LTARouter.

(* --------------------------------------------------------------------- *)
(* class LTAAnalyticsEngine                                               *)
(* --------------------------------------------------------------------- *)

(* the five keys of the funnel object *)
Inductive Stage :=
| Awareness
| Interest
| Consideration
| Action
| Advocacy.

Global Instance Stage_eq_dec : EqDecision Stage.
Proof. solve_decision. Defined.

(* currentMetrics[funnelStage] *)
Definition stageScore (m : FunnelMetrics) (s : Stage) : JS.number :=
  match s with
  | Awareness => f_awareness m
  | Interest => f_interest m
  | Consideration => f_consideration m
  | Action => f_action m
  | Advocacy => f_advocacy m
  end.

(* currentMetrics[funnelStage] = v *)
Definition setStageScore (s : Stage) (v : JS.number) (m : FunnelMetrics)
    : FunnelMetrics :=
  match s with
  | Awareness =>
      mkFunnel v (f_interest m) (f_consideration m) (f_action m) (f_advocacy m)
  | Interest =>
      mkFunnel (f_awareness m) v (f_consideration m) (f_action m) (f_advocacy m)
  | Consideration =>
      mkFunnel (f_awareness m) (f_interest m) v (f_action m) (f_advocacy m)
  | Action =>
      mkFunnel (f_awareness m) (f_interest m) (f_consideration m) v (f_advocacy m)
  | Advocacy =>
      mkFunnel (f_awareness m) (f_interest m) (f_consideration m) (f_action m) v
  end.

Record Recommendation := mkRecommendation {
  area : string;
  recommendation : string;
  priority : string;
  impact : string
}.

(* an element of keyInsights *)
Record Insight := mkInsight {
  i_type : string;
  i_message : string;
  i_questionId : string;
  i_timestamp : Z
}.

(* the value stored under a key `section_<id>` of realTimeMetrics *)
Record SectionMetrics := mkSectionMetrics {
  sm_responses : nat;
  sm_averageScore : JS.number;
  sm_completionRate : JS.number;
  sm_keyInsights : list Insight
}.

(* an element of responsePatterns *)
Record Pattern := mkPattern {
  p_questionId : string;
  p_stakeholderType : string;
  p_responseValue : option string;
  p_analysis : string;
  p_timestamp : Z
}.

(* the value stored under a key `stakeholder_<type>` of realTimeMetrics *)
Record StakeholderMetrics := mkStakeholderMetrics {
  responsePatterns : list Pattern;
  specificConcerns : list string;
  recommendations : list string
}.

Module LTAAnalyticsEngine.

Definition determineFunnelStage (response : Response) : option Stage :=
  match r_section response with
  | Some section =>
      if String.eqb section "awareness" then Some Awareness
      else if String.eqb section "interest" then Some Interest
      else if String.eqb section "consideration" then Some Consideration
      else if String.eqb section "action" then Some Action
      else if String.eqb section "advocacy" then Some Advocacy
      else None
  | None => None
  end.

Definition calculateRecallScore (text : option string) : JS.number :=
  match text with
  | Some t =>
      if String.eqb t "" then JS.ofZ 0
      else
        let wordCount := Str.splitSpaces_length t in
        JS.Math_min (JS.mul (JS.ofNat wordCount) (JS.ofZ 2)) (JS.ofZ 10)
  | None => JS.ofZ 0
  end.

(* the table `mapping` of mapInterestToScore *)
Definition interestMapping : list (string * JS.number) :=
  [("Not at all", JS.ofZ 0); ("Slightly", JS.Num (5 # 2));
   ("Moderately", JS.ofZ 5); ("Significantly", JS.Num (15 # 2));
   ("Extremely", JS.ofZ 10)].

(* mapping[value] || 0 *)
Definition mapInterestToScore (value : option string) : JS.value :=
  JS.lookupOrZero interestMapping (Str.interpolate value).

(* response.values && response.values.length > 0 ? 10 : 0 *)
Definition anySelection (values : option (list string)) : JS.number :=
  match values with
  | Some vs => if (0 <? List.length vs)%nat then JS.ofZ 10 else JS.ofZ 0
  | None => JS.ofZ 0
  end.

Definition calculateStageScore (response : Response) : JS.value :=
  let questionId := r_questionId response in
  if String.eqb questionId "q8" then
    JS.Number (calculateRecallScore (r_value response))
  else if String.eqb questionId "q20" then mapInterestToScore (r_value response)
  else if String.eqb questionId "q31" then
    JS.Number (anySelection (r_values response))
  else if String.eqb questionId "q43" then
    JS.Number (anySelection (r_values response))
  else if String.eqb questionId "q54" then
    JS.Number
      (JS.mul (JS.div (Str.parseInt (r_value response)) (JS.ofZ 10)) (JS.ofZ 10))
  else JS.Number (JS.ofZ 5).

(* the object used when realTimeMetrics has no 'funnel' entry *)
Definition emptyFunnel : FunnelMetrics :=
  mkFunnel (JS.ofZ 0) (JS.ofZ 0) (JS.ofZ 0) (JS.ofZ 0) (JS.ofZ 0).

(* realTimeMetrics.get('funnel') || { awareness: 0, ... } *)
Definition funnelOf (entry : option FunnelMetrics) : FunnelMetrics :=
  default emptyFunnel entry.

(* updateFunnelMetrics, as a transformer of the 'funnel' entry of
   realTimeMetrics, the only entry it reads or writes *)
Definition updateFunnelMetrics (response : Response)
    (entry : option FunnelMetrics) : option FunnelMetrics :=
  match determineFunnelStage response with
  | None => entry
  | Some funnelStage =>
      let currentMetrics := funnelOf entry in
      Some (setStageScore funnelStage
              (JS.Math_max (stageScore currentMetrics funnelStage)
                 (JS.ToNumber (calculateStageScore response)))
              currentMetrics)
  end.

(* the funnel entry after a sequence of responses went through
   processResponse, oldest first *)
Definition processed (rs : list Response) (entry : option FunnelMetrics)
    : option FunnelMetrics :=
  fold_left (fun e r => updateFunnelMetrics r e) rs entry.

Definition awarenessRecommendation : Recommendation :=
  mkRecommendation "Awareness"
    "Increase campaign frequency and diversify media channels"
    "High" "Direct impact on brand recognition".
Definition engagementRecommendation : Recommendation :=
  mkRecommendation "Engagement"
    "Enhance content creativity and emotional appeal"
    "Medium" "Improved audience connection".
Definition advocacyRecommendation : Recommendation :=
  mkRecommendation "Advocacy"
    "Implement referral programs and ambassador initiatives"
    "High" "Increased word-of-mouth marketing".
Definition generalRecommendation : Recommendation :=
  mkRecommendation "General"
    "Continue current optimization strategy with regular assessment"
    "Medium" "Sustained performance improvement".

(* x?.score < bound, where x is undefined when the data has no such part *)
Definition below (score : option JS.value) (bound : Z) : bool :=
  match score with
  | Some v => JS.lt (JS.ToNumber v) (JS.ofZ bound)
  | None => false
  end.

(* finalAnalytics?.data || {}, destructured *)
Definition dataOf (finalAnalytics : option AnalyticsRecord)
    : option FinalAnalytics :=
  match finalAnalytics with
  | Some record =>
      match a_data record with
      | FinalAssessment a => Some a
      | RealTime _ => None
      end
  | None => None
  end.

(* generateRecommendations; its first parameter, sessionData, is not read *)
Definition generateRecommendations (finalAnalytics : option AnalyticsRecord)
    : list Recommendation :=
  let data := dataOf finalAnalytics in
  let recommendations :=
    (if below
          (option_map (fun d => JS.Number (unaidedRecallScore (awareness d))) data)
          5
     then [awarenessRecommendation] else [])
    ++ (if below (option_map (fun d => interestScore (engagement d)) data) 5
        then [engagementRecommendation] else [])
    ++ (if below (option_map (fun d => JS.Number (npsScore (conversion d))) data)
             7
        then [advocacyRecommendation] else []) in
  if (0 <? List.length recommendations)%nat then recommendations
  else [generalRecommendation].

(* --- section metrics; the entries `section_<id>` of realTimeMetrics are
   passed in and handed back, this.sessionId is a parameter --- *)

Definition calculateSectionCompletion (cfg : Config) (sessionId : Z)
    (section : string) : M JS.number :=
  stored <- LTAIndexedDB.getSessionResponses sessionId ;;
  let sectionQuestions :=
    List.filter (fun q => String.eqb (q_section q) section) (questions cfg) in
  let answeredInSection :=
    List.length
      (List.filter
         (fun q => existsb (fun r => String.eqb (r_questionId r) (q_id q)) stored)
         sectionQuestions) in
  ret (JS.mul
         (JS.div (JS.ofNat answeredInSection)
            (JS.ofNat (List.length sectionQuestions)))
         (JS.ofZ 100)).

Definition extractInsight (response : Response) : M (option Insight) :=
  if String.eqb (r_questionId response) "q8"
     && truthy (r_value response)
     && (50 <? Str.length (default "" (r_value response)))%nat
  then
    timestamp <- newDate ;;
    ret (Some (mkInsight "strong_recall" "Strong unaided recall demonstrated"
                 (r_questionId response) timestamp))
  else if String.eqb (r_questionId response) "q20"
          && bool_decide (r_value response = Some "Extremely")
  then
    timestamp <- newDate ;;
    ret (Some (mkInsight "high_interest" "Extremely high interest generated"
                 (r_questionId response) timestamp))
  else ret None.

(* keyInsights.slice(-5) *)
Definition lastFive (l : list Insight) : list Insight :=
  skipn (List.length l - 5) l.

Definition emptySectionMetrics : SectionMetrics :=
  mkSectionMetrics 0 (JS.ofZ 0) (JS.ofZ 0) [].

Definition sectionKey (section : string) : string := "section_" ++ section.

Definition updateSectionMetrics (cfg : Config) (sessionId : Z)
    (response : Response) (entries : gmap string SectionMetrics)
    : M (gmap string SectionMetrics) :=
  if truthy (r_section response) then
    let section := default "" (r_section response) in
    let sectionMetrics := default emptySectionMetrics (entries !! sectionKey section) in
    completionRate <- calculateSectionCompletion cfg sessionId section ;;
    insight <- extractInsight response ;;
    let keyInsights :=
      match insight with
      | Some i => lastFive (sm_keyInsights sectionMetrics ++ [i])
      | None => sm_keyInsights sectionMetrics
      end in
    ret (<[sectionKey section :=
             mkSectionMetrics (S (sm_responses sectionMetrics))
               (sm_averageScore sectionMetrics) completionRate keyInsights]>
           entries)
  else ret entries.

(* --- stakeholder insights; the entries `stakeholder_<type>` are passed in
   and handed back --- *)

Definition analyzeStakeholderPattern (response : Response)
    (stakeholderType : string) : M Pattern :=
  timestamp <- newDate ;;
  ret (mkPattern (r_questionId response) stakeholderType (r_value response)
         "Pattern detected" timestamp).

Definition emptyStakeholderMetrics : StakeholderMetrics :=
  mkStakeholderMetrics [] [] [].

Definition stakeholderKey (stakeholderType : string) : string :=
  "stakeholder_" ++ stakeholderType.

Definition updateStakeholderInsights (sessionId : Z) (response : Response)
    (entries : gmap string StakeholderMetrics)
    : M (gmap string StakeholderMetrics) :=
  found <- LTAIndexedDB.getSession sessionId ;;
  match found with
  | None => throw (TypeError "session is undefined")
  | Some session =>
      if truthy (s_stakeholderType session) then
        let stakeholderType := default "" (s_stakeholderType session) in
        let stakeholderMetrics :=
          default emptyStakeholderMetrics (entries !! stakeholderKey stakeholderType) in
        pattern <- analyzeStakeholderPattern response stakeholderType ;;
        ret (<[stakeholderKey stakeholderType :=
                 mkStakeholderMetrics
                   (responsePatterns stakeholderMetrics ++ [pattern])
                   (specificConcerns stakeholderMetrics)
                   (recommendations stakeholderMetrics)]>
               entries)
      else ret entries
  end.

(* --- the progress report; [funnel] is metrics.funnel, absent when
   realTimeMetrics has no such entry (the code then reads an empty
   object, every property of which is undefined) --- *)

(* funnel.<stage> >= bound and funnel.<stage> < bound *)
Definition stageAtLeast (funnel : option FunnelMetrics) (s : Stage) (bound : Z)
    : bool :=
  match funnel with
  | Some m => JS.ge (stageScore m s) (JS.ofZ bound)
  | None => false
  end.

Definition stageBelow (funnel : option FunnelMetrics) (s : Stage) (bound : Z)
    : bool :=
  match funnel with
  | Some m => JS.lt (stageScore m s) (JS.ofZ bound)
  | None => false
  end.

Definition identifyStrengths (funnel : option FunnelMetrics) : list string :=
  let strengths :=
    (if stageAtLeast funnel Awareness 7
     then ["Strong brand awareness and recall"] else [])
    ++ (if stageAtLeast funnel Interest 7
        then ["High engagement and interest generation"] else [])
    ++ (if stageAtLeast funnel Advocacy 7
        then ["Excellent advocacy potential"] else []) in
  if (0 <? List.length strengths)%nat then strengths
  else ["Solid foundation across all metrics"].

Definition identifyImprovementAreas (funnel : option FunnelMetrics)
    : list string :=
  let improvements :=
    (if stageBelow funnel Consideration 5
     then ["Need to improve consideration conversion"] else [])
    ++ (if stageBelow funnel Action 5
        then ["Action conversion requires optimization"] else []) in
  if (0 <? List.length improvements)%nat then improvements
  else ["Continue current optimization efforts"].

(* --- the executive summary --- *)

(* x || 0 for a property that may be undefined, as the comparisons of
   the reduce read it: 0 replaces undefined, 0 and NaN; an object is kept
   and compares as NaN *)
Definition orZero (x : option JS.value) : JS.number :=
  match x with
  | Some (JS.Number v) =>
      match JS.cmp v (JS.ofZ 0) with
      | None | Some Eq => JS.ofZ 0
      | _ => v
      end
  | Some other => JS.ToNumber other
  | None => JS.ofZ 0
  end.

(* the object `scores`, in the order of its keys *)
Definition scoresOf (record : AnalyticsRecord) : list (string * JS.number) :=
  let data := dataOf (Some record) in
  [("awareness",
    orZero (option_map (fun d => JS.Number (unaidedRecallScore (awareness d))) data));
   ("engagement", orZero (option_map (fun d => interestScore (engagement d)) data));
   ("conversion",
    orZero (option_map (fun d => JS.Number (npsScore (conversion d))) data))].

(* Object.keys(scores).reduce((a, b) => prefer(scores[a], scores[b]) ? a : b),
   each key carried with its score *)
Definition reduceKeys (prefer : JS.number -> JS.number -> bool)
    (scores : list (string * JS.number)) : option (string * JS.number) :=
  match scores with
  | [] => None
  | first :: rest =>
      Some (fold_left (fun a b => if prefer (snd a) (snd b) then a else b)
              rest first)
  end.

Definition identifyPrimaryStrength (finalAnalytics : option AnalyticsRecord)
    : string :=
  match finalAnalytics with
  | None => "Strong engagement across metrics"
  | Some record =>
      match reduceKeys JS.gt (scoresOf record) with
      | Some (key, _) => key
      | None => ""
      end
  end.

Definition identifyPrimaryOpportunity (finalAnalytics : option AnalyticsRecord)
    : string :=
  match finalAnalytics with
  | None => "Continue optimization efforts"
  | Some record =>
      match reduceKeys JS.lt (scoresOf record) with
      | Some (key, _) => key
      | None => ""
      end
  end.

End LTAAnalyticsEngine.

(* --------------------------------------------------------------------- *)
(* A small catalog and session used to exercise the definitions           *)
(* --------------------------------------------------------------------- *)

Module Sample.

Definition q1 : Question := mkQuestion "q1" "screening" true None.
Definition q2 : Question :=
  mkQuestion "q2" "awareness" true (Some (mkLogic (Some ["retailer"]))).
Definition q3 : Question := mkQuestion "q3" "awareness" true None.
Definition q4 : Question := mkQuestion "q4" "interest" false None.
Definition q5 : Question := mkQuestion "q5" "advocacy" false None.

(* rule (q1, "B"): jump to q5 *)
Definition jump : Rule :=
  mkRule "skipTo" (Some (TargetQuestion "q5")) None
    (mkCondition "q1" (Some "B") false false).

Definition catalog : Config :=
  mkConfig [q1; q2; q3; q4; q5] (<["q1_B" := jump]> ∅).

Definition answer (qid section value : string) : Response :=
  mkResponse qid (Some section) (Some value) None None.

Definition session : Session :=
  mkSession 1 0 0 "in_progress" "screening" "q1" None (JS.ofZ 0) None.

(* session 1 is stored and loaded, q1 and q2 are answered, the clock
   advances by one at each reading *)
Definition world : World :=
  mkWorld (<[1 := session]> ∅) ∅ ∅ (Some session)
    (<["q2" := answer "q2" "awareness" "yes"]>
       (<["q1" := answer "q1" "screening" "A"]> ∅))
    Z.of_nat 0.

(* one question, two distinct answered ids *)
Definition shortCatalog : Config := mkConfig [q1] ∅.
Definition staleWorld : World :=
  mkWorld ∅ ∅ ∅ None
    (<["q1" := answer "q1" "screening" "A"]>
       (<["q0" := answer "q0" "screening" "old"]> ∅))
    Z.of_nat 0.

(* the sample world with the session positioned at q3 *)
Definition atQ3 : World :=
  with_currentSession (Some (set_position "q3" "awareness" session)) world.

(* the sample world after the session store lost the session *)
Definition orphaned : World := with_sessions ∅ world.

(* the interest section already holds five insights *)
Definition fullInsights : gmap string SectionMetrics :=
  <["section_interest" :=
      mkSectionMetrics 5 (JS.ofZ 0) (JS.ofZ 0)
        [mkInsight "high_interest" "first" "q20" 1;
         mkInsight "high_interest" "second" "q20" 2;
         mkInsight "high_interest" "third" "q20" 3;
         mkInsight "high_interest" "fourth" "q20" 4;
         mkInsight "high_interest" "fifth" "q20" 5]]> ∅.

(* the sample world with the stored session known to be a retailer's *)
Definition retailerWorld : World :=
  with_sessions (<[1 := set_stakeholderType (Some "retailer") session]> ∅) world.

(* the sample world with an answer to q54 that parseInt cannot read *)
Definition undecided : World :=
  with_responses (<["q54" := answer "q54" "advocacy" "n/a"]> (responses world))
    world.

(* forty questions with one-letter ids, and a router that holds answers
   to the first twenty-three *)
Definition letter (i : nat) : string := String (ascii_of_nat (48 + i)) "".
Definition forty : Config :=
  mkConfig (List.map (fun i => mkQuestion (letter i) "screening" false None)
              (seq 0 40)) ∅.
Definition twentyThree : World :=
  mkWorld ∅ ∅ ∅ None
    (list_to_map
       (List.map (fun i => (letter i, answer (letter i) "screening" "yes"))
          (seq 0 23)))
    Z.of_nat 0.

(* the sample world with the answer "constructor" to q20 *)
Definition inherited : World :=
  with_responses
    (<["q20" := answer "q20" "interest" "constructor"]> (responses world))
    world.

(* the sample world with a rich answer to q8 and the answer "__proto__"
   to q20 *)
Definition protoInterest : World :=
  with_responses
    (<["q20" := answer "q20" "interest" "__proto__"]>
       (<["q8" := answer "q8" "awareness"
                    "limpopo tourism campaign event marketing"]>
          (responses world)))
    world.

(* a question whose id is "_", answered "proto__": the key of its rule
   is "__proto__" *)
Definition protoCatalog : Config :=
  mkConfig [q1; mkQuestion "_" "screening" false None; q3] ∅.
Definition protoAnswer : gmap string Response :=
  <["_" := answer "_" "screening" "proto__"]> ∅.

(* rule (q1, "B"): jump to q2, which is for retailers only *)
Definition jumpToRestricted : Config :=
  mkConfig [q1; q2; q3; q4; q5]
    (<["q1_B" := mkRule "skipTo" (Some (TargetQuestion "q2")) None
                   (mkCondition "q9" (Some "never") false false)]> ∅).

(* rule (q1, "C"): route to the range q8-q3, whose start is no question *)
Definition brokenRange : Config :=
  mkConfig [q1; q2; q3; q4; q5]
    (<["q1_C" := mkRule "showSection" (Some (TargetRange "q8-q3")) None
                   (mkCondition "q9" (Some "never") false false)]> ∅).

(* a question whose id contains the separator of the rule keys, and a
   rule meant for it whose condition holds *)
Definition q_1 : Question := mkQuestion "q_1" "screening" false None.
Definition underscored : Config :=
  mkConfig [q1; q_1; q3]
    (<["q_1_A" := mkRule "skipTo" (Some (TargetQuestion "q3")) None
                    (mkCondition "q1" (Some "A") false false)]> ∅).

End Sample.

(* --------------------------------------------------------------------- *)
(* Notions the properties are stated with                                 *)
(* --------------------------------------------------------------------- *)

(* A score that was [old] is now [new]: it became NaN, or it is a number
   not smaller than the number it was. *)
Definition notDecreased (old new : JS.number) : Prop :=
  JS.isNaN new = true \/ JS.le old new = true.

(* the score of the response is a number: Math.max reads no NaN *)
Definition numericScore (r : Response) : Prop :=
  JS.isNaN (JS.ToNumber (LTAAnalyticsEngine.calculateStageScore r)) = false.

(* the question ids calculateStageScore has a case for *)
Definition scoredQuestions : list string := ["q8"; "q20"; "q31"; "q43"; "q54"].

(* round(x): the nearest integer, halves upwards *)
Definition round (x : Q) : Z := Qfloor (x + (1 # 2)).

(* round(100 * distinctAnsweredCount / totalQuestionCount), as the
   specification words the progress percentage *)
Definition roundPercent (distinctAnsweredCount totalQuestionCount : nat) : Z :=
  round (inject_Z 100 * inject_Z (Z.of_nat distinctAnsweredCount)
         / inject_Z (Z.of_nat totalQuestionCount)).

(* The state completeSession leaves when the router holds session s and
   the session store holds the copy d of it: the session object of the
   router, the stored copy, the analytics record, and the whole state. *)
Definition completedSession (w : World) (s : Session) : Session :=
  set_completedAt (clock w (ticks w)) (set_completionStatus "completed" s).

Definition completedCopy (w : World) (d : Session) : Session :=
  set_lastModified (clock w (S (S (ticks w))))
    (set_completedAt (clock w (S (ticks w)))
       (set_completionStatus "completed" d)).

Definition finalRecord (w : World) (s : Session) : AnalyticsRecord :=
  mkAnalyticsRecord (s_id s) "final_assessment"
    (FinalAssessment (LTARouter.finalAnalyticsOf w))
    (clock w (S (S (S (ticks w))))).

Definition completedWorld (w : World) (s d : Session) : World :=
  mkWorld (<[s_id s := completedCopy w d]> (sessions w)) (storedResponses w)
    (<[(s_id s, "final_assessment") := finalRecord w s]> (analytics w))
    (Some (completedSession w s)) (responses w) (clock w)
    (S (S (S (S (ticks w))))).

(* the final analytics of the state can be stored: what the answer to
   q20 is mapped to is no function *)
Definition savable (w : World) : Prop :=
  LTAIndexedDB.cloneableData (FinalAssessment (LTARouter.finalAnalyticsOf w))
  = true.

(* the state completeSession leaves when the final analytics could not be
   stored: the session is marked and stamped, the clock was read for
   calculatedAt, the analytics are as before *)
Definition unsavedWorld (w : World) (s d : Session) : World :=
  mkWorld (<[s_id s := completedCopy w d]> (sessions w)) (storedResponses w)
    (analytics w) (Some (completedSession w s)) (responses w) (clock w)
    (S (S (S (S (ticks w))))).

(* the first question of a list that shouldSkip lets through *)
Definition firstShown (cfg : Config) (responses : gmap string Response)
    (stakeholderType : option string) (l : list Question) : option Question :=
  List.find
    (fun q =>
       negb (LTASkipLogicProcessor.shouldSkip cfg (q_id q) responses
               stakeholderType))
    l.

(* the questions after position i of the catalog *)
Definition questionsAfter (cfg : Config) (i : Z) : list Question :=
  skipn (Z.to_nat (i + 1)) (questions cfg).

(* a score on the scale from 0 to 10, and a rate from 0 to 100 *)
Definition inScale (x : JS.number) : Prop :=
  JS.le (JS.ofZ 0) x = true /\ JS.le x (JS.ofZ 10) = true.

Definition isRate (x : JS.number) : Prop :=
  JS.le (JS.ofZ 0) x = true /\ JS.le x (JS.ofZ 100) = true.

(* the interest score of the record's data, if it has any, is a number *)
Definition numericInterest (record : AnalyticsRecord) : Prop :=
  forall d, LTAAnalyticsEngine.dataOf (Some record) = Some d ->
            exists n, interestScore (engagement d) = JS.Number n.

(* a value that is a number on the scale *)
Definition scoreInScale (v : JS.value) : Prop :=
  exists n, v = JS.Number n /\ inScale n.

(* ===================================================================== *)
(* Properties                                                             *)
(* ===================================================================== *)

(* --------------------------------------------------------------------- *)
(* Lists of questions                                                     *)
(* --------------------------------------------------------------------- *)

Lemma findQuestion_Some qs qid q :
  findQuestion qs qid = Some q -> In q qs /\ q_id q = qid.
Proof.
  unfold findQuestion. intros H. apply find_some in H as [Hin Heq].
  split; [exact Hin | now apply String.eqb_eq].
Qed.

Lemma findQuestion_unique qs q :
  NoDup (List.map q_id qs) -> In q qs -> findQuestion qs (q_id q) = Some q.
Proof.
  unfold findQuestion. induction qs as [| x rest IH]; intros Hnd Hin.
  - destruct Hin.
  - cbn [List.find]. inversion Hnd as [| ? ? Hnotin Hrest]; subst.
    destruct (String.eqb_spec (q_id x) (q_id q)) as [Heq | Hne].
    + destruct Hin as [-> | Hin]; [reflexivity |].
      exfalso. apply Hnotin. rewrite Heq. apply list_elem_of_In. now apply in_map.
    + destruct Hin as [-> | Hin]; [congruence |]. now apply IH.
Qed.

Lemma length_zero_filter {A} (p : A -> bool) (l : list A) :
  (List.length (List.filter p l) =? 0)%nat = true
  <-> forall x, In x l -> p x = false.
Proof.
  rewrite Nat.eqb_eq. split.
  - intros Hlen x Hin. destruct (p x) eqn:Hp; [| reflexivity].
    assert (Hx : In x (List.filter p l)) by (apply filter_In; auto).
    destruct (List.filter p l); [destruct Hx | discriminate].
  - intros Hall. induction l as [| a l IH]; [reflexivity |].
    cbn [List.filter]. rewrite (Hall a (or_introl eq_refl)).
    apply IH. intros x Hx. apply Hall. now right.
Qed.

Lemma length_nonzero_filter {A} (p : A -> bool) (l : list A) :
  (List.length (List.filter p l) =? 0)%nat = false ->
  exists x, In x l /\ p x = true.
Proof.
  intros Hlen. destruct (List.filter p l) as [| x l'] eqn:Hf; [discriminate |].
  assert (Hx : In x (List.filter p l)) by (rewrite Hf; now left).
  apply filter_In in Hx. eauto.
Qed.

(* --------------------------------------------------------------------- *)
(* canSubmit                                                              *)
(* --------------------------------------------------------------------- *)

Lemma canSubmit_true cfg w :
  LTARouter.canSubmit cfg w = true
  <-> forall q, In q (questions cfg) -> q_required q = true ->
        is_Some (responses w !! q_id q).
Proof.
  unfold LTARouter.canSubmit. rewrite length_zero_filter. split.
  - intros H q Hin Hreq.
    specialize (H q). rewrite filter_In in H.
    specialize (H (conj Hin Hreq)).
    apply negb_false_iff in H. now apply bool_decide_eq_true in H.
  - intros H q Hq. apply filter_In in Hq as [Hin Hreq].
    apply negb_false_iff, bool_decide_eq_true. now apply H.
Qed.

(** C5: canSubmit() is false exactly when some question with the required
    flag has no entry in the response map, and true exactly when every
    required question has one. *)
Theorem canSubmit_iff_required_answered cfg w :
  (LTARouter.canSubmit cfg w = false
   <-> exists q, In q (questions cfg) /\ q_required q = true
                 /\ responses w !! q_id q = None)
  /\ (LTARouter.canSubmit cfg w = true
      <-> forall q, In q (questions cfg) -> q_required q = true ->
            is_Some (responses w !! q_id q)).
Proof.
  split; [| apply canSubmit_true].
  split.
  - unfold LTARouter.canSubmit. intros Hfalse.
    apply length_nonzero_filter in Hfalse as (q & Hq & Hun).
    apply filter_In in Hq as [Hin Hreq].
    exists q. split; [exact Hin |]. split; [exact Hreq |].
    apply negb_true_iff, bool_decide_eq_false in Hun.
    destruct (responses w !! q_id q) eqn:Hget; [| reflexivity].
    exfalso. apply Hun. eauto.
  - intros (q & Hin & Hreq & Hnone).
    destruct (LTARouter.canSubmit cfg w) eqn:Hc; [| reflexivity].
    rewrite canSubmit_true in Hc. specialize (Hc q Hin Hreq).
    rewrite Hnone in Hc. now destruct Hc.
Qed.

(* scenario 1 of the specification: q3 is required and has no response *)
Lemma canSubmit_iff_required_answered_witness :
  LTARouter.canSubmit Sample.catalog Sample.world = false.
Proof.
  apply (canSubmit_iff_required_answered Sample.catalog Sample.world).
  exists Sample.q3. split; [| split].
  - vm_compute. tauto.
  - reflexivity.
  - vm_compute. reflexivity.
Defined.

(* --------------------------------------------------------------------- *)
(* shouldSkip and evaluateCondition                                       *)
(* --------------------------------------------------------------------- *)

Lemma excluded_absent types stakeholderType :
  truthy stakeholderType = false ->
  LTASkipLogicProcessor.excluded types stakeholderType = true.
Proof.
  intros H. unfold LTASkipLogicProcessor.excluded. now rewrite H.
Qed.

Lemma excluded_not_member types t :
  ~ In t types -> LTASkipLogicProcessor.excluded types (Some t) = true.
Proof.
  intros Hnot. unfold LTASkipLogicProcessor.excluded.
  apply orb_true_iff. right. apply negb_true_iff.
  destruct (existsb _ types) eqn:Hex; [| reflexivity].
  apply existsb_exists in Hex as (x & Hin & Hx).
  apply bool_decide_eq_true in Hx. inversion Hx; subst. contradiction.
Qed.

(** C6: a question of the catalog that declares a stakeholderTypes
    restriction is skipped as soon as the session's stakeholder type is
    absent (null or the empty string) or is not listed, whatever the
    response map holds.  The question is the one the catalog resolves its
    id to: it occurs in the catalog, whose ids are unique. *)
Theorem shouldSkip_stakeholder_excluded
    cfg (q : Question) (l : Logic) (types : list string)
    (responses : gmap string Response) (stakeholderType : option string) :
  NoDup (List.map q_id (questions cfg)) ->
  In q (questions cfg) ->
  q_logic q = Some l ->
  stakeholderTypes l = Some types ->
  (truthy stakeholderType = false
   \/ exists t, stakeholderType = Some t /\ ~ In t types) ->
  LTASkipLogicProcessor.shouldSkip cfg (q_id q) responses stakeholderType = true.
Proof.
  intros Hnd Hin Hlogic Htypes Hex.
  unfold LTASkipLogicProcessor.shouldSkip.
  rewrite (findQuestion_unique _ _ Hnd Hin), Hlogic, Htypes.
  destruct Hex as [Habsent | (t & -> & Hnot)].
  - now rewrite excluded_absent.
  - now rewrite excluded_not_member.
Qed.

(* scenario 6 of the specification: q2 is for retailers, the session is a
   consumer's, and the answers play no role *)
Lemma shouldSkip_stakeholder_excluded_witness :
  LTASkipLogicProcessor.shouldSkip Sample.catalog "q2"
    (responses Sample.world) (Some "consumer") = true.
Proof.
  apply (shouldSkip_stakeholder_excluded Sample.catalog Sample.q2
           (mkLogic (Some ["retailer"])) ["retailer"]
           (responses Sample.world) (Some "consumer")).
  - apply (bool_decide_unpack _). vm_compute. exact I.
  - vm_compute. tauto.
  - reflexivity.
  - reflexivity.
  - right. exists "consumer". split; [reflexivity |].
    intros [H | []]. discriminate.
Defined.

(** C7: when the response the condition refers to is missing, an
    equals-value condition is not met (the call yields undefined, which is
    false to its callers), a set-is-empty condition is met, and a
    set-is-nonempty condition is not met.  The kind of a condition is the
    first of `value`, `includesNone`, `includesAny` that is set. *)
Theorem evaluateCondition_missing_response
    (c : Condition) (responses : gmap string Response) :
  responses !! c_from c = None ->
  (truthy (c_value c) = true ->
     LTASkipLogicProcessor.evaluateCondition c responses = None
     /\ LTASkipLogicProcessor.met
          (LTASkipLogicProcessor.evaluateCondition c responses) = false)
  /\ (truthy (c_value c) = false -> c_includesNone c = true ->
        LTASkipLogicProcessor.evaluateCondition c responses = Some true)
  /\ (truthy (c_value c) = false -> c_includesNone c = false ->
      c_includesAny c = true ->
        LTASkipLogicProcessor.evaluateCondition c responses = None
        /\ LTASkipLogicProcessor.met
             (LTASkipLogicProcessor.evaluateCondition c responses) = false).
Proof.
  intros Hmiss. unfold LTASkipLogicProcessor.evaluateCondition.
  rewrite Hmiss. repeat split; intros.
  all: repeat match goal with H : _ = _ |- _ => rewrite H end; reflexivity.
Qed.

Lemma evaluateCondition_missing_response_witness :
  LTASkipLogicProcessor.met
    (LTASkipLogicProcessor.evaluateCondition
       (mkCondition "q3" (Some "B") false false) (responses Sample.world))
  = false
  /\ LTASkipLogicProcessor.evaluateCondition
       (mkCondition "q3" None true false) (responses Sample.world) = Some true
  /\ LTASkipLogicProcessor.met
       (LTASkipLogicProcessor.evaluateCondition
          (mkCondition "q3" None false true) (responses Sample.world))
     = false.
Proof.
  pose proof (evaluateCondition_missing_response
                (mkCondition "q3" (Some "B") false false)
                (responses Sample.world) ltac:(vm_compute; reflexivity))
    as (Hequals & _ & _).
  pose proof (evaluateCondition_missing_response
                (mkCondition "q3" None true false)
                (responses Sample.world) ltac:(vm_compute; reflexivity))
    as (_ & Hnone & _).
  pose proof (evaluateCondition_missing_response
                (mkCondition "q3" None false true)
                (responses Sample.world) ltac:(vm_compute; reflexivity))
    as (_ & _ & Hany).
  split; [| split].
  - apply Hequals. reflexivity.
  - apply Hnone; reflexivity.
  - apply Hany; reflexivity.
Defined.

(* --------------------------------------------------------------------- *)
(* Positions in the catalog                                               *)
(* --------------------------------------------------------------------- *)

Lemma position_bound qs qid n :
  position qs qid = Some n -> (n < List.length qs)%nat.
Proof.
  revert n. induction qs as [| x rest IH]; intros n; cbn [position].
  - discriminate.
  - destruct (String.eqb (q_id x) qid).
    + intros [= <-]. cbn. lia.
    + destruct (position rest qid) as [m |]; [| discriminate].
      intros [= <-]. specialize (IH m eq_refl). cbn. lia.
Qed.

Lemma findIndex_range qs qid :
  -1 <= findIndex qs qid < Z.of_nat (List.length qs).
Proof.
  unfold findIndex. destruct qid as [i |]; [| lia].
  destruct (position qs i) as [n |] eqn:Hp; [| lia].
  apply position_bound in Hp. lia.
Qed.

Lemma position_nth qs n q :
  NoDup (List.map q_id qs) -> nth_error qs n = Some q ->
  position qs (q_id q) = Some n.
Proof.
  revert n. induction qs as [| x rest IH]; intros n Hnd Hnth.
  - destruct n; discriminate.
  - inversion Hnd as [| ? ? Hnotin Hrest]; subst. cbn [position].
    destruct n as [| n]; cbn in Hnth.
    + injection Hnth as ->. now rewrite String.eqb_refl.
    + destruct (String.eqb_spec (q_id x) (q_id q)) as [Heq | Hne].
      * exfalso. apply Hnotin. rewrite Heq. apply list_elem_of_In.
        apply in_map. eapply nth_error_In. exact Hnth.
      * now rewrite (IH n Hrest Hnth).
Qed.

Lemma item_Some qs i q :
  item qs i = Some q -> 0 <= i /\ nth_error qs (Z.to_nat i) = Some q.
Proof.
  unfold item. destruct (Z.ltb_spec i 0); [discriminate |]. auto.
Qed.

Lemma findIndex_item qs i q :
  NoDup (List.map q_id qs) -> item qs i = Some q ->
  findIndex qs (Some (q_id q)) = i.
Proof.
  intros Hnd Hitem. apply item_Some in Hitem as [Hpos Hnth].
  unfold findIndex. rewrite (position_nth _ _ _ Hnd Hnth). lia.
Qed.

(* --------------------------------------------------------------------- *)
(* The question walk: more fuel never changes an outcome                  *)
(* --------------------------------------------------------------------- *)

Section Walk.

Import LTASkipLogicProcessor.

Variable cfg : Config.
Variable responses : gmap string Response.
Variable stakeholderType : option string.

Lemma getNextQuestionAfter_more fuel fuel' qid r :
  getNextQuestionAfter fuel cfg qid responses stakeholderType = Some r ->
  (fuel <= fuel')%nat ->
  getNextQuestionAfter fuel' cfg qid responses stakeholderType = Some r.
Proof.
  revert fuel' qid. induction fuel as [| fuel IH]; intros fuel' qid Hrun Hle.
  - discriminate.
  - destruct fuel' as [| fuel']; [lia |].
    cbn [getNextQuestionAfter] in *.
    destruct (item (questions cfg) (findIndex (questions cfg) qid + 1))
      as [next |]; [| exact Hrun].
    destruct (shouldSkip cfg (q_id next) responses stakeholderType);
      [| exact Hrun].
    apply IH; [exact Hrun | lia].
Qed.

Lemma applySkipLogic_more fuel fuel' rule r :
  applySkipLogic fuel cfg rule responses stakeholderType = Some r ->
  (fuel <= fuel')%nat ->
  applySkipLogic fuel' cfg rule responses stakeholderType = Some r.
Proof.
  unfold applySkipLogic, handleSectionRouting. intros Hrun Hle.
  destruct (String.eqb (action rule) "skipTo"); [exact Hrun |].
  destruct (String.eqb (action rule) "show");
    [eapply getNextQuestionAfter_more; eauto |].
  destruct (String.eqb (action rule) "showSection");
    [| eapply getNextQuestionAfter_more; eauto].
  destruct (target rule) as [[question | range] |]; try exact Hrun.
  destruct (Str.split2 "-" range) as [startQ endQ].
  destruct (scanRange _ _ cfg responses stakeholderType); [exact Hrun |].
  eapply getNextQuestionAfter_more; eauto.
Qed.

Lemma getNextQuestion_more fuel fuel' qid r :
  getNextQuestion fuel cfg qid responses stakeholderType = Some r ->
  (fuel <= fuel')%nat ->
  getNextQuestion fuel' cfg qid responses stakeholderType = Some r.
Proof.
  revert fuel' qid. induction fuel as [| fuel IH]; intros fuel' qid Hrun Hle.
  - discriminate.
  - destruct fuel' as [| fuel']; [lia |].
    cbn [getNextQuestion] in *.
    destruct (findQuestion (questions cfg) qid); [| exact Hrun].
    destruct (skipLogicAt cfg (logicKeyOf qid responses)) as [[rule | member] |].
    + eapply applySkipLogic_more; [exact Hrun | lia].
    + eapply getNextQuestionAfter_more; [exact Hrun | lia].
    + destruct (item (questions cfg) (findIndex (questions cfg) (Some qid) + 1))
        as [next |]; [| exact Hrun].
      destruct (shouldSkip cfg (q_id next) responses stakeholderType);
        [| exact Hrun].
      apply IH; [exact Hrun | lia].
Qed.

(* two calls that end have the same outcome *)
Lemma nextQuestion_unique qid r1 r2 :
  nextQuestion cfg qid responses stakeholderType r1 ->
  nextQuestion cfg qid responses stakeholderType r2 ->
  r1 = r2.
Proof.
  intros [f1 H1] [f2 H2].
  apply getNextQuestion_more with (fuel' := Nat.max f1 f2) in H1; [| lia].
  apply getNextQuestion_more with (fuel' := Nat.max f1 f2) in H2; [| lia].
  congruence.
Qed.

(* --- with unique ids the walk ends: each call moves one position on --- *)

Hypothesis unique_ids : NoDup (List.map q_id (questions cfg)).

Lemma getNextQuestionAfter_ends fuel qid :
  Z.of_nat (List.length (questions cfg)) - (findIndex (questions cfg) qid + 1)
    < Z.of_nat fuel ->
  exists r, getNextQuestionAfter fuel cfg qid responses stakeholderType = Some r.
Proof.
  revert qid. induction fuel as [| fuel IH]; intros qid Hfuel.
  - pose proof (findIndex_range (questions cfg) qid). lia.
  - cbn [getNextQuestionAfter].
    destruct (item (questions cfg) (findIndex (questions cfg) qid + 1))
      as [next |] eqn:Hitem; [| eauto].
    destruct (shouldSkip cfg (q_id next) responses stakeholderType); [| eauto].
    apply IH. rewrite (findIndex_item _ _ _ unique_ids Hitem). lia.
Qed.

Lemma applySkipLogic_ends fuel rule :
  (List.length (questions cfg) < fuel)%nat ->
  exists r, applySkipLogic fuel cfg rule responses stakeholderType = Some r.
Proof.
  intros Hfuel.
  assert (Hafter : forall qid, exists r,
            getNextQuestionAfter fuel cfg qid responses stakeholderType = Some r).
  { intros qid. apply getNextQuestionAfter_ends.
    pose proof (findIndex_range (questions cfg) qid). lia. }
  unfold applySkipLogic, handleSectionRouting.
  destruct (String.eqb (action rule) "skipTo").
  { destruct (target rule) as [[question | range] |]; eauto. }
  destruct (String.eqb (action rule) "show"); [apply Hafter |].
  destruct (String.eqb (action rule) "showSection"); [| apply Hafter].
  destruct (target rule) as [[question | range] |]; eauto.
  destruct (Str.split2 "-" range) as [startQ endQ].
  destruct (scanRange _ _ cfg responses stakeholderType); eauto.
Qed.

Lemma getNextQuestion_ends fuel qid :
  Z.of_nat (List.length (questions cfg))
    - (findIndex (questions cfg) (Some qid) + 1)
    + Z.of_nat (List.length (questions cfg)) + 1 < Z.of_nat fuel ->
  exists r, getNextQuestion fuel cfg qid responses stakeholderType = Some r.
Proof.
  revert qid. induction fuel as [| fuel IH]; intros qid Hfuel.
  - pose proof (findIndex_range (questions cfg) (Some qid)). lia.
  - pose proof (findIndex_range (questions cfg) (Some qid)) as Hrange.
    cbn [getNextQuestion].
    destruct (findQuestion (questions cfg) qid); [| eauto].
    destruct (skipLogicAt cfg (logicKeyOf qid responses)) as [[rule | member] |].
    + apply applySkipLogic_ends. lia.
    + apply getNextQuestionAfter_ends.
      pose proof (findIndex_range (questions cfg) None). lia.
    + destruct (item (questions cfg) (findIndex (questions cfg) (Some qid) + 1))
        as [next |] eqn:Hitem; [| eauto].
      destruct (shouldSkip cfg (q_id next) responses stakeholderType); [| eauto].
      apply IH. rewrite (findIndex_item _ _ _ unique_ids Hitem). lia.
Qed.

Lemma getNextQuestion_enough_fuel qid :
  exists r, forall fuel,
    (2 * List.length (questions cfg) + 2 <= fuel)%nat ->
    getNextQuestion fuel cfg qid responses stakeholderType = Some r.
Proof.
  destruct (getNextQuestion_ends (2 * List.length (questions cfg) + 2) qid)
    as [r Hr].
  { pose proof (findIndex_range (questions cfg) (Some qid)). lia. }
  exists r. intros fuel Hle. eapply getNextQuestion_more; eauto.
Qed.

End Walk.

(** C1: getNextQuestion is a function of the catalog it was built with and
    of its three arguments only: it reads no other state and writes none,
    so any two calls with the same current question id, response map and
    stakeholder type that end, end with the same outcome (the same
    question, or undefined).  Over a catalog with unique question ids
    every call ends, so the outcome exists and is the same at every
    sufficient recursion depth. *)
Theorem getNextQuestion_pure
    cfg (currentQuestionId : string) (responses : gmap string Response)
    (stakeholderType : option string) :
  (forall r1 r2,
     LTASkipLogicProcessor.nextQuestion cfg currentQuestionId responses
       stakeholderType r1 ->
     LTASkipLogicProcessor.nextQuestion cfg currentQuestionId responses
       stakeholderType r2 ->
     r1 = r2)
  /\ (NoDup (List.map q_id (questions cfg)) ->
      exists r, forall fuel,
        (2 * List.length (questions cfg) + 2 <= fuel)%nat ->
        LTASkipLogicProcessor.getNextQuestion fuel cfg currentQuestionId
          responses stakeholderType = Some r).
Proof.
  split.
  - intros r1 r2. apply nextQuestion_unique.
  - intros Hnd. now apply getNextQuestion_enough_fuel.
Qed.

(* scenario 2 of the specification read on the sample catalog: a consumer
   who answered "A" to q1 is led to q3 (q2 is for retailers), at every
   depth, and to nothing else *)
Lemma getNextQuestion_pure_witness :
  LTASkipLogicProcessor.getNextQuestion 12 Sample.catalog "q1"
    (responses Sample.world) (Some "consumer")
  = LTASkipLogicProcessor.getNextQuestion 20 Sample.catalog "q1"
      (responses Sample.world) (Some "consumer")
  /\ ~ LTASkipLogicProcessor.nextQuestion Sample.catalog "q1"
         (responses Sample.world) (Some "consumer") (Return None).
Proof.
  pose proof (getNextQuestion_pure Sample.catalog "q1"
                (responses Sample.world) (Some "consumer")) as [Hsame Hends].
  split.
  - destruct Hends as [r Hr].
    { apply (bool_decide_unpack _). vm_compute. exact I. }
    rewrite (Hr 12%nat), (Hr 20%nat); [reflexivity | |]; vm_compute; lia.
  - intros Hnone.
    assert (Hq3 : LTASkipLogicProcessor.nextQuestion Sample.catalog "q1"
                    (responses Sample.world) (Some "consumer")
                    (Return (Some Sample.q3))).
    { exists 3%nat. vm_compute. reflexivity. }
    specialize (Hsame _ _ Hnone Hq3). discriminate.
Defined.

(** X11: the router's own getNextQuestion(currentResponse) writes the
    response into the router's map before it asks the processor; a second
    call with the same response, made in the state the first call left,
    changes nothing and gives the same answer. *)
Lemma router_getNextQuestion_repeatable fuel cfg currentResponse w r w1 :
  LTARouter.getNextQuestion fuel cfg currentResponse w = Some (r, w1) ->
  LTARouter.getNextQuestion fuel cfg currentResponse w1 = Some (r, w1).
Proof.
  unfold LTARouter.getNextQuestion.
  set (put := fun w0 : World =>
                match currentResponse with
                | Some x => with_responses (<[r_questionId x := x]> (responses w0)) w0
                | None => w0
                end).
  change (match currentSession (put w) with
          | Some s =>
              option_map (fun r0 => (r0, put w))
                (LTASkipLogicProcessor.getNextQuestion fuel cfg
                   (s_currentQuestion s) (responses (put w)) (s_stakeholderType s))
          | None => Some (Throw (TypeError "this.currentSession is null"), put w)
          end = Some (r, w1) ->
          match currentSession (put w1) with
          | Some s =>
              option_map (fun r0 => (r0, put w1))
                (LTASkipLogicProcessor.getNextQuestion fuel cfg
                   (s_currentQuestion s) (responses (put w1)) (s_stakeholderType s))
          | None => Some (Throw (TypeError "this.currentSession is null"), put w1)
          end = Some (r, w1)).
  assert (Hput : put (put w) = put w).
  { unfold put. destruct currentResponse as [x |]; [| reflexivity].
    unfold with_responses. cbn. now rewrite insert_insert_eq. }
  intros Hrun.
  assert (Hw1 : w1 = put w).
  { destruct (currentSession (put w)) as [s |].
    - destruct (LTASkipLogicProcessor.getNextQuestion _ _ _ _ _); cbn in Hrun;
        congruence.
    - congruence. }
  subst w1. rewrite Hput. exact Hrun.
Qed.

(* --------------------------------------------------------------------- *)
(* Unresolvable sessions and questions                                    *)
(* --------------------------------------------------------------------- *)

Lemma getNextQuestion_unresolved cfg qid responses stakeholderType :
  findQuestion (questions cfg) qid = None ->
  LTASkipLogicProcessor.getNextQuestion 1 cfg qid responses stakeholderType
  = Some (Return (item (questions cfg) 0)).
Proof.
  intros Hnone. cbn [LTASkipLogicProcessor.getNextQuestion].
  now rewrite Hnone.
Qed.

(** C9 (as the code has it): initialize throws Error('Session not found')
    when the session store has no such session; navigateToQuestion throws
    Error('Question <id> not found') when the catalog has no such
    question, and leaves every state as it was; getNextQuestion called
    with a current question id the catalog does not have throws nothing:
    it returns the first question of the catalog (undefined when the
    catalog is empty). *)
Theorem unresolved_ids cfg :
  (forall w sessionId,
     sessions w !! sessionId = None ->
     outcome (LTARouter.initialize sessionId w)
     = Throw (Error "Session not found"))
  /\ (forall w questionId,
        findQuestion (questions cfg) questionId = None ->
        LTARouter.navigateToQuestion cfg questionId w
        = (Throw (Error ("Question " ++ questionId ++ " not found")), w))
  /\ (forall currentQuestionId responses stakeholderType,
        findQuestion (questions cfg) currentQuestionId = None ->
        LTASkipLogicProcessor.nextQuestion cfg currentQuestionId responses
          stakeholderType (Return (item (questions cfg) 0))
        /\ forall e,
             ~ LTASkipLogicProcessor.nextQuestion cfg currentQuestionId
                 responses stakeholderType (Throw e)).
Proof.
  split; [| split].
  - intros w sessionId Hnone.
    unfold LTARouter.initialize, LTAIndexedDB.getSession, bind, gets, modify,
      throw, outcome.
    cbn. rewrite Hnone. reflexivity.
  - intros w questionId Hnone. unfold LTARouter.navigateToQuestion.
    rewrite Hnone. reflexivity.
  - intros qid responses stakeholderType Hnone.
    assert (Hfirst : LTASkipLogicProcessor.nextQuestion cfg qid responses
                       stakeholderType (Return (item (questions cfg) 0))).
    { exists 1%nat. now apply getNextQuestion_unresolved. }
    split; [exact Hfirst |].
    intros e Hthrow.
    pose proof (nextQuestion_unique _ _ _ _ _ _ Hfirst Hthrow). discriminate.
Qed.

Lemma unresolved_ids_witness :
  outcome (LTARouter.initialize 7 Sample.world)
  = Throw (Error "Session not found")
  /\ LTARouter.navigateToQuestion Sample.catalog "q77" Sample.world
     = (Throw (Error "Question q77 not found"), Sample.world)
  /\ LTASkipLogicProcessor.nextQuestion Sample.catalog "q77"
       (responses Sample.world) None (Return (Some Sample.q1)).
Proof.
  destruct (unresolved_ids Sample.catalog) as (Hinit & Hnav & Hnext).
  split; [| split].
  - apply Hinit. vm_compute. reflexivity.
  - apply (Hnav Sample.world "q77"). vm_compute. reflexivity.
  - apply (Hnext "q77" (responses Sample.world) None). vm_compute. reflexivity.
Defined.

(* C9 as the specification states it fails: the unresolvable id q77
   raises no error, the call answers with q1 *)
Lemma unresolved_current_question_counterexample :
  findQuestion (questions Sample.catalog) "q77" = None
  /\ LTASkipLogicProcessor.nextQuestion Sample.catalog "q77"
       (responses Sample.world) None (Return (Some Sample.q1))
  /\ ~ (exists e,
          LTASkipLogicProcessor.nextQuestion Sample.catalog "q77"
            (responses Sample.world) None (Throw e)).
Proof.
  assert (Hq1 : LTASkipLogicProcessor.nextQuestion Sample.catalog "q77"
                  (responses Sample.world) None (Return (Some Sample.q1))).
  { exists 1%nat. vm_compute. reflexivity. }
  split; [vm_compute; reflexivity |]. split; [exact Hq1 |].
  intros [e He].
  pose proof (nextQuestion_unique _ _ _ _ _ _ Hq1 He). discriminate.
Qed.

(* --------------------------------------------------------------------- *)
(* Order of JavaScript numbers                                            *)
(* --------------------------------------------------------------------- *)

Lemma le_Num x y : JS.le (JS.Num x) (JS.Num y) = true <-> (x <= y)%Q.
Proof.
  unfold JS.le, JS.cmp. rewrite Qle_alt.
  destruct (x ?= y)%Q; split; intros H; try reflexivity; try discriminate;
    try congruence.
Qed.

Lemma lt_Num x y : JS.lt (JS.Num x) (JS.Num y) = true <-> (x < y)%Q.
Proof.
  unfold JS.lt, JS.cmp. rewrite Qlt_alt.
  destruct (x ?= y)%Q; split; intros H; try reflexivity; try discriminate.
Qed.

Lemma le_refl a : JS.isNaN a = false -> JS.le a a = true.
Proof.
  destruct a as [x | | |]; try reflexivity; [| discriminate].
  intros _. apply le_Num. apply Qle_refl.
Qed.

Lemma le_trans a b c :
  JS.le a b = true -> JS.le b c = true -> JS.le a c = true.
Proof.
  destruct a as [x | | |], b as [y | | |], c as [z | | |];
    try reflexivity; try discriminate.
  rewrite !le_Num. apply Qle_trans.
Qed.

Lemma le_not_lt a b : JS.le a b = true -> JS.lt b a = false.
Proof.
  destruct a as [x | | |], b as [y | | |]; try reflexivity; try discriminate.
  intros H. apply le_Num in H.
  destruct (JS.lt (JS.Num y) (JS.Num x)) eqn:Hlt; [| reflexivity].
  apply lt_Num in Hlt. exfalso. revert Hlt. now apply Qle_not_lt.
Qed.

Lemma le_not_NaN_l a b : JS.le a b = true -> JS.isNaN a = false.
Proof. destruct a, b; try reflexivity; discriminate. Qed.

Lemma le_not_NaN_r a b : JS.le a b = true -> JS.isNaN b = false.
Proof. destruct a, b; try reflexivity; discriminate. Qed.

Lemma isNaN_true a : JS.isNaN a = true <-> a = JS.NaN.
Proof. destruct a; split; intros H; try discriminate; reflexivity. Qed.

Lemma lt_NaN_l b : JS.lt JS.NaN b = false.
Proof. reflexivity. Qed.

Lemma Math_max_NaN_l b : JS.Math_max JS.NaN b = JS.NaN.
Proof. reflexivity. Qed.

Lemma Math_max_NaN_r a : JS.Math_max a JS.NaN = JS.NaN.
Proof. now destruct a. Qed.

Lemma cmp_antisym a b c :
  JS.cmp a b = Some c -> JS.cmp b a = Some (CompOpp c).
Proof.
  destruct a as [x | | |], b as [y | | |]; cbn; intros [= <-];
    try reflexivity.
  now rewrite <- Qcompare_antisym.
Qed.

Lemma cmp_None a b :
  JS.cmp a b = None -> JS.isNaN a = true \/ JS.isNaN b = true.
Proof. destruct a, b; cbn; intros H; try discriminate; auto. Qed.

Lemma cmp_Some a b c :
  JS.cmp a b = Some c -> JS.isNaN a = false /\ JS.isNaN b = false.
Proof. destruct a, b; cbn; intros H; try discriminate; auto. Qed.

(* the maximum is NaN or at least each argument *)
Lemma Math_max_cases a b :
  JS.Math_max a b = JS.NaN /\ (JS.isNaN a = true \/ JS.isNaN b = true)
  \/ (JS.isNaN a = false /\ JS.isNaN b = false
      /\ JS.le a (JS.Math_max a b) = true
      /\ JS.le b (JS.Math_max a b) = true).
Proof.
  unfold JS.Math_max. destruct (JS.cmp a b) as [c |] eqn:Hc.
  - right. destruct (cmp_Some _ _ _ Hc) as [Ha Hb].
    pose proof (cmp_antisym _ _ _ Hc) as Hanti.
    split; [exact Ha |]. split; [exact Hb |].
    destruct c; cbn in Hanti.
    + split; [now apply le_refl |]. unfold JS.le. now rewrite Hanti.
    + split; [| now apply le_refl]. unfold JS.le. now rewrite Hc.
    + split; [now apply le_refl |]. unfold JS.le. now rewrite Hanti.
  - left. split; [reflexivity |]. now apply cmp_None.
Qed.

Lemma notDecreased_refl a : notDecreased a a.
Proof.
  unfold notDecreased. destruct (JS.isNaN a) eqn:Ha; [now left |].
  right. now apply le_refl.
Qed.

Lemma notDecreased_trans a b c :
  notDecreased a b -> notDecreased b c -> notDecreased a c.
Proof.
  unfold notDecreased. intros Hab [Hc | Hbc]; [now left |].
  destruct Hab as [Hb | Hab].
  - apply le_not_NaN_l in Hbc. congruence.
  - right. eapply le_trans; eauto.
Qed.

Lemma notDecreased_max a b : notDecreased a (JS.Math_max a b).
Proof.
  unfold notDecreased.
  destruct (Math_max_cases a b) as [[-> _] | (_ & _ & Ha & _)]; auto.
Qed.

Lemma notDecreased_not_lt old new : notDecreased old new -> JS.lt new old = false.
Proof.
  intros [Hnan | Hle].
  - destruct new; try discriminate. reflexivity.
  - now apply le_not_lt.
Qed.

(* --------------------------------------------------------------------- *)
(* Rounding to binary64                                                   *)
(* --------------------------------------------------------------------- *)

Lemma Qfloor_bounds (q : Q) :
  (inject_Z (Qfloor q) <= q)%Q /\ (q < inject_Z (Qfloor q) + 1)%Q.
Proof.
  split; [apply Qfloor_le |].
  pose proof (Qlt_floor q) as H. rewrite inject_Z_plus in H. exact H.
Qed.

Lemma inject_Z_le_iff (a b : Z) : (inject_Z a <= inject_Z b)%Q <-> a <= b.
Proof. now rewrite Zle_Qle. Qed.

Lemma inject_Z_lt_iff (a b : Z) : (inject_Z a < inject_Z b)%Q <-> a < b.
Proof. now rewrite Zlt_Qlt. Qed.

Lemma halfEven_cases (q : Q) :
  JS.halfEven q = Qfloor q /\ (q - inject_Z (Qfloor q) <= 1 # 2)%Q
  \/ JS.halfEven q = Qfloor q + 1 /\ (1 # 2 <= q - inject_Z (Qfloor q))%Q.
Proof.
  unfold JS.halfEven. cbn zeta.
  destruct (Qcompare_spec (q - inject_Z (Qfloor q)) (1 # 2)) as [H | H | H].
  - destruct (Z.even (Qfloor q)); [left | right]; split; try reflexivity;
      rewrite H; apply Qle_refl.
  - left. split; [reflexivity | now apply Qlt_le_weak].
  - right. split; [reflexivity | now apply Qlt_le_weak].
Qed.

Lemma halfEven_err (q : Q) :
  (q - (1 # 2) <= inject_Z (JS.halfEven q) <= q + (1 # 2))%Q.
Proof.
  destruct (Qfloor_bounds q) as [Hlo Hhi].
  destruct (halfEven_cases q) as [[-> H] | [-> H]].
  - split; lra.
  - assert (Hs : (inject_Z (Qfloor q + 1) == inject_Z (Qfloor q) + 1)%Q)
      by (rewrite inject_Z_plus; reflexivity).
    rewrite Hs. split; lra.
Qed.

Lemma halfEven_le (q : Q) (z : Z) : (q <= inject_Z z)%Q -> JS.halfEven q <= z.
Proof.
  intros Hq. destruct (Qfloor_bounds q) as [Hlo Hhi].
  assert (Hf : Qfloor q <= z) by (apply inject_Z_le_iff; lra).
  destruct (halfEven_cases q) as [[-> H] | [-> H]]; [exact Hf |].
  destruct (Z.eq_dec (Qfloor q) z) as [Heq | Hne]; [| lia].
  exfalso. rewrite Heq in H. lra.
Qed.

Lemma halfEven_ge (q : Q) (z : Z) : (inject_Z z <= q)%Q -> z <= JS.halfEven q.
Proof.
  intros Hq.
  assert (Hf : z <= Qfloor q).
  { rewrite <- (Qfloor_Z z). now apply Qfloor_resp_le. }
  destruct (halfEven_cases q) as [[-> _] | [-> _]]; lia.
Qed.

Lemma halfEven_mono (x y : Q) : (x <= y)%Q -> JS.halfEven x <= JS.halfEven y.
Proof.
  intros Hxy.
  pose proof (Qfloor_resp_le _ _ Hxy) as Hf.
  destruct (Z.eq_dec (Qfloor x) (Qfloor y)) as [Heq | Hne].
  - unfold JS.halfEven. cbn zeta. rewrite <- Heq.
    destruct (Qcompare_spec (x - inject_Z (Qfloor x)) (1 # 2)) as [Hx | Hx | Hx];
      destruct (Qcompare_spec (y - inject_Z (Qfloor x)) (1 # 2)) as [Hy | Hy | Hy];
      try (destruct (Z.even (Qfloor x))); try lia; exfalso; lra.
  - destruct (halfEven_cases x) as [[-> _] | [-> _]];
      destruct (halfEven_cases y) as [[-> _] | [-> _]]; lia.
Qed.

Lemma pow2_pos (e : Z) : (0 < JS.pow2 e)%Q.
Proof. apply Qpower_0_lt. reflexivity. Qed.

Lemma pow2_plus (a b : Z) : (JS.pow2 (a + b) == JS.pow2 a * JS.pow2 b)%Q.
Proof. apply Qpower_plus. discriminate. Qed.

Lemma pow2_le (a b : Z) : a <= b -> (JS.pow2 a <= JS.pow2 b)%Q.
Proof. intros H. apply Qpower_le_compat_l; [exact H | discriminate]. Qed.

Lemma pow2_lt (a b : Z) : a < b -> (JS.pow2 a < JS.pow2 b)%Q.
Proof. intros H. apply Qpower_lt_compat_l; [exact H | reflexivity]. Qed.

Lemma pow2_inject (n : Z) : 0 <= n -> (JS.pow2 n == inject_Z (2 ^ n))%Q.
Proof. intros H. unfold JS.pow2. now rewrite Zpower_Qpower. Qed.

Lemma Qmake_inject (n : Z) (d : positive) :
  (n # d == inject_Z n / inject_Z (Zpos d))%Q.
Proof. apply Qmake_Qdiv. Qed.

(* the logarithms of numerator and denominator bracket the quotient *)
Lemma log2_bracket (q : Q) :
  (0 < q)%Q ->
  let b := Z.log2 (Qnum q) - Z.log2 (Zpos (Qden q)) in
  (JS.pow2 (b - 1) < q)%Q /\ (q < JS.pow2 (b + 1))%Q.
Proof.
  destruct q as [n d]. intros Hpos. cbn [Qnum Qden].
  assert (Hn : 0 < n) by (unfold Qlt in Hpos; cbn in Hpos; lia).
  pose proof (Z.log2_spec n Hn) as [Hn1 Hn2].
  pose proof (Z.log2_spec (Zpos d) (Pos2Z.is_pos d)) as [Hd1 Hd2].
  pose proof (Z.log2_nonneg n) as Hln.
  pose proof (Z.log2_nonneg (Zpos d)) as Hld.
  set (ln := Z.log2 n) in *. set (ld := Z.log2 (Zpos d)) in *.
  cbn zeta.
  assert (Hd0 : (0 < inject_Z (Zpos d))%Q) by (apply inject_Z_lt_iff; lia).
  assert (Hq : (n # d == inject_Z n / inject_Z (Zpos d))%Q) by apply Qmake_Qdiv.
  assert (HA : (JS.pow2 (ln - ld - 1) * JS.pow2 (ld + 1) == JS.pow2 ln)%Q).
  { rewrite <- pow2_plus. replace (ln - ld - 1 + (ld + 1)) with ln by lia.
    reflexivity. }
  assert (HB : (JS.pow2 (ln - ld + 1) * JS.pow2 ld == JS.pow2 (ln + 1))%Q).
  { rewrite <- pow2_plus. replace (ln - ld + 1 + ld) with (ln + 1) by lia.
    reflexivity. }
  rewrite (pow2_inject ln) in HA by lia.
  rewrite (pow2_inject (ld + 1)) in HA by lia.
  rewrite (pow2_inject ld) in HB by lia.
  rewrite (pow2_inject (ln + 1)) in HB by lia.
  apply inject_Z_le_iff in Hn1, Hd1. apply inject_Z_lt_iff in Hn2, Hd2.
  pose proof (pow2_pos (ln - ld - 1)) as Hp1.
  pose proof (pow2_pos (ln - ld + 1)) as Hp2.
  set (N := inject_Z n) in *. set (D := inject_Z (Zpos d)) in *.
  set (P1 := JS.pow2 (ln - ld - 1)) in *. set (P2 := JS.pow2 (ln - ld + 1)) in *.
  set (A := inject_Z (2 ^ ln)) in *. set (A' := inject_Z (2 ^ (ln + 1))) in *.
  set (B := inject_Z (2 ^ ld)) in *. set (B' := inject_Z (2 ^ (ld + 1))) in *.
  rewrite Hq. split.
  - apply Qlt_shift_div_l; [exact Hd0 |]. 
    apply Qlt_le_trans with (P1 * B')%Q; [| rewrite HA; exact Hn1].
    apply Qmult_lt_l; assumption.
  - apply Qlt_shift_div_r; [exact Hd0 |].
    apply Qlt_le_trans with A'; [exact Hn2 |]. rewrite <- HB.
    apply Qmult_le_l; assumption.
Qed.

Lemma binade_spec (q : Q) :
  (0 < q)%Q ->
  (JS.pow2 (JS.binade q) <= q)%Q /\ (q < JS.pow2 (JS.binade q + 1))%Q.
Proof.
  intros Hpos. destruct (log2_bracket q Hpos) as [Hlo Hhi].
  unfold JS.binade. cbn zeta.
  set (b := Z.log2 (Qnum q) - Z.log2 (Zpos (Qden q))) in *.
  destruct (Qle_bool (JS.pow2 b) q) eqn:Hb.
  - apply Qle_bool_iff in Hb. split; assumption.
  - split; [now apply Qlt_le_weak |].
    replace (b - 1 + 1) with b by lia.
    apply Qnot_le_lt. intros H. apply Qle_bool_iff in H. congruence.
Qed.

Lemma binade_unique (q : Q) (b : Z) :
  (JS.pow2 b <= q)%Q -> (q < JS.pow2 (b + 1))%Q -> JS.binade q = b.
Proof.
  intros Hlo Hhi.
  assert (Hpos : (0 < q)%Q) by (pose proof (pow2_pos b); lra).
  destruct (binade_spec q Hpos) as [Hlo' Hhi'].
  destruct (Z.lt_trichotomy (JS.binade q) b) as [H | [H | H]]; [| exact H |].
  - exfalso. pose proof (pow2_le (JS.binade q + 1) b ltac:(lia)). lra.
  - exfalso. pose proof (pow2_le (b + 1) (JS.binade q) ltac:(lia)). lra.
Qed.

Lemma binade_mono (x y : Q) :
  (0 < x)%Q -> (x <= y)%Q -> JS.binade x <= JS.binade y.
Proof.
  intros Hx Hxy. assert (Hy : (0 < y)%Q) by lra.
  destruct (binade_spec x Hx) as [Hlo _].
  destruct (binade_spec y Hy) as [_ Hhi].
  destruct (Z_le_gt_dec (JS.binade x) (JS.binade y)) as [H | H]; [exact H |].
  exfalso. pose proof (pow2_le (JS.binade y + 1) (JS.binade x) ltac:(lia)). lra.
Qed.

Lemma Qdiv_pow2_le (x : Q) (e k : Z) :
  (x <= JS.pow2 (e + k))%Q -> (x / JS.pow2 e <= JS.pow2 k)%Q.
Proof.
  intros H. apply Qle_shift_div_r; [apply pow2_pos |].
  rewrite Qmult_comm, <- pow2_plus. exact H.
Qed.

Lemma Qdiv_pow2_ge (x : Q) (e k : Z) :
  (JS.pow2 (e + k) <= x)%Q -> (JS.pow2 k <= x / JS.pow2 e)%Q.
Proof.
  intros H. apply Qle_shift_div_l; [apply pow2_pos |].
  rewrite Qmult_comm, <- pow2_plus. exact H.
Qed.

(* the exponent of the unit in the last place of q *)
Lemma nearest_upper (x : Q) :
  (0 < x)%Q ->
  (JS.nearest x <= JS.pow2 (Z.max (JS.binade x) (-1022) + 1))%Q.
Proof.
  intros Hx. destruct (binade_spec x Hx) as [_ Hhi].
  unfold JS.nearest. cbn zeta.
  set (b := Z.max (JS.binade x) (-1022)).
  assert (Hle : (x <= JS.pow2 (b - 52 + 53))%Q).
  { apply Qlt_le_weak. eapply Qlt_le_trans; [exact Hhi |].
    apply pow2_le. lia. }
  apply Qdiv_pow2_le in Hle.
  rewrite (pow2_inject 53) in Hle by lia.
  apply halfEven_le in Hle. apply inject_Z_le_iff in Hle.
  rewrite <- (pow2_inject 53) in Hle by lia.
  replace (b + 1) with (53 + (b - 52)) by lia. rewrite pow2_plus.
  apply Qmult_le_compat_r; [exact Hle | apply Qlt_le_weak, pow2_pos].
Qed.

Lemma nearest_lower (x : Q) :
  (0 < x)%Q -> -1022 <= JS.binade x ->
  (JS.pow2 (JS.binade x) <= JS.nearest x)%Q.
Proof.
  intros Hx Hb. destruct (binade_spec x Hx) as [Hlo _].
  unfold JS.nearest. cbn zeta.
  replace (Z.max (JS.binade x) (-1022)) with (JS.binade x) by lia.
  set (b := JS.binade x) in *.
  assert (Hge : (JS.pow2 (b - 52 + 52) <= x)%Q)
    by (replace (b - 52 + 52) with b by lia; exact Hlo).
  apply Qdiv_pow2_ge in Hge.
  rewrite (pow2_inject 52) in Hge by lia.
  apply halfEven_ge in Hge. apply inject_Z_le_iff in Hge.
  rewrite <- (pow2_inject 52) in Hge by lia.
  replace b with (52 + (b - 52)) at 1 by lia. rewrite pow2_plus.
  apply Qmult_le_compat_r; [exact Hge | apply Qlt_le_weak, pow2_pos].
Qed.

Lemma nearest_nonneg (x : Q) : (0 < x)%Q -> (0 <= JS.nearest x)%Q.
Proof.
  intros Hx. unfold JS.nearest. cbn zeta.
  apply Qmult_le_0_compat; [| apply Qlt_le_weak, pow2_pos].
  change 0%Q with (inject_Z 0). apply inject_Z_le_iff. apply halfEven_ge.
  apply Qle_shift_div_l; [apply pow2_pos |].
  change (inject_Z 0) with 0%Q. rewrite Qmult_0_l. lra.
Qed.

Lemma nearest_mono (x y : Q) :
  (0 < x)%Q -> (x <= y)%Q -> (JS.nearest x <= JS.nearest y)%Q.
Proof.
  intros Hx Hxy. assert (Hy : (0 < y)%Q) by lra.
  pose proof (binade_mono x y Hx Hxy) as Hb.
  destruct (Z.eq_dec (Z.max (JS.binade x) (-1022)) (Z.max (JS.binade y) (-1022)))
    as [Heq | Hne].
  - unfold JS.nearest. cbn zeta. rewrite Heq.
    apply Qmult_le_compat_r; [| apply Qlt_le_weak, pow2_pos].
    apply inject_Z_le_iff. apply halfEven_mono.
    apply Qmult_le_compat_r; [exact Hxy |].
    apply Qlt_le_weak, Qinv_lt_0_compat, pow2_pos.
  - eapply Qle_trans; [apply nearest_upper; exact Hx |].
    eapply Qle_trans; [| apply nearest_lower; [exact Hy | lia]].
    apply pow2_le. lia.
Qed.

Lemma nearest_err (x : Q) :
  (0 < x)%Q -> -1022 <= JS.binade x ->
  (x - x * JS.pow2 (-53) <= JS.nearest x <= x + x * JS.pow2 (-53))%Q.
Proof.
  intros Hx Hb. destruct (binade_spec x Hx) as [Hlo _].
  unfold JS.nearest. cbn zeta.
  replace (Z.max (JS.binade x) (-1022)) with (JS.binade x) by lia.
  set (b := JS.binade x) in *. set (e := b - 52).
  pose proof (halfEven_err (x / JS.pow2 e)) as [H1 H2].
  pose proof (pow2_pos e) as He.
  assert (Hulp : (JS.pow2 e * (1 # 2) <= x * JS.pow2 (-53))%Q).
  { assert (Hh : (JS.pow2 (-1) == 1 # 2)%Q) by reflexivity.
    rewrite <- Hh, <- pow2_plus.
    assert (Hs : (JS.pow2 (e + -1) == JS.pow2 b * JS.pow2 (-53))%Q).
    { rewrite <- pow2_plus. unfold e. replace (b - 52 + -1) with (b + -53) by lia.
      reflexivity. }
    rewrite Hs. apply Qmult_le_compat_r; [exact Hlo |].
    apply Qlt_le_weak, pow2_pos. }
  assert (Hx' : (x == x / JS.pow2 e * JS.pow2 e)%Q).
  { field. intros H0. rewrite H0 in He. lra. }
  set (m := inject_Z (JS.halfEven (x / JS.pow2 e))) in *.
  set (u := (x / JS.pow2 e)%Q) in *. set (p := JS.pow2 e) in *.
  set (r := (x * JS.pow2 (-53))%Q) in *.
  assert (Hm1 : ((u - (1 # 2)) * p <= m * p)%Q)
    by (apply Qmult_le_compat_r; lra).
  assert (Hm2 : (m * p <= (u + (1 # 2)) * p)%Q)
    by (apply Qmult_le_compat_r; lra).
  split; lra.
Qed.

Lemma Qfloor_eq (q : Q) (z : Z) :
  (inject_Z z <= q)%Q -> (q < inject_Z z + 1)%Q -> Qfloor q = z.
Proof.
  intros Hlo Hhi. destruct (Qfloor_bounds q) as [Hlo' Hhi'].
  assert (H1 : (inject_Z z < inject_Z (Qfloor q + 1))%Q)
    by (rewrite inject_Z_plus; change (inject_Z 1) with 1%Q; lra).
  assert (H2 : (inject_Z (Qfloor q) < inject_Z (z + 1))%Q)
    by (rewrite inject_Z_plus; change (inject_Z 1) with 1%Q; lra).
  apply (proj1 (inject_Z_lt_iff _ _)) in H1.
  apply (proj1 (inject_Z_lt_iff _ _)) in H2. lia.
Qed.

(* a rational in the range of the normal numbers rounds to a number within
   the relative error 2^-53 *)
Lemma fromQ_near (x : Q) :
  (JS.pow2 (-1022) <= x)%Q -> (x < JS.pow2 1023)%Q ->
  exists d,
    JS.fromQ x = JS.Num d
    /\ (x - x * JS.pow2 (-53) <= d <= x + x * JS.pow2 (-53))%Q.
Proof.
  intros Hlo Hhi.
  assert (Hx : (0 < x)%Q) by (pose proof (pow2_pos (-1022)); lra).
  destruct (binade_spec x Hx) as [Hb1 Hb2].
  assert (Hb : -1022 <= JS.binade x <= 1022).
  { split.
    - destruct (Z_le_gt_dec (-1022) (JS.binade x)) as [H | H]; [exact H |].
      exfalso. pose proof (pow2_le (JS.binade x + 1) (-1022) ltac:(lia)). lra.
    - destruct (Z_le_gt_dec (JS.binade x) 1022) as [H | H]; [exact H |].
      exfalso. pose proof (pow2_le 1023 (JS.binade x) ltac:(lia)). lra. }
  exists (Qred (JS.nearest x)). split.
  - unfold JS.fromQ. rewrite (proj1 (Qgt_alt x 0) Hx). cbn zeta.
    destruct (Qle_bool (JS.pow2 1024) (JS.nearest x)) eqn:Hover; [| reflexivity].
    exfalso. apply Qle_bool_iff in Hover.
    pose proof (nearest_upper x Hx) as Hup.
    pose proof (pow2_lt (Z.max (JS.binade x) (-1022) + 1) 1024 ltac:(lia)). lra.
  - rewrite Qred_correct. apply nearest_err; [exact Hx | lia].
Qed.

Lemma inject_Z_minus (x y : Z) : inject_Z (x - y) = (inject_Z x - inject_Z y)%Q.
Proof. unfold Z.sub. now rewrite inject_Z_plus, inject_Z_opp. Qed.

Lemma pow2_m53 : (JS.pow2 (-53) == 1 # 9007199254740992)%Q.
Proof. reflexivity. Qed.

Lemma inject_Z_pos (z : Z) : 0 < z -> (1 <= inject_Z z)%Q.
Proof. intros H. change 1%Q with (inject_Z 1). apply inject_Z_le_iff. lia. Qed.

Lemma percentageOf_zero (t : nat) :
  (0 < t)%nat -> percentageOf 0 t = JS.ofZ 0.
Proof.
  intros Ht. unfold percentageOf, JS.div, JS.ofNat, JS.ofZ, JS.sgn.
  assert (HT : (inject_Z (Z.of_nat t) ?= 0)%Q = Gt).
  { apply Qgt_alt. pose proof (inject_Z_pos (Z.of_nat t) ltac:(lia)). lra. }
  rewrite HT.
  assert (H0 : JS.fromQ (inject_Z (Z.of_nat 0) / inject_Z (Z.of_nat t)) = JS.Num 0).
  { unfold JS.fromQ.
    assert (Hz : (inject_Z (Z.of_nat 0) / inject_Z (Z.of_nat t) ?= 0)%Q = Eq).
    { apply Qeq_alt. unfold Qdiv. change (inject_Z (Z.of_nat 0)) with 0%Q. ring. }
    now rewrite Hz. }
  rewrite H0. reflexivity.
Qed.

(* Math.round((a / t) * 100) against the exact rounding of 100 a / t *)
Lemma percentageOf_near (a t : nat) :
  (0 < a)%nat -> (0 < t)%nat ->
  Z.of_nat a <= 2 ^ 32 -> Z.of_nat t <= 2 ^ 32 ->
  exists p,
    percentageOf a t = JS.ofZ p
    /\ (p = roundPercent a t
        \/ p = roundPercent a t - 1
           /\ 200 * Z.of_nat a + Z.of_nat t
              = 2 * Z.of_nat t * roundPercent a t).
Proof.
  intros Ha Ht Ha32 Ht32.
  set (A := inject_Z (Z.of_nat a)). set (T := inject_Z (Z.of_nat t)).
  assert (HA1 : (1 <= A)%Q) by (apply inject_Z_pos; lia).
  assert (HT1 : (1 <= T)%Q) by (apply inject_Z_pos; lia).
  assert (HA2 : (A <= 4294967296)%Q).
  { change 4294967296%Q with (inject_Z (2 ^ 32)). now apply inject_Z_le_iff. }
  assert (HT2 : (T <= 4294967296)%Q).
  { change 4294967296%Q with (inject_Z (2 ^ 32)). now apply inject_Z_le_iff. }
  pose proof pow2_m53 as Hu.
  assert (Hlow : (JS.pow2 (-1022) <= 1 # 1099511627776)%Q).
  { change (1 # 1099511627776)%Q with (JS.pow2 (-40)). apply pow2_le. lia. }
  assert (Hhigh : (1099511627776 <= JS.pow2 1023)%Q).
  { change 1099511627776%Q with (JS.pow2 40). apply pow2_le. lia. }
  (* the quotient *)
  set (x1 := (A / T)%Q).
  assert (Hx1T : (x1 * T == A)%Q) by (unfold x1; field; lra).
  assert (Hx1lo : (1 # 4294967296 <= x1)%Q).
  { unfold x1. apply Qle_shift_div_l; [lra |]. lra. }
  assert (Hx1hi : (x1 <= 4294967296)%Q).
  { unfold x1. apply Qle_shift_div_r; [lra |]. nra. }
  destruct (fromQ_near x1) as (d1 & Hd1 & Hd1lo & Hd1hi); [lra | lra |].
  rewrite Hu in Hd1lo, Hd1hi.
  (* the product *)
  set (x2 := (d1 * inject_Z 100)%Q).
  assert (H100 : (inject_Z 100 == 100)%Q) by reflexivity.
  destruct (fromQ_near x2) as (d2 & Hd2 & Hd2lo & Hd2hi).
  { unfold x2. rewrite H100. nra. }
  { unfold x2. rewrite H100. nra. }
  rewrite Hu in Hd2lo, Hd2hi. unfold x2 in Hd2lo, Hd2hi.
  rewrite H100 in Hd2lo, Hd2hi.
  assert (Hrun : percentageOf a t = JS.ofZ (Qfloor (d2 + (1 # 2)))).
  { unfold percentageOf, JS.div, JS.ofNat, JS.ofZ, JS.sgn. fold A T.
    assert (HTs : (T ?= 0)%Q = Gt) by (apply Qgt_alt; lra).
    rewrite HTs. fold x1. rewrite Hd1. cbn [JS.mul]. fold x2. rewrite Hd2.
    reflexivity. }
  exists (Qfloor (d2 + (1 # 2))). split; [exact Hrun |].
  (* the exact value and its rounding *)
  set (k := roundPercent a t).
  set (K := (inject_Z 100 * A / T + (1 # 2))%Q).
  assert (Hk : (inject_Z k <= K)%Q /\ (K < inject_Z k + 1)%Q)
    by apply Qfloor_bounds.
  destruct Hk as [Hk1 Hk2].
  assert (HK : (K == 100 * x1 + (1 # 2))%Q).
  { unfold K, x1. rewrite H100. field. lra. }
  set (n0 := 200 * Z.of_nat a + Z.of_nat t - 2 * Z.of_nat t * k).
  assert (Hn0 : (inject_Z n0 == (K - inject_Z k) * (2 * T))%Q).
  { unfold n0. rewrite !inject_Z_minus, !inject_Z_plus, !inject_Z_mult.
    fold A T. rewrite HK.
    change (inject_Z 200) with 200%Q. change (inject_Z 2) with 2%Q.
    rewrite <- Hx1T. ring. }
  assert (Hn0lo : 0 <= n0).
  { apply inject_Z_le_iff. change (inject_Z 0) with 0%Q. rewrite Hn0. nra. }
  assert (Hgap : ((d2 - 100 * x1) * (2 * T) < 1
                  /\ (100 * x1 - d2) * (2 * T) < 1)%Q).
  { split; nra. }
  destruct Hgap as [Hgap1 Hgap2].
  destruct (Z.eq_dec n0 0) as [Hz | Hnz].
  - (* 100 a / t is halfway between two integers *)
    assert (HKk : (K == inject_Z k)%Q).
    { rewrite Hz in Hn0. change (inject_Z 0) with 0%Q in Hn0. nra. }
    destruct (Qlt_le_dec (d2 + (1 # 2)) (inject_Z k)) as [Hlt | Hge].
    + right. split; [| unfold n0 in Hz; lia].
      apply Qfloor_eq.
      * rewrite inject_Z_minus. change (inject_Z 1) with 1%Q. nra.
      * rewrite inject_Z_minus. change (inject_Z 1) with 1%Q. lra.
    + left. apply Qfloor_eq; [exact Hge |]. nra.
  - left. assert (Hn1 : (1 <= inject_Z n0)%Q) by (apply inject_Z_pos; lia).
    assert (Hn2 : (inject_Z n0 <= 2 * T - 1)%Q).
    { assert (Hlt : (inject_Z n0 < 2 * T)%Q) by (rewrite Hn0; nra).
      assert (H2T : (2 * T == inject_Z (2 * Z.of_nat t))%Q)
        by (rewrite inject_Z_mult; reflexivity).
      rewrite H2T in Hlt |- *. apply (proj1 (inject_Z_lt_iff _ _)) in Hlt.
      assert (Hle : n0 <= 2 * Z.of_nat t - 1) by lia.
      apply inject_Z_le_iff in Hle. rewrite inject_Z_minus in Hle.
      exact Hle. }
    rewrite Hn0 in Hn1, Hn2.
    apply Qfloor_eq; nra.
Qed.

(* what fromQ yields for a positive and for a negative rational *)
Lemma fromQ_pos (x : Q) :
  (0 < x)%Q ->
  JS.fromQ x = JS.PInf /\ (JS.pow2 1024 <= JS.nearest x)%Q
  \/ JS.fromQ x = JS.Num (Qred (JS.nearest x))
     /\ (JS.nearest x < JS.pow2 1024)%Q.
Proof.
  intros Hx. unfold JS.fromQ. rewrite (proj1 (Qgt_alt x 0) Hx). cbn zeta.
  destruct (Qle_bool (JS.pow2 1024) (JS.nearest x)) eqn:Hover.
  - left. split; [reflexivity | now apply Qle_bool_iff].
  - right. split; [reflexivity |]. apply Qnot_le_lt. intros H.
    apply Qle_bool_iff in H. congruence.
Qed.

Lemma fromQ_neg (x : Q) :
  (x < 0)%Q ->
  JS.fromQ x = JS.NInf /\ (JS.pow2 1024 <= JS.nearest (- x))%Q
  \/ JS.fromQ x = JS.Num (Qred (- JS.nearest (- x)))
     /\ (JS.nearest (- x) < JS.pow2 1024)%Q.
Proof.
  intros Hx. unfold JS.fromQ. rewrite (proj1 (Qlt_alt x 0) Hx). cbn zeta.
  destruct (Qle_bool (JS.pow2 1024) (JS.nearest (- x))) eqn:Hover.
  - left. split; [reflexivity | now apply Qle_bool_iff].
  - right. split; [reflexivity |]. apply Qnot_le_lt. intros H.
    apply Qle_bool_iff in H. congruence.
Qed.

Lemma fromQ_zero (x : Q) : (x == 0)%Q -> JS.fromQ x = JS.Num 0.
Proof. intros Hx. unfold JS.fromQ. now rewrite (proj1 (Qeq_alt x 0) Hx). Qed.

Lemma fromQ_not_NaN (x : Q) : JS.fromQ x <> JS.NaN.
Proof.
  unfold JS.fromQ. destruct (x ?= 0)%Q; cbn zeta; try discriminate;
    destruct (Qle_bool _ _); discriminate.
Qed.

(* rounding keeps the order *)
Lemma fromQ_mono (x y : Q) :
  (x <= y)%Q -> JS.le (JS.fromQ x) (JS.fromQ y) = true.
Proof.
  intros Hxy.
  destruct (Q_dec x 0) as [[Hx | Hx] | Hx];
    destruct (Q_dec y 0) as [[Hy | Hy] | Hy]; try (exfalso; lra).
  - (* both negative *)
    assert (Hm : (JS.nearest (- y) <= JS.nearest (- x))%Q)
      by (apply nearest_mono; lra).
    destruct (fromQ_neg x Hx) as [[-> Hox] | [-> Hox]];
      destruct (fromQ_neg y Hy) as [[-> Hoy] | [-> Hoy]];
      try reflexivity; [exfalso; lra |].
    apply le_Num. rewrite !Qred_correct. lra.
  - pose proof (nearest_nonneg (- x) ltac:(lra)) as Hn.
    destruct (fromQ_neg x Hx) as [[-> Hox] | [-> Hox]];
      destruct (fromQ_pos y Hy) as [[-> Hoy] | [-> Hoy]];
      try reflexivity.
    pose proof (nearest_nonneg y Hy) as Hn'.
    apply le_Num. rewrite !Qred_correct. lra.
  - pose proof (nearest_nonneg (- x) ltac:(lra)) as Hn.
    rewrite (fromQ_zero y Hy).
    destruct (fromQ_neg x Hx) as [[-> Hox] | [-> Hox]]; [reflexivity |].
    apply le_Num. rewrite Qred_correct. lra.
  - assert (Hm : (JS.nearest x <= JS.nearest y)%Q)
      by (apply nearest_mono; lra).
    destruct (fromQ_pos x Hx) as [[-> Hox] | [-> Hox]];
      destruct (fromQ_pos y Hy) as [[-> Hoy] | [-> Hoy]];
      try reflexivity; [exfalso; lra |].
    apply le_Num. rewrite !Qred_correct. lra.
  - rewrite (fromQ_zero x Hx).
    pose proof (nearest_nonneg y Hy) as Hn.
    destruct (fromQ_pos y Hy) as [[-> Hoy] | [-> Hoy]]; [reflexivity |].
    apply le_Num. rewrite Qred_correct. lra.
  - rewrite (fromQ_zero x Hx), (fromQ_zero y Hy). reflexivity.
Qed.

Lemma halfEven_integer (q : Q) (m : Z) :
  (q == inject_Z m)%Q -> JS.halfEven q = m.
Proof.
  intros Hq.
  assert (H1 : JS.halfEven q <= m) by (apply halfEven_le; lra).
  assert (H2 : m <= JS.halfEven q) by (apply halfEven_ge; lra).
  lia.
Qed.

Lemma Qred_inject_Z (z : Z) : Qred (inject_Z z) = inject_Z z.
Proof.
  unfold Qred, inject_Z.
  pose proof (Z.ggcd_gcd z 1) as Hg.
  pose proof (Z.ggcd_correct_divisors z 1) as Hd.
  destruct (Z.ggcd z 1) as [g [a b]]. cbn [fst snd] in *.
  rewrite Z.gcd_1_r in Hg. subst g. destruct Hd as [Ha Hb].
  assert (Haz : a = z) by lia. assert (Hb1 : b = 1) by lia.
  subst a b. reflexivity.
Qed.

(* a positive integer up to 2^53 is a binary64 number *)
Lemma nearest_integer (x : Q) (z : Z) :
  (x == inject_Z z)%Q -> 0 < z <= 2 ^ 53 -> (JS.nearest x == inject_Z z)%Q.
Proof.
  intros Hx Hz.
  assert (Hpos : (0 < x)%Q).
  { rewrite Hx. change 0%Q with (inject_Z 0). apply inject_Z_lt_iff. lia. }
  destruct (binade_spec x Hpos) as [Hlo Hhi].
  set (b := JS.binade x) in *.
  assert (Hb0 : 0 <= b).
  { destruct (Z_le_gt_dec 0 b) as [H | H]; [exact H |]. exfalso.
    pose proof (pow2_le (b + 1) 0 ltac:(lia)) as Hp.
    change (JS.pow2 0) with 1%Q in Hp.
    pose proof (inject_Z_pos z ltac:(lia)). lra. }
  assert (Hb53 : b <= 53).
  { destruct (Z_le_gt_dec b 53) as [H | H]; [exact H |]. exfalso.
    pose proof (pow2_le 54 b ltac:(lia)) as Hp.
    assert (Hz' : (inject_Z z <= inject_Z (2 ^ 53))%Q)
      by (apply inject_Z_le_iff; lia).
    assert (H54 : (JS.pow2 53 < JS.pow2 54)%Q) by (apply pow2_lt; lia).
    rewrite (pow2_inject 53) in H54 by lia. lra. }
  unfold JS.nearest. cbn zeta. fold b.
  replace (Z.max b (-1022)) with b by lia. clearbody b.
  destruct (Z.eq_dec b 53) as [-> | Hne].
  - (* z = 2^53 *)
    assert (Hz53 : z = 2 ^ 53).
    { rewrite (pow2_inject 53) in Hlo by lia. rewrite Hx in Hlo.
      apply (proj1 (inject_Z_le_iff _ _)) in Hlo. lia. }
    subst z.
    rewrite (halfEven_integer _ (2 ^ 52)).
    + change (53 - 52) with 1. reflexivity.
    + rewrite Hx. change (53 - 52) with 1. reflexivity.
  - set (k := 52 - b). assert (Hk : 0 <= k) by (unfold k; lia).
    assert (He : (JS.pow2 (b - 52) * inject_Z (2 ^ k) == 1)%Q).
    { rewrite <- (pow2_inject k) by lia. rewrite <- pow2_plus.
      unfold k. replace (b - 52 + (52 - b)) with 0 by lia. reflexivity. }
    pose proof (pow2_pos (b - 52)) as Hp.
    rewrite (halfEven_integer _ (z * 2 ^ k)).
    + rewrite inject_Z_mult.
      rewrite <- Qmult_assoc, (Qmult_comm (inject_Z (2 ^ k))), He. ring.
    + rewrite inject_Z_mult, Hx. 
      apply Qmult_inj_r with (JS.pow2 (b - 52)); [lra |].
      rewrite <- Qmult_assoc, (Qmult_comm (inject_Z (2 ^ k))), He.
      field. lra.
Qed.

Lemma fromQ_integer (x : Q) (z : Z) :
  (x == inject_Z z)%Q -> Z.abs z <= 2 ^ 53 -> JS.fromQ x = JS.ofZ z.
Proof.
  intros Hx Hz. unfold JS.ofZ.
  assert (H1024 : (inject_Z (2 ^ 53) < JS.pow2 1024)%Q).
  { rewrite <- (pow2_inject 53) by lia. apply pow2_lt. lia. }
  destruct (Z.lt_trichotomy z 0) as [Hneg | [-> | Hpos]].
  - assert (Hx' : (- x == inject_Z (- z))%Q) by (rewrite inject_Z_opp, Hx; reflexivity).
    pose proof (nearest_integer (- x) (- z) Hx' ltac:(lia)) as Hn.
    assert (Hxneg : (x < 0)%Q).
    { rewrite Hx. change 0%Q with (inject_Z 0). apply inject_Z_lt_iff. lia. }
    assert (Hle : (inject_Z (- z) <= inject_Z (2 ^ 53))%Q)
      by (apply inject_Z_le_iff; lia).
    destruct (fromQ_neg x Hxneg) as [[_ Hover] | [-> _]]; [exfalso; lra |].
    f_equal. rewrite <- (Qred_inject_Z z). apply Qred_complete.
    rewrite Hn, inject_Z_opp. ring.
  - now apply fromQ_zero.
  - pose proof (nearest_integer x z Hx ltac:(lia)) as Hn.
    assert (Hxpos : (0 < x)%Q).
    { rewrite Hx. change 0%Q with (inject_Z 0). apply inject_Z_lt_iff. lia. }
    assert (Hle : (inject_Z z <= inject_Z (2 ^ 53))%Q)
      by (apply inject_Z_le_iff; lia).
    destruct (fromQ_pos x Hxpos) as [[_ Hover] | [-> _]]; [exfalso; lra |].
    f_equal. rewrite <- (Qred_inject_Z z). now apply Qred_complete.
Qed.

(* --------------------------------------------------------------------- *)
(* Funnel metrics                                                         *)
(* --------------------------------------------------------------------- *)

Section Funnel.

Import LTAAnalyticsEngine.

Lemma stageScore_set_same s v m : stageScore (setStageScore s v m) s = v.
Proof. now destruct s. Qed.

Lemma stageScore_set_other s s' v m :
  s <> s' -> stageScore (setStageScore s v m) s' = stageScore m s'.
Proof. destruct s, s'; intros H; try reflexivity; congruence. Qed.

(* what one update does to the score of a stage *)
Lemma updateFunnelMetrics_stage (r : Response) entry s :
  stageScore (funnelOf (updateFunnelMetrics r entry)) s
  = if decide (determineFunnelStage r = Some s)
    then JS.Math_max (stageScore (funnelOf entry) s)
           (JS.ToNumber (calculateStageScore r))
    else stageScore (funnelOf entry) s.
Proof.
  unfold updateFunnelMetrics.
  destruct (determineFunnelStage r) as [s0 |] eqn:Hstage.
  - cbn [funnelOf default]. destruct (decide (Some s0 = Some s)) as [Heq | Hne].
    + injection Heq as ->. apply stageScore_set_same.
    + apply stageScore_set_other. congruence.
  - destruct (decide (None = Some s)); [discriminate | reflexivity].
Qed.

Lemma updateFunnelMetrics_notDecreased (r : Response) entry s :
  notDecreased (stageScore (funnelOf entry) s)
    (stageScore (funnelOf (updateFunnelMetrics r entry)) s).
Proof.
  rewrite updateFunnelMetrics_stage.
  destruct (decide _); [apply notDecreased_max | apply notDecreased_refl].
Qed.

Lemma processed_notDecreased rs entry s :
  notDecreased (stageScore (funnelOf entry) s)
    (stageScore (funnelOf (processed rs entry)) s).
Proof.
  unfold processed. revert entry.
  induction rs as [| r rs IH]; intros entry; cbn [fold_left].
  - apply notDecreased_refl.
  - eapply notDecreased_trans; [apply updateFunnelMetrics_notDecreased | apply IH].
Qed.

(* NaN stays *)
Lemma processed_NaN rs entry s :
  JS.isNaN (stageScore (funnelOf entry) s) = true ->
  JS.isNaN (stageScore (funnelOf (processed rs entry)) s) = true.
Proof.
  unfold processed. revert entry.
  induction rs as [| r rs IH]; intros entry Hnan; cbn [fold_left];
    [exact Hnan |].
  apply IH. rewrite updateFunnelMetrics_stage.
  destruct (decide _); [| exact Hnan].
  destruct (stageScore (funnelOf entry) s); try discriminate. reflexivity.
Qed.

(* a response whose score is no number makes its stage NaN *)
Lemma processed_poisoned rs entry r s :
  In r rs -> determineFunnelStage r = Some s ->
  JS.isNaN (JS.ToNumber (calculateStageScore r)) = true ->
  JS.isNaN (stageScore (funnelOf (processed rs entry)) s) = true.
Proof.
  intros Hin Hstage Hnan.
  apply in_split in Hin. destruct Hin as (before & later & ->).
  unfold processed. rewrite fold_left_app. cbn [fold_left].
  apply processed_NaN. rewrite updateFunnelMetrics_stage.
  destruct (decide _) as [_ | Hne]; [| congruence].
  destruct (JS.ToNumber (calculateStageScore r)); try discriminate.
  apply isNaN_true, Math_max_NaN_r.
Qed.

(* while every score is a number the stage score grows *)
Lemma processed_grows rs entry s :
  JS.isNaN (stageScore (funnelOf entry) s) = false ->
  (forall r, In r rs -> determineFunnelStage r = Some s ->
             JS.isNaN (JS.ToNumber (calculateStageScore r)) = false) ->
  JS.le (stageScore (funnelOf entry) s)
    (stageScore (funnelOf (processed rs entry)) s) = true.
Proof.
  unfold processed. revert entry.
  induction rs as [| r rs IH]; intros entry Hold Hscores; cbn [fold_left].
  - now apply le_refl.
  - assert (Hstep :
      JS.le (stageScore (funnelOf entry) s)
        (stageScore (funnelOf (updateFunnelMetrics r entry)) s) = true).
    { rewrite updateFunnelMetrics_stage.
      destruct (decide _) as [Hstage | _]; [| now apply le_refl].
      destruct (Math_max_cases (stageScore (funnelOf entry) s)
                  (JS.ToNumber (calculateStageScore r)))
        as [[_ [Hn | Hn]] | (_ & _ & Hle & _)]; [congruence | | exact Hle].
      rewrite (Hscores r (or_introl eq_refl) Hstage) in Hn. discriminate. }
    eapply le_trans; [exact Hstep |].
    apply IH.
    + now apply le_not_NaN_r in Hstep.
    + intros r' Hin. apply Hscores. now right.
Qed.

End Funnel.

(** C3 (as the code has it): updateFunnelMetrics stores, for the stage the
    response belongs to, Math.max of the stage's previous score and the
    score of the response, and leaves the other four stages as they were.
    Over any sequence of processed responses a stage score is therefore
    never replaced by a smaller number, and while the scores of the
    stage's responses are numbers it never decreases.  A response whose
    score is no number (an answer to q54 that parseInt cannot read, an
    answer to q20 that names an inherited property) makes the score of
    its stage NaN, and NaN it stays whatever follows. *)
Theorem funnel_stage_score_running_maximum :
  (forall (r : Response) (entry : option FunnelMetrics) (s : Stage),
     stageScore
       (LTAAnalyticsEngine.funnelOf
          (LTAAnalyticsEngine.updateFunnelMetrics r entry)) s
     = if decide (LTAAnalyticsEngine.determineFunnelStage r = Some s)
       then JS.Math_max (stageScore (LTAAnalyticsEngine.funnelOf entry) s)
              (JS.ToNumber (LTAAnalyticsEngine.calculateStageScore r))
       else stageScore (LTAAnalyticsEngine.funnelOf entry) s)
  /\ (forall (rs : list Response) (entry : option FunnelMetrics) (s : Stage),
        let old := stageScore (LTAAnalyticsEngine.funnelOf entry) s in
        let new :=
          stageScore
            (LTAAnalyticsEngine.funnelOf (LTAAnalyticsEngine.processed rs entry))
            s in
        JS.lt new old = false
        /\ notDecreased old new
        /\ (JS.isNaN old = false ->
            (forall r, In r rs ->
               LTAAnalyticsEngine.determineFunnelStage r = Some s ->
               numericScore r) ->
            JS.ge new old = true)
        /\ (JS.isNaN old = true -> JS.isNaN new = true)
        /\ (forall r, In r rs ->
              LTAAnalyticsEngine.determineFunnelStage r = Some s ->
              ~ numericScore r ->
              JS.isNaN new = true /\ JS.ge new old = false)).
Proof.
  split.
  - apply updateFunnelMetrics_stage.
  - intros rs entry s old new.
    pose proof (processed_notDecreased rs entry s) as H.
    split; [now apply notDecreased_not_lt |]. split; [exact H |].
    split; [| split].
    + intros Hold Hscores. unfold JS.ge. now apply processed_grows.
    + apply processed_NaN.
    + intros r Hin Hstage Hscore.
      assert (Hnan : JS.isNaN new = true).
      { apply (processed_poisoned rs entry r s Hin Hstage).
        unfold numericScore in Hscore.
        now destruct (JS.isNaN (JS.ToNumber _)). }
      split; [exact Hnan |].
      apply isNaN_true in Hnan. rewrite Hnan. unfold JS.ge, JS.le, JS.cmp.
      now destruct old.
Qed.

(* six words of recall put awareness at 10; an answer to q3 scored 5 and
   an empty recall scored 0 leave it there *)
Lemma funnel_stage_score_running_maximum_witness :
  stageScore
    (LTAAnalyticsEngine.funnelOf
       (LTAAnalyticsEngine.updateFunnelMetrics
          (Sample.answer "q3" "awareness" "radio")
          (LTAAnalyticsEngine.processed
             [Sample.answer "q8" "awareness" "we saw the big five there"] None)))
    Awareness
  = JS.Num (10 # 1)
  /\ JS.ge
       (stageScore
          (LTAAnalyticsEngine.funnelOf
             (LTAAnalyticsEngine.processed
                [Sample.answer "q3" "awareness" "radio";
                 Sample.answer "q8" "awareness" ""]
                (LTAAnalyticsEngine.processed
                   [Sample.answer "q8" "awareness" "we saw the big five there"]
                   None)))
          Awareness)
       (JS.Num (10 # 1))
     = true.
Proof.
  destruct funnel_stage_score_running_maximum as [Hstep Hmono].
  split.
  - rewrite Hstep. vm_compute. reflexivity.
  - destruct (Hmono [Sample.answer "q3" "awareness" "radio";
                     Sample.answer "q8" "awareness" ""]
                (LTAAnalyticsEngine.processed
                   [Sample.answer "q8" "awareness" "we saw the big five there"]
                   None)
                Awareness) as (_ & _ & Hge & _).
    apply Hge; [reflexivity |].
    intros r [<- | [<- | []]] _; reflexivity.
Defined.

(* C3 as stated fails: an answer 9 to q54 puts advocacy at 9; a second
   answer to q54 that parseInt cannot read makes it NaN, which is not at
   least 9, and an answer 10 afterwards leaves it NaN *)
Lemma funnel_stage_score_counterexample :
  let first := LTAAnalyticsEngine.processed [Sample.answer "q54" "advocacy" "9"] None in
  let second :=
    LTAAnalyticsEngine.updateFunnelMetrics (Sample.answer "q54" "advocacy" "n/a")
      first in
  let third :=
    LTAAnalyticsEngine.updateFunnelMetrics (Sample.answer "q54" "advocacy" "10")
      second in
  stageScore (LTAAnalyticsEngine.funnelOf first) Advocacy = JS.Num (9 # 1)
  /\ stageScore (LTAAnalyticsEngine.funnelOf second) Advocacy = JS.NaN
  /\ JS.ge (stageScore (LTAAnalyticsEngine.funnelOf second) Advocacy)
       (stageScore (LTAAnalyticsEngine.funnelOf first) Advocacy) = false
  /\ stageScore (LTAAnalyticsEngine.funnelOf third) Advocacy = JS.NaN.
Proof.
  cbv zeta. repeat split; vm_compute; reflexivity.
Qed.

Lemma calculateStageScore_default (r : Response) :
  ~ In (r_questionId r) scoredQuestions ->
  LTAAnalyticsEngine.calculateStageScore r = JS.Number (JS.ofZ 5).
Proof.
  intros Hnot. unfold LTAAnalyticsEngine.calculateStageScore.
  repeat match goal with
         | |- context [String.eqb (r_questionId r) ?k] =>
             destruct (String.eqb_spec (r_questionId r) k) as [Heq | _];
             [exfalso; apply Hnot; rewrite Heq; cbn; tauto |]
         end.
  reflexivity.
Qed.

(** C10 (as the code has it): a response whose questionId is none of q8,
    q20, q31, q43, q54 scores the constant 5; processing it for its funnel
    stage stores Math.max(previous score, 5), which is at least 5 whenever
    the previous score of that stage is a number. *)
Theorem default_stage_score_five
    (r : Response) (s : Stage) (entry : option FunnelMetrics) :
  ~ In (r_questionId r) scoredQuestions ->
  LTAAnalyticsEngine.determineFunnelStage r = Some s ->
  let old := stageScore (LTAAnalyticsEngine.funnelOf entry) s in
  let new :=
    stageScore
      (LTAAnalyticsEngine.funnelOf (LTAAnalyticsEngine.updateFunnelMetrics r entry))
      s in
  LTAAnalyticsEngine.calculateStageScore r = JS.Number (JS.ofZ 5)
  /\ new = JS.Math_max old (JS.ofZ 5)
  /\ (JS.isNaN old = false -> JS.ge new (JS.ofZ 5) = true).
Proof.
  intros Hnot Hstage old new.
  pose proof (calculateStageScore_default r Hnot) as Hfive.
  assert (Hnew : new = JS.Math_max old (JS.ofZ 5)).
  { subst new old. rewrite updateFunnelMetrics_stage, Hfive.
    destruct (decide _); [reflexivity | contradiction]. }
  split; [exact Hfive |]. split; [exact Hnew |].
  intros Hold. rewrite Hnew. unfold JS.ge.
  destruct (Math_max_cases old (JS.ofZ 5)) as [[_ [Hn | Hn]] | (_ & _ & _ & H5)].
  - congruence.
  - discriminate.
  - exact H5.
Qed.

Lemma default_stage_score_five_witness :
  LTAAnalyticsEngine.calculateStageScore
    (Sample.answer "q3" "awareness" "radio") = JS.Number (JS.ofZ 5)
  /\ JS.ge
       (stageScore
          (LTAAnalyticsEngine.funnelOf
             (LTAAnalyticsEngine.updateFunnelMetrics
                (Sample.answer "q3" "awareness" "radio") None))
          Awareness)
       (JS.ofZ 5) = true.
Proof.
  destruct (default_stage_score_five (Sample.answer "q3" "awareness" "radio")
              Awareness None) as (Hfive & _ & Hge).
  - vm_compute. intuition discriminate.
  - reflexivity.
  - split; [exact Hfive | apply Hge; reflexivity].
Defined.

(* C10 as stated fails: after an answer to q54 that parseInt cannot
   read, the advocacy score is NaN, and a default-scored advocacy response
   leaves it NaN, which is not at least 5 *)
Lemma default_stage_score_counterexample :
  let entry :=
    LTAAnalyticsEngine.processed [Sample.answer "q54" "advocacy" "n/a"] None in
  let r := Sample.answer "q55" "advocacy" "yes" in
  ~ In (r_questionId r) scoredQuestions
  /\ LTAAnalyticsEngine.determineFunnelStage r = Some Advocacy
  /\ stageScore
       (LTAAnalyticsEngine.funnelOf (LTAAnalyticsEngine.updateFunnelMetrics r entry))
       Advocacy = JS.NaN
  /\ JS.ge
       (stageScore
          (LTAAnalyticsEngine.funnelOf
             (LTAAnalyticsEngine.updateFunnelMetrics r entry))
          Advocacy)
       (JS.ofZ 5) = false.
Proof.
  cbv zeta. split; [| split; [| split]].
  - vm_compute. intuition discriminate.
  - reflexivity.
  - vm_compute. reflexivity.
  - vm_compute. reflexivity.
Qed.

(* --------------------------------------------------------------------- *)
(* Progress                                                               *)
(* --------------------------------------------------------------------- *)

(* a number between two numbers that are rationals is a rational *)
Lemma le_Num_between (x : JS.number) (a b : Q) :
  JS.le (JS.Num a) x = true -> JS.le x (JS.Num b) = true ->
  exists d, x = JS.Num d /\ (a <= d <= b)%Q.
Proof.
  destruct x as [d | | |]; try discriminate.
  intros Ha Hb. apply le_Num in Ha, Hb. exists d. auto.
Qed.

(* rounding stays between two integers it lies between *)
Lemma fromQ_between (x : Q) (lo hi : Z) :
  (inject_Z lo <= x <= inject_Z hi)%Q ->
  Z.abs lo <= 2 ^ 53 -> Z.abs hi <= 2 ^ 53 ->
  exists d, JS.fromQ x = JS.Num d /\ (inject_Z lo <= d <= inject_Z hi)%Q.
Proof.
  intros [Hlo Hhi] Hl Hh. apply le_Num_between.
  - change (JS.Num (inject_Z lo)) with (JS.ofZ lo).
    rewrite <- (fromQ_integer (inject_Z lo) lo) by (reflexivity || assumption).
    now apply fromQ_mono.
  - change (JS.Num (inject_Z hi)) with (JS.ofZ hi).
    rewrite <- (fromQ_integer (inject_Z hi) hi) by (reflexivity || assumption).
    now apply fromQ_mono.
Qed.

(* (a / t) * 100 for 0 <= a <= t, as calculateSectionCompletion has it *)
Lemma rate_range (a t : nat) :
  (0 < t)%nat -> (a <= t)%nat ->
  exists d,
    JS.mul (JS.div (JS.ofNat a) (JS.ofNat t)) (JS.ofZ 100) = JS.Num d
    /\ (0 <= d <= 100)%Q.
Proof.
  intros Ht Hle. unfold JS.div, JS.ofNat, JS.ofZ, JS.sgn.
  set (A := inject_Z (Z.of_nat a)). set (T := inject_Z (Z.of_nat t)).
  assert (HA : (0 <= A)%Q).
  { change 0%Q with (inject_Z 0). apply inject_Z_le_iff. lia. }
  assert (HT : (1 <= T)%Q) by (apply inject_Z_pos; lia).
  assert (HAT : (A <= T)%Q) by (apply inject_Z_le_iff; lia).
  rewrite (proj1 (Qgt_alt T 0)) by lra.
  destruct (fromQ_between (A / T) 0 1) as (d1 & -> & Hd1); [| lia | lia |].
  { split.
    - apply Qle_shift_div_l; [lra |]. change (inject_Z 0) with 0%Q. lra.
    - apply Qle_shift_div_r; [lra |]. change (inject_Z 1) with 1%Q. lra. }
  change (inject_Z 0) with 0%Q in Hd1. change (inject_Z 1) with 1%Q in Hd1.
  cbn [JS.mul].
  destruct (fromQ_between (d1 * inject_Z 100) 0 100) as (d2 & -> & Hd2);
    [| lia | lia |].
  { change (inject_Z 0) with 0%Q. change (inject_Z 100) with 100%Q. nra. }
  exists d2. split; [reflexivity |]. exact Hd2.
Qed.

(* Math.round((a / t) * 100) for 0 <= a <= t *)
Lemma percentageOf_range (a t : nat) :
  (0 < t)%nat -> (a <= t)%nat ->
  exists p, percentageOf a t = JS.ofZ p /\ 0 <= p <= 100.
Proof.
  intros Ht Hle. unfold percentageOf.
  destruct (rate_range a t Ht Hle) as (d & -> & Hd).
  cbn [JS.Math_round]. eexists. split; [reflexivity |].
  split.
  - change 0 with (Qfloor 0). apply Qfloor_resp_le. lra.
  - change 100 with (Qfloor (100 + (1 # 2))). apply Qfloor_resp_le. lra.
Qed.

(* the double computation against the exact rounding, for every count *)
Lemma percentageOf_exact_or_half (a t : nat) :
  (0 < t)%nat -> Z.of_nat a <= 2 ^ 32 -> Z.of_nat t <= 2 ^ 32 ->
  exists p,
    percentageOf a t = JS.ofZ p
    /\ (p = roundPercent a t
        \/ p = roundPercent a t - 1
           /\ 200 * Z.of_nat a + Z.of_nat t
              = 2 * Z.of_nat t * roundPercent a t).
Proof.
  intros Ht Ha32 Ht32. destruct a as [| a].
  - exists 0. split; [now apply percentageOf_zero |]. left.
    unfold roundPercent, round. symmetry. apply Qfloor_eq.
    + change (inject_Z (Z.of_nat 0)) with 0%Q. unfold Qdiv.
      rewrite Qmult_0_r, Qmult_0_l. discriminate.
    + change (inject_Z (Z.of_nat 0)) with 0%Q. unfold Qdiv.
      rewrite Qmult_0_r, Qmult_0_l. reflexivity.
  - apply percentageOf_near; [lia | exact Ht | exact Ha32 | exact Ht32].
Qed.

(* a response map whose keys all name catalog questions has at most as
   many entries as the catalog has questions *)
Lemma size_answered_le cfg (m : gmap string Response) :
  (forall k, is_Some (m !! k) -> exists q, In q (questions cfg) /\ q_id q = k) ->
  (size m <= List.length (questions cfg))%nat.
Proof.
  intros Hkeys. rewrite <- size_dom.
  rewrite <- (length_map q_id (questions cfg)).
  unfold size, set_size. cbn.
  apply submseteq_length, NoDup_submseteq; [apply NoDup_elements |].
  intros k Hk. apply elem_of_elements, elem_of_dom in Hk.
  destruct (Hkeys k Hk) as (q & Hin & <-).
  apply list_elem_of_In. now apply in_map.
Qed.

(* calculateProgress of db.js computes the same ratio over the distinct
   question ids of the stored responses of the session *)
Lemma calculateProgress_value cfg sessionId w d :
  sessions w !! sessionId = Some d ->
  outcome (LTAIndexedDB.calculateProgress cfg sessionId w)
  = Return
      (percentageOf
         (size (list_to_set
                  (List.map r_questionId
                     (List.map snd
                        (List.filter
                           (fun kv => bool_decide (fst (fst kv) = sessionId))
                           (map_to_list (storedResponses w)))))
                : gset string))
         (List.length (questions cfg))).
Proof.
  intros Hstored.
  unfold LTAIndexedDB.calculateProgress, LTAIndexedDB.getSessionResponses,
    LTAIndexedDB.updateSession, LTAIndexedDB.getSession, newDate, bind, gets,
    modify, ret, outcome.
  cbn. rewrite Hstored. reflexivity.
Qed.

(** C4 (as the code has it): over a catalog that is not empty,
    getProgress() counts the distinct answered question ids (the keys of
    the response map) and the questions of the catalog, and its
    percentage is Math.round((answered / total) * 100) in binary64
    arithmetic.  This is round(100 * answered / total), except that it
    may be the integer below when 100 * answered / total lies exactly
    halfway between two integers.  The percentage lies in [0,100]
    whenever every answered id is the id of a catalog question. *)
Theorem getProgress_percentage cfg w :
  (0 < List.length (questions cfg))%nat ->
  let p := LTARouter.getProgress cfg w in
  LTARouter.answered p = size (dom (responses w))
  /\ LTARouter.total p = List.length (questions cfg)
  /\ (Z.of_nat (LTARouter.answered p) <= 2 ^ 32 ->
      Z.of_nat (LTARouter.total p) <= 2 ^ 32 ->
      exists n,
        LTARouter.percentage p = JS.ofZ n
        /\ (n = roundPercent (LTARouter.answered p) (LTARouter.total p)
            \/ n = roundPercent (LTARouter.answered p) (LTARouter.total p) - 1
               /\ 200 * Z.of_nat (LTARouter.answered p)
                  + Z.of_nat (LTARouter.total p)
                  = 2 * Z.of_nat (LTARouter.total p)
                    * roundPercent (LTARouter.answered p) (LTARouter.total p)))
  /\ ((forall k, is_Some (responses w !! k) ->
         exists q, In q (questions cfg) /\ q_id q = k) ->
      exists n, LTARouter.percentage p = JS.ofZ n /\ 0 <= n <= 100).
Proof.
  intros Ht p. subst p. cbn [LTARouter.getProgress LTARouter.answered
                              LTARouter.total LTARouter.percentage].
  split; [now rewrite size_dom |]. split; [reflexivity |]. split.
  - intros Ha32 Ht32. now apply percentageOf_exact_or_half.
  - intros Hkeys. pose proof (size_answered_le cfg _ Hkeys) as Hle.
    now apply percentageOf_range.
Qed.

(* scenario 1 of the specification, on five questions: two of five
   questions answered is 40 percent *)
Lemma getProgress_percentage_witness :
  LTARouter.percentage (LTARouter.getProgress Sample.catalog Sample.world)
  = JS.ofZ 40
  /\ exists n,
       LTARouter.percentage (LTARouter.getProgress Sample.catalog Sample.world)
       = JS.ofZ n
       /\ 0 <= n <= 100.
Proof.
  destruct (getProgress_percentage Sample.catalog Sample.world)
    as (_ & _ & _ & Hrange).
  - vm_compute. lia.
  - split; [vm_compute; reflexivity |]. apply Hrange.
    intros k Hk.
    destruct (decide (k = "q1")) as [-> | Hk1];
      [exists Sample.q1; split; [vm_compute; tauto | reflexivity] |].
    destruct (decide (k = "q2")) as [-> | Hk2];
      [exists Sample.q2; split; [vm_compute; tauto | reflexivity] |].
    exfalso. unfold Sample.world in Hk. cbn [responses] in Hk.
    rewrite !lookup_insert_ne, lookup_empty in Hk by congruence.
    now destruct Hk.
Defined.

(* C4 as the specification states it fails twice.  With one question in
   the catalog and two distinct answered ids in the response map the
   percentage is 200.  With 23 of 40 questions answered the percentage is
   57, where round(100 * 23 / 40) = round(57.5) is 58: the quotient
   23 / 40 is rounded to a binary64 number below 0.575. *)
Lemma getProgress_percentage_counterexample :
  LTARouter.percentage (LTARouter.getProgress Sample.shortCatalog Sample.staleWorld)
  = JS.ofZ 200
  /\ JS.le (LTARouter.percentage
              (LTARouter.getProgress Sample.shortCatalog Sample.staleWorld))
       (JS.ofZ 100) = false
  /\ LTARouter.answered (LTARouter.getProgress Sample.forty Sample.twentyThree)
     = 23%nat
  /\ LTARouter.total (LTARouter.getProgress Sample.forty Sample.twentyThree)
     = 40%nat
  /\ LTARouter.percentage (LTARouter.getProgress Sample.forty Sample.twentyThree)
     = JS.ofZ 57
  /\ roundPercent 23 40 = 58.
Proof. repeat split; vm_compute; reflexivity. Qed.

(* --------------------------------------------------------------------- *)
(* Completing a session                                                   *)
(* --------------------------------------------------------------------- *)

Section Completion.

Variable w : World.
Variable s d : Session.

(* the router holds session s, and the session store holds a copy d of it
   under its id *)
Hypothesis loaded : currentSession w = Some s.
Hypothesis stored : sessions w !! s_id s = Some d.
Hypothesis same_id : s_id d = s_id s.

Lemma completeSession_run :
  savable w ->
  LTARouter.completeSession w = (Return tt, completedWorld w s d).
Proof using loaded stored same_id.
  unfold savable, LTAIndexedDB.cloneableData. intros Hsave.
  unfold LTARouter.completeSession, LTARouter.generateFinalAnalytics,
    LTARouter.theSession, LTAIndexedDB.updateSession, LTAIndexedDB.saveAnalytics,
    LTAIndexedDB.getSession, newDate, bind, gets, modify, ret, throw.
  cbn. rewrite loaded. cbn. rewrite stored. cbn. rewrite same_id.
  cbn in Hsave. rewrite Hsave. reflexivity.
Qed.

Lemma completeSession_fails :
  ~ savable w ->
  LTARouter.completeSession w
  = (Throw (DataCloneError "function could not be cloned"), unsavedWorld w s d).
Proof using loaded stored same_id.
  unfold savable, LTAIndexedDB.cloneableData. intros Hsave.
  unfold LTARouter.completeSession, LTARouter.generateFinalAnalytics,
    LTARouter.theSession, LTAIndexedDB.updateSession, LTAIndexedDB.saveAnalytics,
    LTAIndexedDB.getSession, newDate, bind, gets, modify, ret, throw.
  cbn. rewrite loaded. cbn. rewrite stored. cbn. rewrite same_id.
  cbn in Hsave.
  destruct (JS.cloneable _); [now contradiction Hsave | reflexivity].
Qed.

End Completion.

(* a completed session can be completed again *)
Lemma completeSession_again w s d :
  currentSession w = Some s ->
  sessions w !! s_id s = Some d ->
  s_id d = s_id s ->
  savable w ->
  LTARouter.completeSession (completedWorld w s d)
  = (Return tt,
     completedWorld (completedWorld w s d) (completedSession w s)
       (completedCopy w d)).
Proof.
  intros Hloaded Hstored Hid Hsave. apply completeSession_run.
  - reflexivity.
  - cbn. apply lookup_insert_eq.
  - cbn. exact Hid.
  - exact Hsave.
Qed.

Lemma completeSession_fails_again w s d :
  currentSession w = Some s ->
  sessions w !! s_id s = Some d ->
  s_id d = s_id s ->
  ~ savable w ->
  LTARouter.completeSession (unsavedWorld w s d)
  = (Throw (DataCloneError "function could not be cloned"),
     unsavedWorld (unsavedWorld w s d) (completedSession w s)
       (completedCopy w d)).
Proof.
  intros Hloaded Hstored Hid Hsave. apply completeSession_fails.
  - reflexivity.
  - cbn. apply lookup_insert_eq.
  - cbn. exact Hid.
  - exact Hsave.
Qed.

(** C2 (as the code has it): completeSession has no guard for a session
    that is already completed.  Called twice in a row on a loaded, stored
    session whose final analytics can be stored, both calls succeed; the
    status is and stays 'completed', in the router and in the store; each
    call stamps completedAt with the clock reading it makes, so the
    timestamp after the second call is the reading of the second call;
    and the second call computes and saves the final analytics again,
    with the data of the first call (the responses did not change) under
    a new calculatedAt.  When the final analytics cannot be stored (the
    answer to q20 names a function every object inherits), each of the
    two calls throws DataCloneError after it has marked and stamped the
    session, and no analytics record is written. *)
Theorem completeSession_twice (w : World) (s d : Session) :
  currentSession w = Some s ->
  sessions w !! s_id s = Some d ->
  s_id d = s_id s ->
  let first := LTARouter.completeSession w in
  let second := LTARouter.completeSession (after first) in
  (savable w ->
   outcome first = Return tt
   /\ outcome second = Return tt
   /\ s_completionStatus <$> currentSession (after second) = Some "completed"
   /\ s_completionStatus <$> sessions (after second) !! s_id s = Some "completed"
   /\ currentSession (after first) ≫= s_completedAt = Some (clock w (ticks w))
   /\ currentSession (after second) ≫= s_completedAt
      = Some (clock w (ticks w + 4))
   /\ a_data <$> analytics (after first) !! (s_id s, "final_assessment")
      = Some (FinalAssessment (LTARouter.finalAnalyticsOf w))
   /\ a_data <$> analytics (after second) !! (s_id s, "final_assessment")
      = Some (FinalAssessment (LTARouter.finalAnalyticsOf w))
   /\ a_calculatedAt <$> analytics (after second) !! (s_id s, "final_assessment")
      = Some (clock w (ticks w + 7)))
  /\ (~ savable w ->
      outcome first = Throw (DataCloneError "function could not be cloned")
      /\ outcome second = Throw (DataCloneError "function could not be cloned")
      /\ s_completionStatus <$> sessions (after first) !! s_id s
         = Some "completed"
      /\ currentSession (after first) ≫= s_completedAt = Some (clock w (ticks w))
      /\ currentSession (after second) ≫= s_completedAt
         = Some (clock w (ticks w + 4))
      /\ analytics (after second) = analytics w).
Proof.
  intros Hloaded Hstored Hid first second. subst second first. split.
  - intros Hsave.
    rewrite (completeSession_run w s d Hloaded Hstored Hid Hsave).
    unfold after, outcome. cbn [fst snd].
    rewrite (completeSession_again w s d Hloaded Hstored Hid Hsave).
    cbn [fst snd].
    replace (ticks w + 4)%nat with (S (S (S (S (ticks w))))) by lia.
    replace (ticks w + 7)%nat with (S (S (S (S (S (S (S (ticks w)))))))) by lia.
    cbn. rewrite !lookup_insert_eq. cbn. repeat split; reflexivity.
  - intros Hsave.
    rewrite (completeSession_fails w s d Hloaded Hstored Hid Hsave).
    unfold after, outcome. cbn [fst snd].
    rewrite (completeSession_fails_again w s d Hloaded Hstored Hid Hsave).
    cbn [fst snd].
    replace (ticks w + 4)%nat with (S (S (S (S (ticks w))))) by lia.
    cbn. rewrite !lookup_insert_eq. cbn. repeat split; reflexivity.
Qed.

Lemma completeSession_twice_witness :
  currentSession
    (after (LTARouter.completeSession
              (after (LTARouter.completeSession Sample.world))))
    ≫= s_completedAt
  = Some 4
  /\ outcome (LTARouter.completeSession Sample.inherited)
     = Throw (DataCloneError "function could not be cloned").
Proof.
  destruct (completeSession_twice Sample.world Sample.session Sample.session)
    as [Hsaved _]; [reflexivity | vm_compute; reflexivity | reflexivity |].
  destruct (completeSession_twice Sample.inherited Sample.session Sample.session)
    as [_ Hfailed]; [reflexivity | vm_compute; reflexivity | reflexivity |].
  destruct (Hsaved eq_refl) as (_ & _ & _ & _ & _ & Hstamp & _).
  destruct Hfailed as (Hthrown & _); [discriminate |].
  split; [exact Hstamp | exact Hthrown].
Defined.

(* C2 as the specification states it fails: with a clock that advances,
   the second call
   is no no-op and the completion timestamp changes from 0 to 4 *)
Lemma completeSession_twice_counterexample :
  let first := LTARouter.completeSession Sample.world in
  let second := LTARouter.completeSession (after first) in
  outcome first = Return tt
  /\ outcome second = Return tt
  /\ currentSession (after first) ≫= s_completedAt = Some 0
  /\ currentSession (after second) ≫= s_completedAt = Some 4
  /\ currentSession (after second) <> currentSession (after first)
  /\ analytics (after second) <> analytics (after first).
Proof.
  cbv zeta. repeat split; try (vm_compute; reflexivity).
  - vm_compute. discriminate.
  - intros H.
    apply (f_equal (fun m => a_calculatedAt <$> m !! (1, "final_assessment"))) in H.
    vm_compute in H. discriminate.
Qed.

(* --------------------------------------------------------------------- *)
(* The conversion score of the final assessment                           *)
(* --------------------------------------------------------------------- *)





(* --------------------------------------------------------------------- *)
(* The scenarios of the specification, evaluated                          *)
(* --------------------------------------------------------------------- *)

(* 1: q1 and q2 answered, q3 required and open *)
Example scenario_canSubmit :
  LTARouter.canSubmit Sample.catalog Sample.world = false.
Proof. vm_compute. reflexivity. Qed.

Example scenario_two_of_three : percentageOf 2 3 = JS.ofZ 67.
Proof. vm_compute. reflexivity. Qed.

(* an empty catalog: 0/0 and 2/0 *)
Example empty_catalog_progress :
  percentageOf 0 0 = JS.NaN /\ percentageOf 2 0 = JS.PInf.
Proof. split; vm_compute; reflexivity. Qed.

(* 2: answering "B" to q1 leads to q5 *)
Example scenario_jump :
  LTASkipLogicProcessor.getNextQuestion 2 Sample.catalog "q1"
    (<["q1" := Sample.answer "q1" "screening" "B"]> ∅) (Some "consumer")
  = Some (Return (Some Sample.q5)).
Proof. vm_compute. reflexivity. Qed.

(* 3: six words of recall score min(12, 10) *)
Example scenario_recall :
  LTAAnalyticsEngine.calculateStageScore
    (Sample.answer "q8" "awareness" "we saw the big five there")
  = JS.Number (JS.Num (10 # 1)).
Proof. vm_compute. reflexivity. Qed.

(* 4: the interest table, and what the table inherits *)
Example scenario_interest :
  LTAAnalyticsEngine.calculateStageScore
    (Sample.answer "q20" "interest" "Extremely") = JS.Number (JS.ofZ 10)
  /\ LTAAnalyticsEngine.calculateStageScore
       (Sample.answer "q20" "interest" "Slightly") = JS.Number (JS.Num (5 # 2))
  /\ LTAAnalyticsEngine.calculateStageScore
       (Sample.answer "q20" "interest" "constructor") = JS.Function "constructor"
  /\ LTAAnalyticsEngine.calculateStageScore
       (Sample.answer "q20" "interest" "__proto__") = JS.Object.
Proof. repeat split; vm_compute; reflexivity. Qed.

Example parseInt_examples :
  Str.parseInt (Some "7") = JS.ofZ 7
  /\ Str.parseInt (Some " -0x1f") = JS.ofZ (-31)
  /\ Str.parseInt (Some "12px") = JS.ofZ 12
  /\ Str.parseInt (Some "often") = JS.NaN
  /\ Str.parseInt None = JS.NaN
  /\ Str.parseInt (Some "9007199254740993") = JS.ofZ 9007199254740992.
Proof. repeat split; vm_compute; reflexivity. Qed.

(* the literal 0.1, 23 / 40, and the largest number *)
Example binary64_examples :
  JS.fromQ (1 # 10) = JS.Num (3602879701896397 # 36028797018963968)
  /\ JS.div (JS.ofZ 23) (JS.ofZ 40)
     = JS.Num (2589569785738035 # 4503599627370496)
  /\ JS.mul (JS.ofZ 3) (JS.fromQ (1 # 10))
     = JS.Num (1351079888211149 # 4503599627370496)
  /\ JS.fromQ (inject_Z (2 ^ 1024 - 2 ^ 970 - 1))
     = JS.ofZ (2 ^ 1024 - 2 ^ 971)
  /\ JS.fromQ (inject_Z (2 ^ 1024 - 2 ^ 970)) = JS.PInf.
Proof. repeat split; vm_compute; reflexivity. Qed.

(* lengths in UTF-16 code units (the bytes C3 A9 are U+00E9, the bytes
   F0 9D 84 9E are U+1D11E), white space beyond ASCII (C2 A0 is U+00A0),
   and the Kelvin sign (E2 84 AA), whose lower case is k *)
Example string_examples :
  let b (n : Z) (s : string) := String (ascii_of_nat (Z.to_nat n)) s in
  Str.length (b 99 (b 97 (b 102 (b 195 (b 169 ""))))) = 4%nat
  /\ Str.length (b 240 (b 157 (b 132 (b 158 "")))) = 2%nat
  /\ Str.trim (b 194 (b 160 " a b ")) = "a b"
  /\ Str.splitSpaces_length (b 97 (b 194 (b 160 " b"))) = 2%nat
  /\ Str.parseInt (Some (b 194 (b 160 "7"))) = JS.ofZ 7
  /\ Str.toLowerCase (b 226 (b 132 (b 170 "M")))  = "km".
Proof. cbv zeta. repeat split; vm_compute; reflexivity. Qed.

(* ===================================================================== *)
(* Further properties of the router                                       *)
(* ===================================================================== *)

Lemma skipn_nth_error {A} (l : list A) n x :
  nth_error l n = Some x -> skipn n l = x :: skipn (S n) l.
Proof.
  revert n. induction l as [| a l IH]; intros [| n] H; cbn in *;
    try discriminate.
  - now injection H as ->.
  - now apply IH.
Qed.

Lemma skipn_nth_error_None {A} (l : list A) n :
  nth_error l n = None -> skipn n l = [].
Proof.
  intros H. apply nth_error_None in H. now apply skipn_all2.
Qed.

Lemma item_questionsAfter_Some cfg i q :
  -1 <= i -> item (questions cfg) (i + 1) = Some q ->
  questionsAfter cfg i = q :: questionsAfter cfg (i + 1).
Proof.
  intros Hi Hitem. apply item_Some in Hitem as [_ Hnth].
  unfold questionsAfter. rewrite (skipn_nth_error _ _ _ Hnth).
  f_equal. f_equal. lia.
Qed.

Lemma item_questionsAfter_None cfg i :
  -1 <= i -> item (questions cfg) (i + 1) = None -> questionsAfter cfg i = [].
Proof.
  intros Hi Hitem. unfold item in Hitem.
  destruct (Z.ltb_spec (i + 1) 0); [lia |].
  unfold questionsAfter. now apply skipn_nth_error_None.
Qed.

Section Sequencing.

Import LTASkipLogicProcessor.

Variable cfg : Config.
Variable responses : gmap string Response.
Variable stakeholderType : option string.

Hypothesis unique_ids : NoDup (List.map q_id (questions cfg)).

Lemma getNextQuestionAfter_firstShown fuel qid :
  Z.of_nat (List.length (questions cfg)) - (findIndex (questions cfg) qid + 1)
    < Z.of_nat fuel ->
  getNextQuestionAfter fuel cfg qid responses stakeholderType
  = Some (Return (firstShown cfg responses stakeholderType
                    (questionsAfter cfg (findIndex (questions cfg) qid)))).
Proof using unique_ids.
  revert qid. induction fuel as [| fuel IH]; intros qid Hfuel.
  - pose proof (findIndex_range (questions cfg) qid). lia.
  - pose proof (findIndex_range (questions cfg) qid) as Hrange.
    cbn [getNextQuestionAfter].
    destruct (item (questions cfg) (findIndex (questions cfg) qid + 1))
      as [next |] eqn:Hitem.
    + rewrite (item_questionsAfter_Some _ _ _ (proj1 Hrange) Hitem).
      unfold firstShown. cbn [List.find].
      destruct (shouldSkip cfg (q_id next) responses stakeholderType) eqn:Hskip;
        cbn [negb]; [| reflexivity].
      rewrite IH; rewrite (findIndex_item _ _ _ unique_ids Hitem);
        [reflexivity | lia].
    + now rewrite (item_questionsAfter_None _ _ (proj1 Hrange) Hitem).
Qed.

Lemma getNextQuestion_firstShown fuel qid :
  (forall q, In q (questions cfg) ->
     skipLogicAt cfg (logicKeyOf (q_id q) responses) = None) ->
  is_Some (findQuestion (questions cfg) qid) ->
  Z.of_nat (List.length (questions cfg))
    - (findIndex (questions cfg) (Some qid) + 1) < Z.of_nat fuel ->
  getNextQuestion fuel cfg qid responses stakeholderType
  = Some (Return (firstShown cfg responses stakeholderType
                    (questionsAfter cfg (findIndex (questions cfg) (Some qid))))).
Proof using unique_ids.
  intros Hrules. revert qid.
  induction fuel as [| fuel IH]; intros qid [c Hc] Hfuel.
  - pose proof (findIndex_range (questions cfg) (Some qid)). lia.
  - pose proof (findIndex_range (questions cfg) (Some qid)) as Hrange.
    cbn [getNextQuestion]. rewrite Hc.
    apply findQuestion_Some in Hc as [Hin <-].
    rewrite (Hrules c Hin).
    destruct (item (questions cfg) (findIndex (questions cfg) (Some (q_id c)) + 1))
      as [next |] eqn:Hitem.
    + rewrite (item_questionsAfter_Some _ _ _ (proj1 Hrange) Hitem).
      unfold firstShown. cbn [List.find].
      destruct (shouldSkip cfg (q_id next) responses stakeholderType) eqn:Hskip;
        cbn [negb]; [| reflexivity].
      assert (Hnext : In next (questions cfg)).
      { apply item_Some in Hitem as [_ Hnth]. eapply nth_error_In; eauto. }
      rewrite IH; rewrite ?(findIndex_item _ _ _ unique_ids Hitem);
        [reflexivity | | lia].
      rewrite (findQuestion_unique _ _ unique_ids Hnext). eauto.
    + now rewrite (item_questionsAfter_None _ _ (proj1 Hrange) Hitem).
Qed.

(* a key that names an inherited member sends the walk back to the start
   of the catalog *)
Lemma getNextQuestion_inherited fuel qid member :
  is_Some (findQuestion (questions cfg) qid) ->
  skipLogicAt cfg (logicKeyOf qid responses) = Some (Inherited member) ->
  (S (List.length (questions cfg)) < fuel)%nat ->
  getNextQuestion fuel cfg qid responses stakeholderType
  = Some (Return (firstShown cfg responses stakeholderType (questions cfg))).
Proof using unique_ids.
  intros [c Hc] Hkey Hfuel. destruct fuel as [| fuel]; [lia |].
  cbn [getNextQuestion]. rewrite Hc, Hkey.
  rewrite getNextQuestionAfter_firstShown by (cbn [findIndex]; lia).
  reflexivity.
Qed.

End Sequencing.

Lemma firstShown_Some cfg responses stakeholderType l q :
  firstShown cfg responses stakeholderType l = Some q ->
  In q l
  /\ LTASkipLogicProcessor.shouldSkip cfg (q_id q) responses stakeholderType
     = false.
Proof.
  unfold firstShown. intros H. apply find_some in H as [Hin Hshown].
  split; [exact Hin | now apply negb_true_iff].
Qed.

Lemma In_questionsAfter cfg i q :
  In q (questionsAfter cfg i) -> In q (questions cfg).
Proof.
  unfold questionsAfter. intros H.
  rewrite <- (firstn_skipn (Z.to_nat (i + 1)) (questions cfg)).
  apply in_or_app. now right.
Qed.

(** X1: over a catalog with unique ids, getNextQuestionAfter(id) returns
    the first question after the position of id (after the start of the
    catalog when id is unknown or undefined) that shouldSkip lets through,
    and undefined when there is none; so a question it returns is a catalog
    question that is not skipped. *)
Theorem getNextQuestionAfter_first_shown
    cfg (questionId : option string) (responses : gmap string Response)
    (stakeholderType : option string) (fuel : nat) :
  NoDup (List.map q_id (questions cfg)) ->
  (List.length (questions cfg) < fuel)%nat ->
  LTASkipLogicProcessor.getNextQuestionAfter fuel cfg questionId responses
    stakeholderType
  = Some (Return (firstShown cfg responses stakeholderType
                    (questionsAfter cfg (findIndex (questions cfg) questionId))))
  /\ forall q,
       LTASkipLogicProcessor.getNextQuestionAfter fuel cfg questionId responses
         stakeholderType = Some (Return (Some q)) ->
       In q (questions cfg)
       /\ LTASkipLogicProcessor.shouldSkip cfg (q_id q) responses stakeholderType
          = false.
Proof.
  intros Hnd Hfuel.
  assert (Hrun := getNextQuestionAfter_firstShown cfg responses stakeholderType
                    Hnd fuel questionId).
  pose proof (findIndex_range (questions cfg) questionId) as Hrange.
  rewrite Hrun by lia. split; [reflexivity |].
  intros q [= Hq]. apply firstShown_Some in Hq as [Hin Hshown].
  split; [now apply In_questionsAfter in Hin | exact Hshown].
Qed.

Lemma getNextQuestionAfter_first_shown_witness :
  LTASkipLogicProcessor.getNextQuestionAfter 6 Sample.catalog (Some "q1")
    (responses Sample.world) (Some "consumer")
  = Some (Return (Some Sample.q3)).
Proof.
  destruct (getNextQuestionAfter_first_shown Sample.catalog (Some "q1")
              (responses Sample.world) (Some "consumer") 6) as [Hrun _].
  - apply (bool_decide_unpack _). vm_compute. exact I.
  - vm_compute. lia.
  - rewrite Hrun. vm_compute. reflexivity.
Defined.

(** X2: over a catalog with unique ids, take a question of the catalog.
    When the rule table yields nothing for the keys built from the
    questions and their current answers (no own rule, and no member
    inherited from Object.prototype), getNextQuestion returns the first
    later question that shouldSkip lets through, and undefined at the end
    of the catalog; it never returns a skipped question.  When the key of
    the current question names an inherited member (question "_" answered
    "proto__" reads skipLogic["__proto__"]), the walk starts again at the
    beginning of the catalog: the result is the first question of the
    whole catalog that shouldSkip lets through. *)
Theorem getNextQuestion_first_shown
    cfg (currentQuestionId : string) (responses : gmap string Response)
    (stakeholderType : option string) (fuel : nat) :
  NoDup (List.map q_id (questions cfg)) ->
  is_Some (findQuestion (questions cfg) currentQuestionId) ->
  (List.length (questions cfg) < fuel)%nat ->
  ((forall q, In q (questions cfg) ->
      LTASkipLogicProcessor.skipLogicAt cfg
        (LTASkipLogicProcessor.logicKeyOf (q_id q) responses) = None) ->
   LTASkipLogicProcessor.getNextQuestion fuel cfg currentQuestionId responses
     stakeholderType
   = Some (Return (firstShown cfg responses stakeholderType
                     (questionsAfter cfg
                        (findIndex (questions cfg) (Some currentQuestionId)))))
   /\ forall q,
        LTASkipLogicProcessor.getNextQuestion fuel cfg currentQuestionId
          responses stakeholderType = Some (Return (Some q)) ->
        In q (questions cfg)
        /\ LTASkipLogicProcessor.shouldSkip cfg (q_id q) responses stakeholderType
           = false)
  /\ (forall member,
        LTASkipLogicProcessor.skipLogicAt cfg
          (LTASkipLogicProcessor.logicKeyOf currentQuestionId responses)
        = Some (LTASkipLogicProcessor.Inherited member) ->
        LTASkipLogicProcessor.getNextQuestion (S fuel) cfg currentQuestionId
          responses stakeholderType
        = Some (Return (firstShown cfg responses stakeholderType
                          (questions cfg)))).
Proof.
  intros Hnd Hcur Hfuel. split.
  - intros Hrules.
    assert (Hrun := getNextQuestion_firstShown cfg responses stakeholderType
                      Hnd fuel currentQuestionId Hrules Hcur).
    pose proof (findIndex_range (questions cfg) (Some currentQuestionId))
      as Hrange.
    rewrite Hrun by lia. split; [reflexivity |].
    intros q [= Hq]. apply firstShown_Some in Hq as [Hin Hshown].
    split; [now apply In_questionsAfter in Hin | exact Hshown].
  - intros member Hkey.
    apply (getNextQuestion_inherited cfg responses stakeholderType Hnd
             (S fuel) currentQuestionId member Hcur Hkey).
    lia.
Qed.

(* from q3 the next question is q4; from the question "_" answered
   "proto__" it is q1, the first question, and not q3, the next one *)
Lemma getNextQuestion_first_shown_witness :
  LTASkipLogicProcessor.getNextQuestion 6 Sample.catalog "q3"
    (responses Sample.world) (Some "consumer")
  = Some (Return (Some Sample.q4))
  /\ LTASkipLogicProcessor.getNextQuestion 5 Sample.protoCatalog "_"
       Sample.protoAnswer (Some "consumer")
     = Some (Return (Some Sample.q1)).
Proof.
  destruct (getNextQuestion_first_shown Sample.catalog "q3"
              (responses Sample.world) (Some "consumer") 6) as [Hrun _].
  - apply (bool_decide_unpack _). vm_compute. exact I.
  - vm_compute. eauto.
  - vm_compute. lia.
  - destruct (getNextQuestion_first_shown Sample.protoCatalog "_"
                Sample.protoAnswer (Some "consumer") 4) as [_ Hproto].
    + apply (bool_decide_unpack _). vm_compute. exact I.
    + vm_compute. eauto.
    + vm_compute. lia.
    + split.
      * destruct Hrun as [Hrun _].
        -- intros q Hin. cbn in Hin.
           destruct Hin as [<- | [<- | [<- | [<- | [<- | []]]]]];
             vm_compute; reflexivity.
        -- rewrite Hrun. vm_compute. reflexivity.
      * rewrite (Hproto JS.Object) by (vm_compute; reflexivity).
        vm_compute. reflexivity.
Defined.

(** X3: when a skipTo rule is keyed by the current question and its
    answer, getNextQuestion returns the question the rule targets as the
    catalog resolves it, whatever the stakeholder type and the other
    responses are: the target is not passed through shouldSkip, so a
    question that is skipped everywhere else can be returned. *)
Theorem getNextQuestion_skipTo_unfiltered
    cfg (currentQuestionId : string) (responses : gmap string Response)
    (stakeholderType : option string) (rule : Rule) (question : string)
    (fuel : nat) :
  is_Some (findQuestion (questions cfg) currentQuestionId) ->
  skipLogic cfg !! LTASkipLogicProcessor.logicKeyOf currentQuestionId responses
  = Some rule ->
  action rule = "skipTo" ->
  target rule = Some (TargetQuestion question) ->
  LTASkipLogicProcessor.getNextQuestion (S fuel) cfg currentQuestionId responses
    stakeholderType
  = Some (Return (findQuestion (questions cfg) question)).
Proof.
  intros [c Hc] Hrule Haction Htarget.
  cbn [LTASkipLogicProcessor.getNextQuestion].
  unfold LTASkipLogicProcessor.skipLogicAt. rewrite Hc, Hrule.
  unfold LTASkipLogicProcessor.applySkipLogic. rewrite Haction, Htarget.
  reflexivity.
Qed.

(* a consumer who answers "B" to q1 is sent to q2, which shouldSkip
   excludes for consumers *)
Lemma getNextQuestion_skipTo_unfiltered_witness :
  LTASkipLogicProcessor.getNextQuestion 1 Sample.jumpToRestricted "q1"
    (<["q1" := Sample.answer "q1" "screening" "B"]> ∅) (Some "consumer")
  = Some (Return (Some Sample.q2))
  /\ LTASkipLogicProcessor.shouldSkip Sample.jumpToRestricted "q2"
       (<["q1" := Sample.answer "q1" "screening" "B"]> ∅) (Some "consumer")
     = true.
Proof.
  split; [| vm_compute; reflexivity].
  rewrite (getNextQuestion_skipTo_unfiltered Sample.jumpToRestricted "q1"
             (<["q1" := Sample.answer "q1" "screening" "B"]> ∅)
             (Some "consumer")
             (mkRule "skipTo" (Some (TargetQuestion "q2")) None
                (mkCondition "q9" (Some "never") false false))
             "q2" 0).
  - vm_compute. reflexivity.
  - vm_compute. eauto.
  - vm_compute. reflexivity.
  - reflexivity.
  - reflexivity.
Defined.

(* --- handleSectionRouting --- *)

Lemma getNextQuestionAfter_shown cfg responses stakeholderType fuel qid r :
  LTASkipLogicProcessor.getNextQuestionAfter fuel cfg qid responses
    stakeholderType = Some r ->
  exists found,
    r = Return found
    /\ forall q, found = Some q ->
         In q (questions cfg)
         /\ LTASkipLogicProcessor.shouldSkip cfg (q_id q) responses
              stakeholderType = false.
Proof.
  revert qid. induction fuel as [| fuel IH]; intros qid Hrun; [discriminate |].
  cbn [LTASkipLogicProcessor.getNextQuestionAfter] in Hrun.
  destruct (item (questions cfg) (findIndex (questions cfg) qid + 1))
    as [next |] eqn:Hitem.
  - destruct (LTASkipLogicProcessor.shouldSkip cfg (q_id next) responses
                stakeholderType) eqn:Hskip.
    + eapply IH; eauto.
    + injection Hrun as <-. eexists. split; [reflexivity |].
      intros q [= <-]. split; [| exact Hskip].
      apply item_Some in Hitem as [_ Hnth]. eapply nth_error_In; eauto.
  - injection Hrun as <-. eexists. split; [reflexivity |]. discriminate.
Qed.

Lemma scanRange_shown cfg responses stakeholderType n i r :
  0 <= i -> i + Z.of_nat n <= Z.of_nat (List.length (questions cfg)) ->
  LTASkipLogicProcessor.scanRange n i cfg responses stakeholderType = Some r ->
  exists q,
    r = Return (Some q) /\ In q (questions cfg)
    /\ LTASkipLogicProcessor.shouldSkip cfg (q_id q) responses stakeholderType
       = false.
Proof.
  revert i. induction n as [| n IH]; intros i Hi Hlen Hrun; [discriminate |].
  cbn [LTASkipLogicProcessor.scanRange] in Hrun.
  destruct (item (questions cfg) i) as [question |] eqn:Hitem.
  - destruct (LTASkipLogicProcessor.shouldSkip cfg (q_id question) responses
                stakeholderType) eqn:Hskip; cbn [negb] in Hrun.
    + apply (IH (i + 1)); [lia | lia | exact Hrun].
    + injection Hrun as <-. exists question. split; [reflexivity |].
      split; [| exact Hskip].
      apply item_Some in Hitem as [_ Hnth]. eapply nth_error_In; eauto.
  - exfalso. unfold item in Hitem. destruct (Z.ltb_spec i 0); [lia |].
    apply nth_error_None in Hitem. lia.
Qed.

(** X4: a showSection rule whose target is the range "start-end" throws a
    TypeError when start is the id of no question (the loop reads
    questions[-1].id), whatever end is.  When start is a question and the
    ids of the catalog are unique, the call ends without an exception
    within |questions| + 1 nested calls, and a question it returns is a
    catalog question that shouldSkip lets through. *)
Theorem handleSectionRouting_range
    cfg (rule : Rule) (range startQ : string) (endQ : option string)
    (responses : gmap string Response) (stakeholderType : option string)
    (fuel : nat) :
  target rule = Some (TargetRange range) ->
  Str.split2 "-" range = (startQ, endQ) ->
  (findIndex (questions cfg) (Some startQ) = -1 ->
   LTASkipLogicProcessor.handleSectionRouting fuel cfg rule responses
     stakeholderType
   = Some (Throw (TypeError "question is undefined")))
  /\ (findIndex (questions cfg) (Some startQ) <> -1 ->
      NoDup (List.map q_id (questions cfg)) ->
      (List.length (questions cfg) < fuel)%nat ->
      exists found,
        LTASkipLogicProcessor.handleSectionRouting fuel cfg rule responses
          stakeholderType = Some (Return found)
        /\ forall q, found = Some q ->
             In q (questions cfg)
             /\ LTASkipLogicProcessor.shouldSkip cfg (q_id q) responses
                  stakeholderType = false).
Proof.
  intros Htarget Hsplit.
  unfold LTASkipLogicProcessor.handleSectionRouting. rewrite Htarget, Hsplit.
  pose proof (findIndex_range (questions cfg) (Some startQ)) as Hfirst.
  pose proof (findIndex_range (questions cfg) endQ) as Hlast.
  split.
  - intros Hstart. rewrite Hstart.
    replace (Z.to_nat (findIndex (questions cfg) endQ - -1 + 1))
      with (S (Z.to_nat (findIndex (questions cfg) endQ + 1))) by lia.
    reflexivity.
  - intros Hstart Hnd Hfuel.
    destruct (LTASkipLogicProcessor.scanRange _ _ cfg responses stakeholderType)
      as [found |] eqn:Hscan.
    + apply scanRange_shown in Hscan as (q & -> & Hin & Hshown); [| lia | lia].
      eexists. split; [reflexivity |]. intros q' [= <-]. auto.
    + destruct (getNextQuestionAfter_ends cfg responses stakeholderType Hnd
                  fuel endQ) as [r Hr]; [lia |].
      destruct (getNextQuestionAfter_shown _ _ _ _ _ _ Hr) as (found & -> & Hfound).
      exists found. split; [exact Hr | exact Hfound].
Qed.

(* the range q8-q3 starts at no question: the call throws; the range
   q2-q3 leads a consumer, for whom q2 is skipped, to q3 *)
Lemma handleSectionRouting_range_witness :
  LTASkipLogicProcessor.getNextQuestion 3 Sample.brokenRange "q1"
    (<["q1" := Sample.answer "q1" "screening" "C"]> ∅) (Some "consumer")
  = Some (Throw (TypeError "question is undefined"))
  /\ LTASkipLogicProcessor.handleSectionRouting 6 Sample.catalog
       (mkRule "showSection" (Some (TargetRange "q2-q3")) None
          (mkCondition "q9" (Some "never") false false))
       ∅ (Some "consumer")
     = Some (Return (Some Sample.q3)).
Proof.
  destruct (handleSectionRouting_range Sample.brokenRange
              (mkRule "showSection" (Some (TargetRange "q8-q3")) None
                 (mkCondition "q9" (Some "never") false false))
              "q8-q3" "q8" (Some "q3")
              (<["q1" := Sample.answer "q1" "screening" "C"]> ∅)
              (Some "consumer") 2) as [Hthrow _]; [reflexivity | reflexivity |].
  destruct (handleSectionRouting_range Sample.catalog
              (mkRule "showSection" (Some (TargetRange "q2-q3")) None
                 (mkCondition "q9" (Some "never") false false))
              "q2-q3" "q2" (Some "q3") ∅ (Some "consumer") 6)
    as [_ Hreturn]; [reflexivity | reflexivity |].
  split.
  - cbn [LTASkipLogicProcessor.getNextQuestion].
    change (findQuestion (questions Sample.brokenRange) "q1")
      with (Some Sample.q1).
    replace (LTASkipLogicProcessor.skipLogicAt Sample.brokenRange
               (LTASkipLogicProcessor.logicKeyOf "q1"
                  (<["q1" := Sample.answer "q1" "screening" "C"]> ∅)))
      with (Some (LTASkipLogicProcessor.OwnRule
                    (mkRule "showSection" (Some (TargetRange "q8-q3")) None
                       (mkCondition "q9" (Some "never") false false))))
      by (vm_compute; reflexivity).
    unfold LTASkipLogicProcessor.applySkipLogic.
    cbn [action String.eqb Ascii.eqb Bool.eqb].
    apply Hthrow. vm_compute. reflexivity.
  - destruct Hreturn as (found & Hrun & _).
    + vm_compute. discriminate.
    + apply (bool_decide_unpack _). vm_compute. exact I.
    + vm_compute. lia.
    + rewrite Hrun. f_equal. f_equal.
      assert (Heval :
        LTASkipLogicProcessor.handleSectionRouting 6 Sample.catalog
          (mkRule "showSection" (Some (TargetRange "q2-q3")) None
             (mkCondition "q9" (Some "never") false false))
          ∅ (Some "consumer")
        = Some (Return (Some Sample.q3))) by (vm_compute; reflexivity).
      rewrite Heval in Hrun. now injection Hrun as <-.
Defined.

(* --- rule keys and question ids that contain the separator --- *)

Lemma untilSep_no_sep sep s :
  ~ In sep (list_ascii_of_string (fst (Str.untilSep sep s))).
Proof.
  induction s as [| c rest IH]; cbn [Str.untilSep].
  - cbn. tauto.
  - destruct (Ascii.eqb_spec c sep) as [-> | Hne]; cbn; [tauto |].
    destruct (Str.untilSep sep rest) as [hd tl]. cbn in *.
    intros [Heq | Hin]; [congruence | contradiction].
Qed.

Lemma split2_fst sep s : fst (Str.split2 sep s) = fst (Str.untilSep sep s).
Proof. unfold Str.split2. now destruct (Str.untilSep sep s). Qed.

(** X5: shouldSkip matches a rule to a question by the part of the rule
    key before its first underscore, so for a question id that itself
    contains an underscore no rule is ever consulted: shouldSkip answers
    as it would with an empty rule table, whatever the rules and the
    responses are. *)
Theorem shouldSkip_underscore_id
    cfg (questionId : string) (responses : gmap string Response)
    (stakeholderType : option string) :
  In "_"%char (list_ascii_of_string questionId) ->
  LTASkipLogicProcessor.shouldSkip cfg questionId responses stakeholderType
  = LTASkipLogicProcessor.shouldSkip (mkConfig (questions cfg) ∅) questionId
      responses stakeholderType.
Proof.
  intros Hunder. unfold LTASkipLogicProcessor.shouldSkip. cbn [questions skipLogic].
  destruct (findQuestion (questions cfg) questionId) as [question |];
    [| reflexivity].
  match goal with |- (if ?b then _ else _) = _ => destruct b end;
    [reflexivity |].
  rewrite map_to_list_empty. cbn [existsb].
  destruct (existsb _ (map_to_list (skipLogic cfg))) eqn:Hex; [| reflexivity].
  exfalso. apply existsb_exists in Hex as ([logicKey rule] & _ & Hmatch).
  apply andb_true_iff in Hmatch as [Hkey _]. apply String.eqb_eq in Hkey.
  apply (untilSep_no_sep "_" logicKey). rewrite <- split2_fst, Hkey.
  exact Hunder.
Qed.

(* the rule keyed "q_1_A" is meant for q_1 and its condition holds, yet
   q_1 is not skipped; the same rule keyed for q1 does skip q1 *)
Lemma shouldSkip_underscore_id_witness :
  LTASkipLogicProcessor.shouldSkip Sample.underscored "q_1"
    (responses Sample.world) (Some "consumer") = false
  /\ LTASkipLogicProcessor.met
       (LTASkipLogicProcessor.evaluateCondition
          (mkCondition "q1" (Some "A") false false) (responses Sample.world))
     = true.
Proof.
  split; [| vm_compute; reflexivity].
  rewrite (shouldSkip_underscore_id Sample.underscored "q_1"
             (responses Sample.world) (Some "consumer")).
  - vm_compute. reflexivity.
  - vm_compute. tauto.
Defined.

(* --------------------------------------------------------------------- *)
(* Going back, jumping, the current question                              *)
(* --------------------------------------------------------------------- *)

Lemma scanBack_nearest cfg responses stakeholderType n :
  (n <= List.length (questions cfg))%nat ->
  exists found,
    LTARouter.scanBack n cfg responses stakeholderType = Return found
    /\ (found = None ->
        forall j qj, (j < n)%nat -> nth_error (questions cfg) j = Some qj ->
          LTASkipLogicProcessor.shouldSkip cfg (q_id qj) responses
            stakeholderType = true)
    /\ (forall q, found = Some q ->
        exists i,
          (i < n)%nat /\ nth_error (questions cfg) i = Some q
          /\ LTASkipLogicProcessor.shouldSkip cfg (q_id q) responses
               stakeholderType = false
          /\ forall j qj, (i < j)%nat -> (j < n)%nat ->
               nth_error (questions cfg) j = Some qj ->
               LTASkipLogicProcessor.shouldSkip cfg (q_id qj) responses
                 stakeholderType = true).
Proof.
  induction n as [| n IH]; intros Hn.
  - exists None. split; [reflexivity |]. split; [intros; lia | discriminate].
  - cbn [LTARouter.scanBack].
    destruct (nth_error (questions cfg) n) as [prev |] eqn:Hnth.
    2:{ apply nth_error_None in Hnth. lia. }
    destruct (LTASkipLogicProcessor.shouldSkip cfg (q_id prev) responses
                stakeholderType) eqn:Hskip; cbn [negb].
    + destruct IH as (found & Hrun & Hnone & Hsome); [lia |].
      exists found. split; [exact Hrun |]. split.
      * intros Hf j qj Hj Hq. destruct (decide (j = n)) as [-> | Hne].
        -- rewrite Hnth in Hq. now injection Hq as <-.
        -- apply (Hnone Hf j qj); [lia | exact Hq].
      * intros q Hf. destruct (Hsome q Hf) as (i & Hi & Hq & Hshown & Hbetween).
        exists i. repeat split; [lia | exact Hq | exact Hshown |].
        intros j qj Hij Hj Hqj. destruct (decide (j = n)) as [-> | Hne].
        -- rewrite Hnth in Hqj. now injection Hqj as <-.
        -- apply (Hbetween j qj); [lia | lia | exact Hqj].
    + exists (Some prev). split; [reflexivity |]. split; [discriminate |].
      intros q [= <-]. exists n. repeat split; [lia | exact Hnth | exact Hskip |].
      intros j qj Hij Hj. lia.
Qed.

(** X6: with a session loaded, getPreviousQuestion throws nothing and
    changes nothing.  It returns the nearest question before the position
    of the current question that shouldSkip lets through: every question
    between the two is skipped.  It returns null when every earlier
    question is skipped, and in particular when the current question is
    the first of the catalog or is no question of the catalog. *)
Theorem getPreviousQuestion_nearest_shown cfg (w : World) (s : Session) :
  currentSession w = Some s ->
  let currentIndex := findIndex (questions cfg) (Some (s_currentQuestion s)) in
  let shown q :=
    LTASkipLogicProcessor.shouldSkip cfg (q_id q) (responses w)
      (s_stakeholderType s) in
  exists found,
    LTARouter.getPreviousQuestion cfg w = (Return found, w)
    /\ (found = None ->
        forall j qj, Z.of_nat j < currentIndex ->
          nth_error (questions cfg) j = Some qj -> shown qj = true)
    /\ (forall q, found = Some q ->
        exists i,
          Z.of_nat i < currentIndex /\ nth_error (questions cfg) i = Some q
          /\ shown q = false
          /\ forall j qj, (i < j)%nat -> Z.of_nat j < currentIndex ->
               nth_error (questions cfg) j = Some qj -> shown qj = true).
Proof.
  intros Hloaded currentIndex shown. subst shown.
  pose proof (findIndex_range (questions cfg) (Some (s_currentQuestion s)))
    as Hrange.
  fold currentIndex in Hrange.
  assert (Hrun : LTARouter.getPreviousQuestion cfg w
                 = (if currentIndex <=? 0 then Return None
                    else LTARouter.scanBack (Z.to_nat currentIndex) cfg
                           (responses w) (s_stakeholderType s), w)).
  { unfold LTARouter.getPreviousQuestion. subst currentIndex.
    destruct (questions cfg) as [| q0 qs]; [reflexivity |].
    cbv beta iota delta [bind LTARouter.theSession gets ret throw].
    rewrite Hloaded. cbv beta iota zeta.
    now destruct (_ <=? 0). }
  rewrite Hrun. clear Hrun.
  destruct (Z.leb_spec currentIndex 0) as [Hle | Hgt].
  - exists None. split; [reflexivity |]. split; [| discriminate].
    intros _ j qj Hj. lia.
  - destruct (scanBack_nearest cfg (responses w) (s_stakeholderType s)
                (Z.to_nat currentIndex)) as (found & Hscan & Hnone & Hsome);
      [lia |].
    exists found. rewrite Hscan. split; [reflexivity |]. split.
    + intros Hf j qj Hj. apply (Hnone Hf). lia.
    + intros q Hf. destruct (Hsome q Hf) as (i & Hi & Hq & Hshown & Hbetween).
      exists i. repeat split; [lia | exact Hq | exact Hshown |].
      intros j qj Hij Hj. apply Hbetween; [exact Hij | lia].
Qed.

(* from q3, with no stakeholder type yet, the previous question is q1: q2
   lies between them and is skipped *)
Lemma getPreviousQuestion_nearest_shown_witness :
  LTARouter.getPreviousQuestion Sample.catalog Sample.atQ3
  = (Return (Some Sample.q1), Sample.atQ3)
  /\ LTASkipLogicProcessor.shouldSkip Sample.catalog (q_id Sample.q2)
       (responses Sample.atQ3)
       (s_stakeholderType (set_position "q3" "awareness" Sample.session))
     = true.
Proof.
  assert (Hrun : LTARouter.getPreviousQuestion Sample.catalog Sample.atQ3
                 = (Return (Some Sample.q1), Sample.atQ3))
    by (vm_compute; reflexivity).
  split; [exact Hrun |].
  destruct (getPreviousQuestion_nearest_shown Sample.catalog Sample.atQ3
              (set_position "q3" "awareness" Sample.session) eq_refl)
    as (found & Hfound & _ & Hsome).
  rewrite Hrun in Hfound. injection Hfound as <-.
  destruct (Hsome Sample.q1 eq_refl) as (i & Hi & Hq & _ & Hbetween).
  destruct i as [| [| i]].
  - apply (Hbetween 1%nat Sample.q2); [lia | vm_compute; reflexivity | reflexivity].
  - discriminate Hq.
  - exfalso.
    replace (findIndex (questions Sample.catalog)
               (Some (s_currentQuestion
                        (set_position "q3" "awareness" Sample.session))))
      with 2 in Hi by (vm_compute; reflexivity).
    lia.
Defined.

Lemma findQuestion_nonempty qs qid q :
  findQuestion qs qid = Some q -> qs <> [].
Proof. intros H ->. discriminate. Qed.

Lemma getCurrentQuestion_run cfg w s :
  currentSession w = Some s ->
  questions cfg <> [] ->
  LTARouter.getCurrentQuestion cfg w
  = (Return (match findQuestion (questions cfg) (s_currentQuestion s) with
             | Some q => Some q
             | None => item (questions cfg) 0
             end), w).
Proof.
  intros Hloaded Hne. unfold LTARouter.getCurrentQuestion.
  destruct (questions cfg) as [| q0 qs]; [congruence |].
  cbv beta iota delta [bind LTARouter.theSession gets ret throw].
  rewrite Hloaded. reflexivity.
Qed.

(** X7: navigateToQuestion to a question of the catalog, with the session
    loaded and stored, returns that question, moves the router's session
    and the stored session to its id and section (the stored one with a
    new lastModified), and getCurrentQuestion then returns the same
    question. *)
Theorem navigateToQuestion_then_current
    cfg (questionId : string) (q : Question) (w : World) (s d : Session) :
  findQuestion (questions cfg) questionId = Some q ->
  currentSession w = Some s ->
  sessions w !! s_id s = Some d ->
  let moved := LTARouter.navigateToQuestion cfg questionId w in
  outcome moved = Return q
  /\ currentSession (after moved)
     = Some (set_position questionId (q_section q) s)
  /\ sessions (after moved) !! s_id d
     = Some (set_lastModified (clock w (ticks w))
               (set_position questionId (q_section q) d))
  /\ outcome (LTARouter.getCurrentQuestion cfg (after moved)) = Return (Some q).
Proof.
  intros Hfind Hloaded Hstored moved.
  assert (Hrun : moved
                 = (Return q,
                    with_sessions
                      (<[s_id d := set_lastModified (clock w (ticks w))
                                     (set_position questionId (q_section q) d)]>
                         (sessions w))
                      (with_ticks (S (ticks w))
                         (with_currentSession
                            (Some (set_position questionId (q_section q) s)) w)))).
  { subst moved. unfold LTARouter.navigateToQuestion. rewrite Hfind.
    cbv beta iota delta [bind LTARouter.theSession LTAIndexedDB.updateSession
                         LTAIndexedDB.getSession gets ret throw modify newDate].
    rewrite Hloaded. cbn. rewrite Hstored. reflexivity. }
  rewrite Hrun. unfold outcome, after. cbn [fst snd].
  split; [reflexivity |]. split; [reflexivity |].
  split; [cbn; apply lookup_insert_eq |].
  erewrite getCurrentQuestion_run;
    [| reflexivity | exact (findQuestion_nonempty _ _ _ Hfind)].
  cbn [fst s_currentQuestion set_position]. now rewrite Hfind.
Qed.

Lemma navigateToQuestion_then_current_witness :
  outcome (LTARouter.getCurrentQuestion Sample.catalog
             (after (LTARouter.navigateToQuestion Sample.catalog "q4"
                       Sample.world)))
  = Return (Some Sample.q4).
Proof.
  destruct (navigateToQuestion_then_current Sample.catalog "q4" Sample.q4
              Sample.world Sample.session Sample.session)
    as (_ & _ & _ & Hcurrent).
  - vm_compute. reflexivity.
  - reflexivity.
  - vm_compute. reflexivity.
  - exact Hcurrent.
Defined.

(** X8: navigateToQuestion is not atomic.  When the session store has no
    record for the router's session, the call throws Error('Session not
    found') and the store is as before, but the router's own session
    object has already been moved to the target question. *)
Theorem navigateToQuestion_store_missing
    cfg (questionId : string) (q : Question) (w : World) (s : Session) :
  findQuestion (questions cfg) questionId = Some q ->
  currentSession w = Some s ->
  sessions w !! s_id s = None ->
  let moved := LTARouter.navigateToQuestion cfg questionId w in
  outcome moved = Throw (Error "Session not found")
  /\ sessions (after moved) = sessions w
  /\ currentSession (after moved)
     = Some (set_position questionId (q_section q) s).
Proof.
  intros Hfind Hloaded Hstored moved. subst moved.
  unfold LTARouter.navigateToQuestion. rewrite Hfind.
  cbv beta iota delta [bind LTARouter.theSession LTAIndexedDB.updateSession
                       LTAIndexedDB.getSession gets ret throw modify newDate].
  rewrite Hloaded. cbn. rewrite Hstored. cbn. repeat split; reflexivity.
Qed.

Lemma navigateToQuestion_store_missing_witness :
  outcome (LTARouter.navigateToQuestion Sample.catalog "q4" Sample.orphaned)
  = Throw (Error "Session not found")
  /\ s_currentQuestion
       <$> currentSession
             (after (LTARouter.navigateToQuestion Sample.catalog "q4"
                       Sample.orphaned))
     = Some "q4".
Proof.
  destruct (navigateToQuestion_store_missing Sample.catalog "q4" Sample.q4
              Sample.orphaned Sample.session) as (Hthrow & _ & Hmoved).
  - vm_compute. reflexivity.
  - reflexivity.
  - vm_compute. reflexivity.
  - split; [exact Hthrow |]. rewrite Hmoved. reflexivity.
Defined.

(** X9: with a session loaded and a catalog that is not empty,
    getCurrentQuestion throws nothing, changes nothing and always returns
    a question of the catalog: the one the session's currentQuestion names
    or, when that id is unknown, the first question. *)
Theorem getCurrentQuestion_in_catalog cfg (w : World) (s : Session) :
  currentSession w = Some s ->
  questions cfg <> [] ->
  exists q,
    LTARouter.getCurrentQuestion cfg w = (Return (Some q), w)
    /\ In q (questions cfg)
    /\ (q_id q = s_currentQuestion s
        \/ (findQuestion (questions cfg) (s_currentQuestion s) = None
            /\ nth_error (questions cfg) 0 = Some q)).
Proof.
  intros Hloaded Hne. rewrite (getCurrentQuestion_run cfg w s Hloaded Hne).
  destruct (findQuestion (questions cfg) (s_currentQuestion s)) as [q |] eqn:Hfind.
  - exists q. apply findQuestion_Some in Hfind as [Hin Hid]. auto.
  - destruct (questions cfg) as [| q0 qs]; [congruence |].
    exists q0. split; [reflexivity |].
    split; [now left |]. right. split; reflexivity.
Qed.

Lemma getCurrentQuestion_in_catalog_witness :
  exists q,
    LTARouter.getCurrentQuestion Sample.catalog Sample.world
    = (Return (Some q), Sample.world)
    /\ In q (questions Sample.catalog).
Proof.
  destruct (getCurrentQuestion_in_catalog Sample.catalog Sample.world
              Sample.session) as (q & Hrun & Hin & _).
  - reflexivity.
  - discriminate.
  - exists q. split; [exact Hrun | exact Hin].
Defined.

(* --------------------------------------------------------------------- *)
(* Running the computations step by step                                  *)
(* --------------------------------------------------------------------- *)

Lemma bind_Return {A B} (m : M A) (k : A -> M B) w a w' :
  m w = (Return a, w') -> bind m k w = k a w'.
Proof. intros H. unfold bind. now rewrite H. Qed.

Lemma bind_Throw {A B} (m : M A) (k : A -> M B) w e w' :
  m w = (Throw e, w') -> bind m k w = (Throw e, w').
Proof. intros H. unfold bind. now rewrite H. Qed.


Lemma updateSession_run sessionId updates w d :
  sessions w !! sessionId = Some d ->
  LTAIndexedDB.updateSession sessionId updates w
  = (Return (set_lastModified (clock w (ticks w)) (updates d)),
     with_sessions
       (<[s_id (updates d) := set_lastModified (clock w (ticks w)) (updates d)]>
          (sessions w))
       (with_ticks (S (ticks w)) w)).
Proof.
  intros H.
  unfold LTAIndexedDB.updateSession, LTAIndexedDB.getSession, bind, gets,
    newDate, modify, ret.
  now rewrite H.
Qed.

Lemma updateSession_missing sessionId updates w :
  sessions w !! sessionId = None ->
  LTAIndexedDB.updateSession sessionId updates w
  = (Throw (Error "Session not found"), w).
Proof.
  intros H.
  unfold LTAIndexedDB.updateSession, LTAIndexedDB.getSession, bind, gets, throw.
  now rewrite H.
Qed.

Lemma calculateProgress_run cfg sessionId w d :
  sessions w !! sessionId = Some d ->
  let p :=
    percentageOf
      (size (list_to_set
               (List.map r_questionId
                  (List.map snd
                     (List.filter
                        (fun kv => bool_decide (fst (fst kv) = sessionId))
                        (map_to_list (storedResponses w)))))
             : gset string))
      (List.length (questions cfg)) in
  LTAIndexedDB.calculateProgress cfg sessionId w
  = (Return p,
     with_sessions
       (<[s_id d := set_lastModified (clock w (ticks w)) (set_progress p d)]>
          (sessions w))
       (with_ticks (S (ticks w)) w)).
Proof.
  intros H p.
  unfold LTAIndexedDB.calculateProgress, LTAIndexedDB.getSessionResponses.
  unfold bind at 1. unfold gets. cbv beta iota.
  erewrite bind_Return by (apply updateSession_run; exact H).
  reflexivity.
Qed.



Lemma router_getNextQuestion_repeatable_witness :
  exists r w1,
    LTARouter.getNextQuestion 3 Sample.catalog
      (Some (Sample.answer "q1" "screening" "B")) Sample.world = Some (r, w1)
    /\ LTARouter.getNextQuestion 3 Sample.catalog
         (Some (Sample.answer "q1" "screening" "B")) w1 = Some (r, w1).
Proof.
  eexists _, _.
  assert (Hfirst : LTARouter.getNextQuestion 3 Sample.catalog
                     (Some (Sample.answer "q1" "screening" "B")) Sample.world
                   = Some (Return (Some Sample.q5),
                           with_responses
                             (<["q1" := Sample.answer "q1" "screening" "B"]>
                                (responses Sample.world)) Sample.world))
    by (vm_compute; reflexivity).
  split; [exact Hfirst |].
  exact (router_getNextQuestion_repeatable _ _ _ _ _ _ Hfirst).
Defined.

(* --------------------------------------------------------------------- *)
(* Progress by section                                                    *)
(* --------------------------------------------------------------------- *)



(* --------------------------------------------------------------------- *)
(* Loading a session                                                      *)
(* --------------------------------------------------------------------- *)

Lemma initialize_run sessionId w d :
  sessions w !! sessionId = Some d ->
  LTARouter.initialize sessionId w
  = (Return d,
     with_responses
       (foldl (fun m response => <[r_questionId response := response]> m)
          (responses w)
          (List.map snd
             (List.filter (fun kv => bool_decide (fst (fst kv) = sessionId))
                (map_to_list (storedResponses w)))))
       (with_currentSession (Some d) w)).
Proof.
  intros H.
  unfold LTARouter.initialize, LTAIndexedDB.getSession,
    LTAIndexedDB.getSessionResponses, bind, gets, modify, ret.
  now rewrite H.
Qed.

Lemma dom_foldl_insert (l : list Response) (init : gmap string Response) :
  dom (foldl (fun m response => <[r_questionId response := response]> m) init l)
  = list_to_set (List.map r_questionId l) ∪ dom init.
Proof.
  revert init. induction l as [| r l IH]; intros init; cbn [foldl List.map].
  - rewrite list_to_set_nil. now rewrite (left_id_L ∅ (∪)).
  - rewrite IH, dom_insert_L, list_to_set_cons.
    rewrite (comm_L (∪) {[r_questionId r]} (list_to_set (List.map r_questionId l))).
    now rewrite (assoc_L (∪)).
Qed.

(** X13: initialize on a router that holds no responses loads exactly the
    stored responses of the session, so the progress the router then
    reports is the value calculateProgress of the store computes for that
    session: the two progress computations agree. *)
Theorem initialize_progress_agrees cfg (sessionId : Z) (w : World) (d : Session) :
  sessions w !! sessionId = Some d ->
  responses w = ∅ ->
  let loaded := LTARouter.initialize sessionId w in
  outcome loaded = Return d
  /\ currentSession (after loaded) = Some d
  /\ outcome (LTAIndexedDB.calculateProgress cfg sessionId w)
     = Return (LTARouter.percentage (LTARouter.getProgress cfg (after loaded))).
Proof.
  intros Hstored Hempty loaded. subst loaded.
  rewrite (initialize_run _ _ _ Hstored).
  unfold outcome, after. cbn [fst snd].
  split; [reflexivity |]. split; [reflexivity |].
  rewrite (calculateProgress_run cfg _ _ _ Hstored). cbn [fst].
  unfold LTARouter.getProgress. cbn [LTARouter.percentage responses with_responses].
  do 2 f_equal.
  rewrite <- size_dom, dom_foldl_insert, Hempty, dom_empty_L.
  now rewrite (right_id_L ∅ (∪)).
Qed.

Lemma initialize_progress_agrees_witness :
  outcome (LTAIndexedDB.calculateProgress Sample.catalog 1
             (with_responses ∅ Sample.world))
  = Return
      (LTARouter.percentage
         (LTARouter.getProgress Sample.catalog
            (after (LTARouter.initialize 1 (with_responses ∅ Sample.world))))).
Proof.
  destruct (initialize_progress_agrees Sample.catalog 1
              (with_responses ∅ Sample.world) Sample.session)
    as (_ & _ & Hagree).
  - vm_compute. reflexivity.
  - reflexivity.
  - exact Hagree.
Defined.

(** X14: initialize never clears the router's response map: after it, the
    answered question ids are those answered before together with those
    of the stored responses of the loaded session.  A router that is
    initialized again for another session therefore still counts the
    answers of the session it held before. *)
Theorem initialize_keeps_responses (sessionId : Z) (w : World) (d : Session) :
  sessions w !! sessionId = Some d ->
  forall questionId,
    is_Some (responses (after (LTARouter.initialize sessionId w)) !! questionId)
    <-> is_Some (responses w !! questionId)
        \/ exists key r,
             storedResponses w !! key = Some r
             /\ fst key = sessionId /\ r_questionId r = questionId.
Proof.
  intros Hstored questionId.
  rewrite (initialize_run _ _ _ Hstored). unfold after. cbn [snd responses with_responses].
  rewrite <- !elem_of_dom, dom_foldl_insert, elem_of_union, elem_of_list_to_set.
  rewrite list_elem_of_In, in_map_iff.
  split.
  - intros [(r & Hid & Hin) | Hold]; [| now left].
    right. apply in_map_iff in Hin as ([key r'] & Hsnd & Hin).
    cbn in Hsnd. subst r'. apply filter_In in Hin as [Hin Hkey].
    apply bool_decide_eq_true in Hkey. cbn in Hkey.
    apply list_elem_of_In, elem_of_map_to_list in Hin.
    exists key, r. auto.
  - intros [Hold | (key & r & Hget & Hkey & Hid)]; [now right |].
    left. exists r. split; [exact Hid |].
    apply in_map_iff. exists (key, r). split; [reflexivity |].
    apply filter_In. split.
    + apply list_elem_of_In, elem_of_map_to_list. exact Hget.
    + apply bool_decide_eq_true. exact Hkey.
Qed.

Lemma initialize_keeps_responses_witness :
  is_Some (responses (after (LTARouter.initialize 1 Sample.world)) !! "q2").
Proof.
  apply (initialize_keeps_responses 1 Sample.world Sample.session).
  - vm_compute. reflexivity.
  - left. vm_compute. eauto.
Defined.

(* ===================================================================== *)
(* Further properties of the stores                                       *)
(* ===================================================================== *)

(** X15: updateSession on an id the session store does not hold throws
    Error('Session not found') and changes nothing, not even the clock
    reading count.  On an id it holds, it returns the stored record with
    the updates applied and lastModified set to the current clock reading,
    getSession then returns exactly that record, and every other session
    is untouched. *)
Theorem updateSession_contract
    (sessionId : Z) (updates : Session -> Session) (w : World) :
  (sessions w !! sessionId = None ->
   LTAIndexedDB.updateSession sessionId updates w
   = (Throw (Error "Session not found"), w))
  /\ (forall d,
        sessions w !! sessionId = Some d ->
        let updated := set_lastModified (clock w (ticks w)) (updates d) in
        let done := LTAIndexedDB.updateSession sessionId updates w in
        outcome done = Return updated
        /\ outcome (LTAIndexedDB.getSession (s_id updated) (after done))
           = Return (Some updated)
        /\ (forall other, other <> s_id updated ->
              sessions (after done) !! other = sessions w !! other)
        /\ storedResponses (after done) = storedResponses w
        /\ analytics (after done) = analytics w).
Proof.
  split; [apply updateSession_missing |].
  intros d Hd updated done. subst done.
  rewrite (updateSession_run _ updates _ _ Hd).
  unfold outcome, after, LTAIndexedDB.getSession, gets. cbn [fst snd].
  split; [reflexivity |]. split.
  - cbn. f_equal. subst updated. cbn. apply lookup_insert_eq.
  - split; [| split; reflexivity].
    intros other Hother. cbn. apply lookup_insert_ne.
    subst updated. cbn in Hother. congruence.
Qed.

Lemma updateSession_contract_witness :
  LTAIndexedDB.updateSession 7 (set_progress (JS.ofZ 40)) Sample.world
  = (Throw (Error "Session not found"), Sample.world)
  /\ outcome
       (LTAIndexedDB.getSession 1
          (after (LTAIndexedDB.updateSession 1 (set_progress (JS.ofZ 40))
                    Sample.world)))
     = Return (Some (set_lastModified 0 (set_progress (JS.ofZ 40) Sample.session))).
Proof.
  destruct (updateSession_contract 7 (set_progress (JS.ofZ 40)) Sample.world)
    as [Hmissing _].
  destruct (updateSession_contract 1 (set_progress (JS.ofZ 40)) Sample.world)
    as [_ Hfound].
  split.
  - apply Hmissing. vm_compute. reflexivity.
  - destruct (Hfound Sample.session) as (_ & Hget & _).
    + vm_compute. reflexivity.
    + exact Hget.
Defined.


(* --- sessions in progress --- *)

Lemma In_session_values (m : gmap Z Session) (d : Session) :
  In d (List.map snd (map_to_list m)) <-> exists k, m !! k = Some d.
Proof.
  rewrite in_map_iff. split.
  - intros ([k d'] & Heq & Hin). cbn in Heq. subst d'.
    exists k. now apply elem_of_map_to_list, list_elem_of_In.
  - intros [k Hk]. exists (k, d). split; [reflexivity |].
    now apply list_elem_of_In, elem_of_map_to_list.
Qed.

(* whether or not the final analytics can be stored, completeSession
   leaves the same session store *)
Lemma completeSession_sessions w s d :
  currentSession w = Some s ->
  sessions w !! s_id s = Some d ->
  s_id d = s_id s ->
  sessions (after (LTARouter.completeSession w))
  = <[s_id s := completedCopy w d]> (sessions w).
Proof.
  intros Hloaded Hstored Hid.
  destruct (LTAIndexedDB.cloneableData
              (FinalAssessment (LTARouter.finalAnalyticsOf w))) eqn:Hsave.
  - now rewrite (completeSession_run w s d Hloaded Hstored Hid Hsave).
  - rewrite (completeSession_fails w s d Hloaded Hstored Hid); [reflexivity |].
    unfold savable. congruence.
Qed.

(** X17: in a session store that files every session under its own id,
    completeSession takes the completed session out of the result of
    getIncompleteSessions and leaves every other session's membership as
    it was. *)
Theorem completeSession_leaves_incomplete
    (w : World) (s d : Session) (before remaining : list Session) :
  currentSession w = Some s ->
  sessions w !! s_id s = Some d ->
  s_id d = s_id s ->
  (forall k d', sessions w !! k = Some d' -> s_id d' = k) ->
  outcome (LTAIndexedDB.getIncompleteSessions w) = Return before ->
  outcome (LTAIndexedDB.getIncompleteSessions
             (after (LTARouter.completeSession w))) = Return remaining ->
  (forall d', In d' remaining -> s_id d' <> s_id s)
  /\ (forall d', s_id d' <> s_id s -> (In d' remaining <-> In d' before)).
Proof.
  intros Hloaded Hstored Hid Hkeys Hbefore Hafter.
  pose proof (completeSession_sessions w s d Hloaded Hstored Hid) as Hsessions.
  unfold LTAIndexedDB.getIncompleteSessions, gets, outcome in *.
  cbn [fst snd] in *. injection Hbefore as <-. injection Hafter as <-.
  rewrite Hsessions.
  assert (Hold : forall k d', k <> s_id s ->
            (<[s_id s := completedCopy w d]> (sessions w) !! k = Some d'
             <-> sessions w !! k = Some d')).
  { intros k d' Hk. now rewrite lookup_insert_ne by congruence. }
  split.
  - intros d' Hin Hsame. apply filter_In in Hin as [Hin Hstatus].
    apply In_session_values in Hin as [k Hk].
    destruct (decide (k = s_id s)) as [-> | Hne].
    + rewrite lookup_insert_eq in Hk. injection Hk as <-. discriminate Hstatus.
    + apply Hold in Hk; [| exact Hne]. apply Hkeys in Hk. congruence.
  - intros d' Hother. rewrite !filter_In, !In_session_values.
    split; intros [[k Hk] Hstatus]; (split; [| exact Hstatus]); exists k.
    + destruct (decide (k = s_id s)) as [-> | Hne].
      * rewrite lookup_insert_eq in Hk. injection Hk as <-.
        cbn in Hother. congruence.
      * now apply Hold in Hk.
    + apply Hold; [| exact Hk]. intros ->. apply Hkeys in Hk. congruence.
Qed.

Lemma completeSession_leaves_incomplete_witness :
  outcome (LTAIndexedDB.getIncompleteSessions Sample.world)
  = Return [Sample.session]
  /\ outcome (LTAIndexedDB.getIncompleteSessions
                (after (LTARouter.completeSession Sample.world)))
     = Return []
  /\ forall d', In d' [] -> s_id d' <> s_id Sample.session.
Proof.
  split; [vm_compute; reflexivity |]. split; [vm_compute; reflexivity |].
  apply (completeSession_leaves_incomplete Sample.world Sample.session
           Sample.session [Sample.session] []).
  - reflexivity.
  - vm_compute. reflexivity.
  - reflexivity.
  - intros k d' Hk. unfold Sample.world in Hk. cbn [sessions] in Hk.
    destruct (decide (k = 1)) as [-> | Hne].
    + rewrite lookup_insert_eq in Hk. now injection Hk as <-.
    + rewrite lookup_insert_ne, lookup_empty in Hk by congruence. discriminate.
  - vm_compute. reflexivity.
  - vm_compute. reflexivity.
Defined.

(** X18: clearSession removes the session record, every stored response
    and every analytics record of the session, and nothing of any other
    session; it does not touch the router, which goes on holding the
    session object and the responses it had loaded. *)
Theorem clearSession_scope (sessionId : Z) (w : World) :
  let cleared := LTAIndexedDB.clearSession sessionId w in
  outcome cleared = Return tt
  /\ sessions (after cleared) !! sessionId = None
  /\ (forall questionId,
        storedResponses (after cleared) !! (sessionId, questionId) = None)
  /\ (forall metricType,
        analytics (after cleared) !! (sessionId, metricType) = None)
  /\ (forall other, other <> sessionId ->
        sessions (after cleared) !! other = sessions w !! other
        /\ (forall questionId,
              storedResponses (after cleared) !! (other, questionId)
              = storedResponses w !! (other, questionId))
        /\ (forall metricType,
              analytics (after cleared) !! (other, metricType)
              = analytics w !! (other, metricType)))
  /\ currentSession (after cleared) = currentSession w
  /\ responses (after cleared) = responses w.
Proof.
  intros cleared. subst cleared.
  unfold LTAIndexedDB.clearSession, modify, outcome, after.
  cbn [fst snd sessions storedResponses analytics currentSession responses
       with_sessions with_analytics with_storedResponses].
  split; [reflexivity |]. split; [apply lookup_delete_eq |].
  split.
  { intros questionId. apply map_lookup_filter_None. right.
    intros x _ Hkeep. now apply Hkeep. }
  split.
  { intros metricType. apply map_lookup_filter_None. right.
    intros x _ Hkeep. now apply Hkeep. }
  split; [| split; reflexivity].
  intros other Hother. split; [now apply lookup_delete_ne |].
  split.
  - intros questionId. apply option_eq. intros x.
    rewrite map_lookup_filter_Some. cbn. intuition congruence.
  - intros metricType. apply option_eq. intros x.
    rewrite map_lookup_filter_Some. cbn. intuition congruence.
Qed.

Lemma clearSession_scope_witness :
  sessions (after (LTAIndexedDB.clearSession 1 Sample.world)) !! 1 = None
  /\ responses (after (LTAIndexedDB.clearSession 1 Sample.world))
     = responses Sample.world.
Proof.
  destruct (clearSession_scope 1 Sample.world) as (_ & Hgone & _ & _ & _ & _ & Hkept).
  split; [exact Hgone | exact Hkept].
Defined.

(* ===================================================================== *)
(* Further properties of the scores                                       *)
(* ===================================================================== *)

Lemma Q_of_nat_nonneg (n : nat) : (0 <= inject_Z (Z.of_nat n))%Q.
Proof. change 0%Q with (inject_Z 0). rewrite <- Zle_Qle. lia. Qed.

Lemma inScale_Num (q : Q) : inScale (JS.Num q) <-> (0 <= q <= inject_Z 10)%Q.
Proof. unfold inScale, JS.ofZ. now rewrite !le_Num. Qed.

Lemma inScale_ofZ (z : Z) : inScale (JS.ofZ z) <-> 0 <= z <= 10.
Proof.
  unfold JS.ofZ. rewrite inScale_Num. change 0%Q with (inject_Z 0).
  now rewrite <- !Zle_Qle.
Qed.

(* Math.min(a, 10) of a number that is not negative is on the scale *)
Lemma inScale_min a :
  JS.le (JS.ofZ 0) a = true -> inScale (JS.Math_min a (JS.ofZ 10)).
Proof.
  intros H0. unfold JS.Math_min.
  destruct (JS.cmp a (JS.ofZ 10)) as [[| |] |] eqn:Hc.
  - split; [exact H0 |]. unfold JS.le. now rewrite Hc.
  - split; [exact H0 |]. unfold JS.le. now rewrite Hc.
  - apply inScale_ofZ. lia.
  - apply le_not_NaN_r in H0. apply cmp_None in Hc as [Hn | Hn];
      [congruence | discriminate].
Qed.

Lemma inScale_max a b : inScale a -> inScale b -> inScale (JS.Math_max a b).
Proof.
  intros Ha Hb. unfold JS.Math_max.
  destruct (JS.cmp a b) as [[| |] |] eqn:Hc; try assumption.
  destruct Ha as [Ha _], Hb as [Hb _].
  apply le_not_NaN_r in Ha, Hb. apply cmp_None in Hc as [Hn | Hn]; congruence.
Qed.

(* the product of two numbers that are not negative is not negative *)
Lemma mul_nonneg (x y : Q) :
  (0 <= x)%Q -> (0 <= y)%Q ->
  JS.le (JS.ofZ 0) (JS.mul (JS.Num x) (JS.Num y)) = true.
Proof.
  intros Hx Hy. cbn [JS.mul].
  change (JS.ofZ 0) with (JS.Num 0). rewrite <- (fromQ_zero 0) by reflexivity.
  apply fromQ_mono. now apply Qmult_le_0_compat.
Qed.

(* so is the sum, which may be infinite *)
Lemma add_nonneg a b :
  JS.le (JS.ofZ 0) a = true -> JS.le (JS.ofZ 0) b = true ->
  JS.le (JS.ofZ 0) (JS.add a b) = true.
Proof.
  destruct a as [x | | |], b as [y | | |]; try discriminate; try reflexivity.
  intros Hx Hy. apply le_Num in Hx, Hy. cbn [JS.add].
  change (JS.ofZ 0) with (JS.Num 0). rewrite <- (fromQ_zero 0) by reflexivity.
  apply fromQ_mono. change (inject_Z 0) with 0%Q in *. lra.
Qed.

Lemma calculateRecallScore_inScale text :
  inScale (LTAAnalyticsEngine.calculateRecallScore text).
Proof.
  unfold LTAAnalyticsEngine.calculateRecallScore.
  destruct text as [t |]; [| apply inScale_ofZ; lia].
  destruct (String.eqb t ""); [apply inScale_ofZ; lia |].
  apply inScale_min. unfold JS.ofNat, JS.ofZ.
  apply mul_nonneg; [apply Q_of_nat_nonneg | discriminate].
Qed.

Lemma anySelection_inScale values :
  inScale (LTAAnalyticsEngine.anySelection values).
Proof.
  unfold LTAAnalyticsEngine.anySelection.
  destruct values as [vs |]; [| apply inScale_ofZ; lia].
  destruct (0 <? List.length vs)%nat; apply inScale_ofZ; lia.
Qed.

(* --- property reads that reach Object.prototype --- *)

Lemma inherited_Some key member :
  JS.inherited key = Some member ->
  In key ("__proto__" :: JS.inheritedMethods)
  /\ JS.ToNumber member = JS.NaN
  /\ (JS.cloneable member = false <-> key <> "__proto__").
Proof.
  unfold JS.inherited.
  destruct (String.eqb_spec key "__proto__") as [-> | Hne].
  - intros [= <-]. split; [now left |]. split; [reflexivity |].
    split; [discriminate | congruence].
  - destruct (existsb (String.eqb key) JS.inheritedMethods) eqn:Hin;
      [| discriminate].
    intros [= <-]. split; [| split; [reflexivity | tauto]].
    right. apply existsb_exists in Hin as (name & Hname & Heq).
    apply String.eqb_eq in Heq. now subst.
Qed.

Lemma inherited_not_Number key member :
  JS.inherited key = Some member -> forall n, member <> JS.Number n.
Proof.
  unfold JS.inherited. destruct (String.eqb key "__proto__").
  - intros [= <-]. discriminate.
  - destruct (existsb (String.eqb key) JS.inheritedMethods); [| discriminate].
    intros [= <-]. discriminate.
Qed.

(* a table none of whose own keys is an inherited name: the inherited
   names read the member, the other keys a number of the table or 0 *)
Lemma lookupOrZero_cases (table : list (string * JS.number)) (key : string) :
  (forall name, In name ("__proto__" :: JS.inheritedMethods) ->
     List.find (fun entry => String.eqb (fst entry) name) table = None) ->
  (forall member, JS.inherited key = Some member ->
     JS.lookupOrZero table key = member)
  /\ (JS.inherited key = None ->
      JS.lookupOrZero table key = JS.Number (JS.ofZ 0)
      \/ exists n, In (key, n) table /\ JS.lookupOrZero table key = JS.Number n).
Proof.
  intros Hown. unfold JS.lookupOrZero. split.
  - intros member Hkey.
    destruct (inherited_Some key member Hkey) as [Hin _].
    now rewrite (Hown key Hin), Hkey.
  - intros Hkey. rewrite Hkey.
    destruct (List.find _ table) as [[name n] |] eqn:Hfind; [| now left].
    apply find_some in Hfind as [Hin Heq]. cbn [fst] in Heq.
    apply String.eqb_eq in Heq. subst name.
    destruct (JS.cmp n (JS.ofZ 0)) as [[| |] |]; eauto.
Qed.

Lemma interestMapping_own name :
  In name ("__proto__" :: JS.inheritedMethods) ->
  List.find (fun entry => String.eqb (fst entry) name)
    LTAAnalyticsEngine.interestMapping = None.
Proof.
  intros Hin. cbn in Hin.
  repeat (destruct Hin as [<- | Hin]; [reflexivity |]). contradiction.
Qed.

Lemma awarenessScores_own name :
  In name ("__proto__" :: JS.inheritedMethods) ->
  List.find (fun entry => String.eqb (fst entry) name) LTARouter.awarenessScores
  = None.
Proof.
  intros Hin. cbn in Hin.
  repeat (destruct Hin as [<- | Hin]; [reflexivity |]). contradiction.
Qed.

Lemma mapInterestToScore_cases value :
  (forall member, JS.inherited (Str.interpolate value) = Some member ->
     LTAAnalyticsEngine.mapInterestToScore value = member)
  /\ (JS.inherited (Str.interpolate value) = None ->
      scoreInScale (LTAAnalyticsEngine.mapInterestToScore value)).
Proof.
  unfold LTAAnalyticsEngine.mapInterestToScore.
  destruct (lookupOrZero_cases LTAAnalyticsEngine.interestMapping
              (Str.interpolate value) interestMapping_own) as [Hmember Hnumber].
  split; [exact Hmember |].
  intros Hkey. destruct (Hnumber Hkey) as [-> | (n & Hin & ->)].
  - eexists. split; [reflexivity |]. apply inScale_ofZ. lia.
  - exists n. split; [reflexivity |]. cbn in Hin.
    repeat (destruct Hin as [[= _ <-] | Hin];
            [first [ apply inScale_ofZ; lia
                   | apply inScale_Num; split; discriminate ] |]).
    contradiction.
Qed.

(* (n / 10) * 10 for the integers of the NPS scale, and beyond it *)
Lemma npsStageScore (n : Z) :
  let score := JS.mul (JS.div (JS.ofZ n) (JS.ofZ 10)) (JS.ofZ 10) in
  (0 <= n <= 10 -> score = JS.ofZ n)
  /\ (n < 0 -> JS.lt score (JS.ofZ 0) = true)
  /\ (10 < n -> JS.lt (JS.ofZ 10) score = true).
Proof.
  cbn zeta. unfold JS.div, JS.ofZ, JS.sgn.
  assert (H10 : (inject_Z 10 ?= 0)%Q = Gt) by reflexivity. rewrite H10.
  split; [| split].
  - intros Hn.
    assert (Hcases : In n (List.map Z.of_nat (seq 0 11))).
    { replace n with (Z.of_nat (Z.to_nat n)) by lia. apply in_map, in_seq. lia. }
    cbn in Hcases.
    repeat (destruct Hcases as [<- | Hcases]; [vm_compute; reflexivity |]).
    contradiction.
  - intros Hn.
    assert (Hq : (inject_Z n / inject_Z 10 <= - (1 # 10))%Q).
    { apply Qle_shift_div_r; [reflexivity |].
      assert (Hn' : (inject_Z n <= inject_Z (-1))%Q)
        by (apply inject_Z_le_iff; lia).
      change (inject_Z (-1)) with (- 1)%Q in Hn'.
      change (inject_Z 10) with 10%Q. lra. }
    pose proof (fromQ_mono _ _ Hq) as Hd.
    assert (Htenth : JS.fromQ (- (1 # 10))
                     = JS.Num (- (3602879701896397 # 36028797018963968)))
      by (vm_compute; reflexivity).
    rewrite Htenth in Hd.
    destruct (JS.fromQ (inject_Z n / inject_Z 10)) as [d | | |];
      try discriminate; [| reflexivity].
    apply le_Num in Hd. cbn [JS.mul].
    assert (Hp : (d * inject_Z 10 <= - 1)%Q)
      by (change (inject_Z 10) with 10%Q; lra).
    pose proof (fromQ_mono _ _ Hp) as Hm.
    assert (Hone : JS.fromQ (- 1) = JS.Num (- 1)) by (vm_compute; reflexivity).
    rewrite Hone in Hm.
    destruct (JS.fromQ (d * inject_Z 10)) as [m | | |];
      try discriminate; [| reflexivity].
    apply le_Num in Hm. apply lt_Num. change (inject_Z 0) with 0%Q. lra.
  - intros Hn.
    assert (Hq : (11 # 10 <= inject_Z n / inject_Z 10)%Q).
    { apply Qle_shift_div_l; [reflexivity |].
      assert (Hn' : (inject_Z 11 <= inject_Z n)%Q)
        by (apply inject_Z_le_iff; lia).
      change (inject_Z 11) with 11%Q in Hn'.
      change (inject_Z 10) with 10%Q. lra. }
    pose proof (fromQ_mono _ _ Hq) as Hd.
    assert (Htenth : JS.fromQ (11 # 10)
                     = JS.Num (2476979795053773 # 2251799813685248))
      by (vm_compute; reflexivity).
    rewrite Htenth in Hd.
    destruct (JS.fromQ (inject_Z n / inject_Z 10)) as [d | | |];
      try discriminate; [| reflexivity].
    apply le_Num in Hd. cbn [JS.mul].
    assert (Hp : (11 <= d * inject_Z 10)%Q)
      by (change (inject_Z 10) with 10%Q; lra).
    pose proof (fromQ_mono _ _ Hp) as Hm.
    assert (Hone : JS.fromQ 11 = JS.Num 11) by (vm_compute; reflexivity).
    rewrite Hone in Hm.
    destruct (JS.fromQ (d * inject_Z 10)) as [m | | |];
      try discriminate; [| reflexivity].
    apply le_Num in Hm. apply lt_Num. change (inject_Z 10) with 10%Q. lra.
Qed.

Lemma stageScore_scale_cases (r : Response) :
  (r_questionId r <> "q20" -> r_questionId r <> "q54" ->
   scoreInScale (LTAAnalyticsEngine.calculateStageScore r))
  /\ (r_questionId r = "q20" ->
      (JS.inherited (Str.interpolate (r_value r)) = None ->
       scoreInScale (LTAAnalyticsEngine.calculateStageScore r))
      /\ (forall member,
            JS.inherited (Str.interpolate (r_value r)) = Some member ->
            LTAAnalyticsEngine.calculateStageScore r = member
            /\ JS.ToNumber (LTAAnalyticsEngine.calculateStageScore r) = JS.NaN))
  /\ (r_questionId r = "q54" ->
      (forall n, Str.parseInt (r_value r) = JS.ofZ n ->
         (0 <= n <= 10 ->
          LTAAnalyticsEngine.calculateStageScore r = JS.Number (JS.ofZ n))
         /\ (scoreInScale (LTAAnalyticsEngine.calculateStageScore r)
             <-> 0 <= n <= 10))
      /\ (Str.parseInt (r_value r) = JS.NaN ->
          LTAAnalyticsEngine.calculateStageScore r = JS.Number JS.NaN)).
Proof.
  unfold LTAAnalyticsEngine.calculateStageScore. split; [| split].
  - intros Hne20 Hne54.
    destruct (String.eqb (r_questionId r) "q8").
    { eexists. split; [reflexivity | apply calculateRecallScore_inScale]. }
    destruct (String.eqb_spec (r_questionId r) "q20"); [contradiction |].
    destruct (String.eqb (r_questionId r) "q31").
    { eexists. split; [reflexivity | apply anySelection_inScale]. }
    destruct (String.eqb (r_questionId r) "q43").
    { eexists. split; [reflexivity | apply anySelection_inScale]. }
    destruct (String.eqb_spec (r_questionId r) "q54"); [contradiction |].
    eexists. split; [reflexivity | apply inScale_ofZ; lia].
  - intros ->. cbn [String.eqb Ascii.eqb Bool.eqb].
    destruct (mapInterestToScore_cases (r_value r)) as [Hmember Hnumber].
    split; [exact Hnumber |].
    intros member Hkey. rewrite (Hmember member Hkey).
    split; [reflexivity |]. now destruct (inherited_Some _ _ Hkey) as (_ & -> & _).
  - intros ->. cbn [String.eqb Ascii.eqb Bool.eqb]. split.
    + intros n ->. destruct (npsStageScore n) as (Hin & Hneg & Hbig).
      split; [intros Hn; exact (f_equal JS.Number (Hin Hn)) |]. split.
      * intros (score & [= <-] & Hlo & Hhi).
        destruct (Z_lt_le_dec n 0) as [Hn | Hn0].
        { apply Hneg in Hn. apply le_not_lt in Hlo.
          discriminate (eq_trans (eq_sym Hn) Hlo). }
        destruct (Z_lt_le_dec 10 n) as [Hn | Hn10]; [| lia].
        apply Hbig in Hn. apply le_not_lt in Hhi.
        discriminate (eq_trans (eq_sym Hn) Hhi).
      * intros Hn. exists (JS.ofZ n).
        split; [exact (f_equal JS.Number (Hin Hn)) | now apply inScale_ofZ].
    + intros ->. reflexivity.
Qed.

(** X19: calculateStageScore of a response to a question other than q20
    and q54 is a number in [0,10].  For q20 it is a number in [0,10]
    unless the answer names a member every object inherits
    ("constructor", "toString", "__proto__", ...): mapping[value] || 0 is
    then that function or object, which Math.max reads as NaN.
    For q54 an answer that parseInt reads as the integer n scores
    (n / 10) * 10 in binary64 arithmetic, which is n for 0 <= n <= 10 and
    leaves [0,10] for every other n, and an answer parseInt cannot read
    scores NaN. *)
Theorem calculateStageScore_scale (r : Response) :
  (r_questionId r <> "q20" -> r_questionId r <> "q54" ->
   scoreInScale (LTAAnalyticsEngine.calculateStageScore r))
  /\ (r_questionId r = "q20" ->
      (JS.inherited (Str.interpolate (r_value r)) = None ->
       scoreInScale (LTAAnalyticsEngine.calculateStageScore r))
      /\ (forall member,
            JS.inherited (Str.interpolate (r_value r)) = Some member ->
            LTAAnalyticsEngine.calculateStageScore r = member
            /\ JS.ToNumber (LTAAnalyticsEngine.calculateStageScore r) = JS.NaN))
  /\ (r_questionId r = "q54" ->
      (forall n, Str.parseInt (r_value r) = JS.ofZ n ->
         (0 <= n <= 10 ->
          LTAAnalyticsEngine.calculateStageScore r = JS.Number (JS.ofZ n))
         /\ (scoreInScale (LTAAnalyticsEngine.calculateStageScore r)
             <-> 0 <= n <= 10))
      /\ (Str.parseInt (r_value r) = JS.NaN ->
          LTAAnalyticsEngine.calculateStageScore r = JS.Number JS.NaN)).
Proof. apply stageScore_scale_cases. Qed.

Lemma calculateStageScore_scale_witness :
  scoreInScale (LTAAnalyticsEngine.calculateStageScore
                  (Sample.answer "q8" "awareness" "we saw the big five there"))
  /\ LTAAnalyticsEngine.calculateStageScore
       (Sample.answer "q20" "interest" "constructor")
     = JS.Function "constructor"
  /\ LTAAnalyticsEngine.calculateStageScore (Sample.answer "q54" "advocacy" "7")
     = JS.Number (JS.ofZ 7)
  /\ LTAAnalyticsEngine.calculateStageScore
       (Sample.answer "q54" "advocacy" "n/a") = JS.Number JS.NaN.
Proof.
  split; [| split; [| split]].
  - destruct (calculateStageScore_scale
                (Sample.answer "q8" "awareness" "we saw the big five there"))
      as (Hother & _). apply Hother; intros Hid; cbn in Hid; discriminate Hid.
  - destruct (calculateStageScore_scale
                (Sample.answer "q20" "interest" "constructor"))
      as (_ & Hq20 & _). destruct (Hq20 eq_refl) as [_ Hmember].
    apply (Hmember (JS.Function "constructor")). reflexivity.
  - destruct (calculateStageScore_scale (Sample.answer "q54" "advocacy" "7"))
      as (_ & _ & Hq54). destruct (Hq54 eq_refl) as [Hn _].
    apply (Hn 7); [reflexivity | lia].
  - destruct (calculateStageScore_scale (Sample.answer "q54" "advocacy" "n/a"))
      as (_ & _ & Hq54). destruct (Hq54 eq_refl) as [_ Hnan].
    apply Hnan. reflexivity.
Defined.

(* a response whose score is a number on the scale keeps the stage on it *)
Lemma updateFunnelMetrics_inScale (r : Response) entry :
  (forall s, inScale (stageScore (LTAAnalyticsEngine.funnelOf entry) s)) ->
  scoreInScale (LTAAnalyticsEngine.calculateStageScore r) ->
  forall s,
    inScale
      (stageScore
         (LTAAnalyticsEngine.funnelOf
            (LTAAnalyticsEngine.updateFunnelMetrics r entry)) s).
Proof.
  intros Hentry (score & Hscore & Hin) s. rewrite updateFunnelMetrics_stage.
  destruct (decide _); [| apply Hentry].
  apply inScale_max; [apply Hentry |]. now rewrite Hscore.
Qed.

(** X20: the funnel scores stay on the scale.  Starting from a funnel
    entry whose five scores lie in [0,10] (or from no entry), after any
    sequence of responses in which every answer to q54 is read by parseInt
    as an integer between 0 and 10 and no answer to q20 names a member
    every object inherits, every stage score lies in [0,10].  An answer to
    q20 that names such a member ("constructor", "__proto__", ...) makes
    the score of the stage of that response NaN. *)
Theorem funnel_scores_stay_in_scale
    (rs : list Response) (entry : option FunnelMetrics) :
  ((forall s, inScale (stageScore (LTAAnalyticsEngine.funnelOf entry) s)) ->
   (forall r, In r rs -> r_questionId r = "q54" ->
      exists n, Str.parseInt (r_value r) = JS.ofZ n /\ 0 <= n <= 10) ->
   (forall r, In r rs -> r_questionId r = "q20" ->
      JS.inherited (Str.interpolate (r_value r)) = None) ->
   forall s,
     inScale
       (stageScore
          (LTAAnalyticsEngine.funnelOf (LTAAnalyticsEngine.processed rs entry))
          s))
  /\ (forall r s member,
        In r rs -> r_questionId r = "q20" ->
        LTAAnalyticsEngine.determineFunnelStage r = Some s ->
        JS.inherited (Str.interpolate (r_value r)) = Some member ->
        stageScore
          (LTAAnalyticsEngine.funnelOf (LTAAnalyticsEngine.processed rs entry)) s
        = JS.NaN).
Proof.
  split.
  - unfold LTAAnalyticsEngine.processed. revert entry.
    induction rs as [| r rs IH]; intros entry Hentry Hq54 Hq20 s;
      cbn [fold_left]; [apply Hentry |].
    apply IH.
    + apply updateFunnelMetrics_inScale; [exact Hentry |].
      destruct (stageScore_scale_cases r) as (Hother & Hinterest & Hnps).
      destruct (String.eqb_spec (r_questionId r) "q20") as [Heq20 | Hne20].
      { apply (Hinterest Heq20). apply Hq20; [now left | exact Heq20]. }
      destruct (String.eqb_spec (r_questionId r) "q54") as [Heq54 | Hne54];
        [| now apply Hother].
      destruct (Hq54 r (or_introl eq_refl) Heq54) as (n & Hparse & Hn).
      destruct (Hnps Heq54) as [Hint _]. now apply (Hint n Hparse).
    + intros r' Hin. apply Hq54. now right.
    + intros r' Hin. apply Hq20. now right.
  - intros r s member Hin Hid Hstage Hkey. apply isNaN_true.
    apply (processed_poisoned rs entry r s Hin Hstage).
    destruct (stageScore_scale_cases r) as (_ & Hinterest & _).
    destruct (Hinterest Hid) as [_ Hmember].
    destruct (Hmember member Hkey) as [_ ->]. reflexivity.
Qed.

Lemma funnel_scores_stay_in_scale_witness :
  inScale
    (stageScore
       (LTAAnalyticsEngine.funnelOf
          (LTAAnalyticsEngine.processed
             [Sample.answer "q54" "advocacy" "9";
              Sample.answer "q55" "advocacy" "yes"] None))
       Advocacy)
  /\ stageScore
       (LTAAnalyticsEngine.funnelOf
          (LTAAnalyticsEngine.processed
             [Sample.answer "q20" "interest" "Extremely";
              Sample.answer "q20" "interest" "constructor";
              Sample.answer "q20" "interest" "Extremely"] None))
       Interest
     = JS.NaN.
Proof.
  destruct (funnel_scores_stay_in_scale
              [Sample.answer "q54" "advocacy" "9";
               Sample.answer "q55" "advocacy" "yes"] None) as [Hscale _].
  destruct (funnel_scores_stay_in_scale
              [Sample.answer "q20" "interest" "Extremely";
               Sample.answer "q20" "interest" "constructor";
               Sample.answer "q20" "interest" "Extremely"] None) as [_ Hnan].
  split.
  - apply Hscale.
    + intros s. destruct s; apply inScale_ofZ; lia.
    + intros r [<- | [<- | []]] Hq54.
      * exists 9. split; [vm_compute; reflexivity | lia].
      * discriminate Hq54.
    + intros r [<- | [<- | []]] Hq20; discriminate Hq20.
  - apply (Hnan (Sample.answer "q20" "interest" "constructor") Interest
             (JS.Function "constructor")); [cbn; tauto | reflexivity..].
Defined.

(* --- the scores of the final assessment --- *)

(** X21: analyzeOpenEndedResponse always yields a number in [0,10]: 0 for
    a missing or empty text, and otherwise the word and concept count
    capped at 10. *)
Theorem analyzeOpenEndedResponse_scale (text : option string) :
  inScale (LTARouter.analyzeOpenEndedResponse text)
  /\ (truthy text = false ->
      LTARouter.analyzeOpenEndedResponse text = JS.ofZ 0).
Proof.
  unfold LTARouter.analyzeOpenEndedResponse. split.
  - destruct text as [t |]; [| apply inScale_ofZ; lia].
    destruct (String.eqb t ""); [apply inScale_ofZ; lia |].
    apply inScale_min.
    assert (Htenth : JS.fromQ (1 # 10)
                     = JS.Num (3602879701896397 # 36028797018963968))
      by (vm_compute; reflexivity).
    rewrite Htenth. unfold JS.ofNat, JS.ofZ.
    apply add_nonneg;
      (apply mul_nonneg; [apply Q_of_nat_nonneg | discriminate]).
  - destruct text as [t |]; [| reflexivity]. cbn [truthy].
    now destruct (String.eqb t "").
Qed.

Lemma awarenessLevel_cases value :
  (forall member, JS.inherited value = Some member ->
     LTARouter.awarenessLevel value = member)
  /\ (JS.inherited value = None ->
      exists k, LTARouter.awarenessLevel value = JS.Number (JS.ofZ k)
                /\ 0 <= k <= 4).
Proof.
  unfold LTARouter.awarenessLevel.
  destruct (lookupOrZero_cases LTARouter.awarenessScores value
              awarenessScores_own) as [Hmember Hnumber].
  split; [exact Hmember |].
  intros Hkey. destruct (Hnumber Hkey) as [-> | (n & Hin & ->)].
  - exists 0. split; [reflexivity | lia].
  - cbn in Hin.
    repeat (destruct Hin as [[= _ <-] | Hin];
            [eexists; split; [reflexivity | lia] |]).
    contradiction.
Qed.

(* the sum of the levels of cells none of which names an inherited member
   is exact *)
Lemma matrix_total_number (rows : list (string * string)) (acc : Z) :
  0 <= acc ->
  acc + 4 * Z.of_nat (List.length rows) <= 2 ^ 53 ->
  (forall row, In row rows -> JS.inherited (snd row) = None) ->
  exists t,
    fold_left (fun sum row => JS.plus sum (LTARouter.awarenessLevel (snd row)))
      rows (JS.Number (JS.ofZ acc)) = JS.Number (JS.ofZ t)
    /\ acc <= t <= acc + 4 * Z.of_nat (List.length rows).
Proof.
  revert acc. induction rows as [| row rows IH]; intros acc Hacc Hsize Hcells;
    cbn [fold_left].
  - exists acc. split; [reflexivity |]. cbn [List.length]. lia.
  - cbn [List.length] in Hsize. rewrite Nat2Z.inj_succ in Hsize.
    destruct (awarenessLevel_cases (snd row)) as [_ Hnumber].
    destruct (Hnumber (Hcells row (or_introl eq_refl))) as (k & -> & Hk).
    cbn [JS.plus JS.add JS.ofZ].
    rewrite (fromQ_integer (inject_Z acc + inject_Z k) (acc + k))
      by (rewrite ?inject_Z_plus; (reflexivity || lia)).
    destruct (IH (acc + k)) as (t & Hfold & Ht); [lia | lia | |].
    { intros row' Hin. apply Hcells. now right. }
    exists t. split; [exact Hfold |]. cbn [List.length].
    rewrite Nat2Z.inj_succ. lia.
Qed.

(* once a cell names an inherited member the sum is a string *)
Lemma matrix_total_text (rows : list (string * string)) :
  fold_left (fun sum row => JS.plus sum (LTARouter.awarenessLevel (snd row)))
    rows JS.Text = JS.Text.
Proof. induction rows as [| row rows IH]; [reflexivity | exact IH]. Qed.

Lemma matrix_total_inherited (rows : list (string * string)) (start : JS.value) :
  (exists row, In row rows /\ is_Some (JS.inherited (snd row))) ->
  JS.ToNumber
    (fold_left (fun sum row => JS.plus sum (LTARouter.awarenessLevel (snd row)))
       rows start) = JS.NaN.
Proof.
  revert start. induction rows as [| row rows IH]; intros start (bad & Hin & Hbad).
  - contradiction.
  - cbn [fold_left]. destruct Hin as [<- | Hin].
    + destruct Hbad as [member Hkey].
      destruct (awarenessLevel_cases (snd row)) as [Hmember _].
      rewrite (Hmember member Hkey).
      pose proof (inherited_not_Number _ _ Hkey) as Hmem.
      assert (Htext : JS.plus start member = JS.Text)
        by (destruct start, member; try reflexivity; now destruct (Hmem n0)).
      rewrite Htext, matrix_total_text. reflexivity.
    + apply IH. eauto.
Qed.

(** X22: calculateMatrixScore yields 0 when the response has no matrix and
    NaN when the matrix is an empty object (0 / 0).  For a matrix with at
    least one row (and at most 2^32), none of whose cells names a member
    every object inherits, it yields a number in [0,10]; a cell that
    names such a member ("constructor", "__proto__", ...) turns the sum
    into a string and the score into NaN. *)
Theorem calculateMatrixScore_scale (matrixData : option (list (string * string))) :
  (matrixData = None -> LTARouter.calculateMatrixScore matrixData = JS.ofZ 0)
  /\ (matrixData = Some [] -> LTARouter.calculateMatrixScore matrixData = JS.NaN)
  /\ (forall row rows,
        matrixData = Some (row :: rows) ->
        Z.of_nat (List.length (row :: rows)) <= 2 ^ 32 ->
        (forall cell, In cell (row :: rows) -> JS.inherited (snd cell) = None) ->
        inScale (LTARouter.calculateMatrixScore matrixData))
  /\ (forall rows cell,
        matrixData = Some rows -> In cell rows ->
        is_Some (JS.inherited (snd cell)) ->
        LTARouter.calculateMatrixScore matrixData = JS.NaN).
Proof.
  split; [now intros -> |]. split; [now intros -> |]. split.
  - intros row rows -> Hsize Hcells. unfold LTARouter.calculateMatrixScore.
    set (n := Z.of_nat (List.length (row :: rows))) in *.
    assert (Hn : 0 < n) by (unfold n; cbn [List.length]; lia).
    destruct (matrix_total_number (row :: rows) 0) as (t & -> & Ht);
      [lia | fold n; lia | exact Hcells |].
    fold n in Ht. cbn [JS.ToNumber]. unfold JS.ofNat. fold n.
    assert (Hden : JS.mul (JS.ofZ n) (JS.ofZ 4) = JS.ofZ (n * 4)).
    { unfold JS.ofZ at 1 2. cbn [JS.mul]. apply fromQ_integer;
        [now rewrite inject_Z_mult | lia]. }
    rewrite Hden. unfold JS.div, JS.ofZ, JS.sgn.
    assert (Hpos : (0 < inject_Z (n * 4))%Q).
    { change 0%Q with (inject_Z 0). apply inject_Z_lt_iff. lia. }
    rewrite (proj1 (Qgt_alt _ _) Hpos).
    assert (Ht0 : (0 <= inject_Z t)%Q).
    { change 0%Q with (inject_Z 0). apply inject_Z_le_iff. lia. }
    assert (Htn : (inject_Z t <= inject_Z (n * 4))%Q)
      by (apply inject_Z_le_iff; lia).
    destruct (fromQ_between (inject_Z t / inject_Z (n * 4)) 0 1)
      as (d1 & -> & Hd1); [| lia | lia |].
    { split.
      - apply Qle_shift_div_l; [exact Hpos |]. change (inject_Z 0) with 0%Q. lra.
      - apply Qle_shift_div_r; [exact Hpos |]. change (inject_Z 1) with 1%Q. lra. }
    change (inject_Z 0) with 0%Q in Hd1. change (inject_Z 1) with 1%Q in Hd1.
    cbn [JS.mul].
    destruct (fromQ_between (d1 * inject_Z 10) 0 10) as (d2 & -> & Hd2);
      [| lia | lia |].
    { change (inject_Z 0) with 0%Q. change (inject_Z 10) with 10%Q. nra. }
    apply inScale_Num. change (inject_Z 0) with 0%Q in Hd2. exact Hd2.
  - intros rows cell -> Hin Hbad. unfold LTARouter.calculateMatrixScore.
    rewrite matrix_total_inherited by eauto. reflexivity.
Qed.

Lemma calculateMatrixScore_scale_witness :
  LTARouter.calculateMatrixScore (Some []) = JS.NaN
  /\ inScale
       (LTARouter.calculateMatrixScore
          (Some [("Radio", "Very aware"); ("Print", "Vaguely aware")]))
  /\ LTARouter.calculateMatrixScore
       (Some [("Radio", "Very aware"); ("Print", "constructor")])
     = JS.NaN.
Proof.
  destruct (calculateMatrixScore_scale (Some [])) as (_ & Hempty & _).
  destruct (calculateMatrixScore_scale
              (Some [("Radio", "Very aware"); ("Print", "Vaguely aware")]))
    as (_ & _ & Hrows & _).
  destruct (calculateMatrixScore_scale
              (Some [("Radio", "Very aware"); ("Print", "constructor")]))
    as (_ & _ & _ & Hbad).
  split; [now apply Hempty |]. split.
  - eapply Hrows; [reflexivity | vm_compute; discriminate |].
    intros cell [<- | [<- | []]]; reflexivity.
  - apply (Hbad [("Radio", "Very aware"); ("Print", "constructor")]
             ("Print", "constructor")); [reflexivity | cbn; tauto |].
    vm_compute. eauto.
Defined.

(* ===================================================================== *)
(* Further properties of the real-time metrics                            *)
(* ===================================================================== *)

Lemma calculateSectionCompletion_run
    cfg (sessionId : Z) (section : string) (w : World) :
  let sectionQuestions :=
    List.filter (fun q => String.eqb (q_section q) section) (questions cfg) in
  exists rate,
    LTAAnalyticsEngine.calculateSectionCompletion cfg sessionId section w
    = (Return rate, w)
    /\ (sectionQuestions <> [] -> isRate rate)
    /\ (sectionQuestions = [] -> rate = JS.NaN).
Proof.
  intros sectionQuestions.
  unfold LTAAnalyticsEngine.calculateSectionCompletion,
    LTAIndexedDB.getSessionResponses, bind, gets, ret.
  fold sectionQuestions.
  set (stored := List.map snd _).
  set (answered :=
         List.length
           (List.filter
              (fun q => existsb (fun r => String.eqb (r_questionId r) (q_id q)) stored)
              sectionQuestions)).
  exists (JS.mul (JS.div (JS.ofNat answered)
                    (JS.ofNat (List.length sectionQuestions))) (JS.ofZ 100)).
  split; [reflexivity |].
  assert (Hle : (answered <= List.length sectionQuestions)%nat)
    by apply filter_length_le.
  split.
  - intros Hne.
    assert (Hpos : (0 < List.length sectionQuestions)%nat)
      by (destruct sectionQuestions; [congruence | cbn; lia]).
    destruct (rate_range answered _ Hpos Hle) as (d & -> & Hd).
    unfold isRate, JS.ofZ. now rewrite !le_Num.
  - intros Hnil. subst answered. rewrite Hnil. reflexivity.
Qed.

(** X23: calculateSectionCompletion reads the store and changes nothing.
    For a section with at least one question its result is a number in
    [0,100], whatever the response store holds (responses to questions
    outside the section or outside the catalog are not counted); for a
    section without questions it is NaN. *)
Theorem calculateSectionCompletion_rate
    cfg (sessionId : Z) (section : string) (w : World) :
  let sectionQuestions :=
    List.filter (fun q => String.eqb (q_section q) section) (questions cfg) in
  exists rate,
    LTAAnalyticsEngine.calculateSectionCompletion cfg sessionId section w
    = (Return rate, w)
    /\ (sectionQuestions <> [] -> isRate rate)
    /\ (sectionQuestions = [] -> rate = JS.NaN).
Proof. apply calculateSectionCompletion_run. Qed.

Lemma calculateSectionCompletion_rate_witness :
  exists rate,
    LTAAnalyticsEngine.calculateSectionCompletion Sample.catalog 1 "awareness"
      Sample.world = (Return rate, Sample.world)
    /\ isRate rate.
Proof.
  destruct (calculateSectionCompletion_rate Sample.catalog 1 "awareness"
              Sample.world) as (rate & Hrun & Hrate & _).
  exists rate. split; [exact Hrun |]. apply Hrate. discriminate.
Defined.

(* slice(-5) of a list that has just been pushed to: at most four of the
   earlier elements stay in front of the new one *)
Lemma lastFive_pushed (l : list Insight) (i : Insight) :
  LTAAnalyticsEngine.lastFive (l ++ [i])
  = skipn (List.length l - 4) l ++ [i].
Proof.
  unfold LTAAnalyticsEngine.lastFive. rewrite skipn_app, length_app.
  cbn [List.length].
  replace (List.length l + 1 - 5)%nat with (List.length l - 4)%nat by lia.
  replace (List.length l - 4 - List.length l)%nat with 0%nat by lia.
  reflexivity.
Qed.

Lemma length_positive (s : string) : (0 < Str.length s)%nat -> s <> "".
Proof. intros Hlen ->. cbn in Hlen. lia. Qed.

(** X24: updateSectionMetrics.  A response without a section changes
    nothing.  For a response that carries a section the call never throws
    and writes only the entry of that section: the entry counts one more
    response, keeps its average score and takes as completion rate the
    result of calculateSectionCompletion for the section.  Its keyInsights
    are decided by the response alone.  An answer to q8 of more than 50
    UTF-16 code units adds a strong_recall insight and an answer
    "Extremely" to q20 a high_interest insight, each stamped with the
    clock, which is read once: the new list is the last four (or fewer)
    of the earlier insights followed by the new one, so it has at most
    five elements.  Every other response leaves the list as it was and
    does not read the clock. *)
Theorem updateSectionMetrics_entry
    cfg (sessionId : Z) (r : Response) (entries : gmap string SectionMetrics)
    (w : World) :
  let updated :=
    LTAAnalyticsEngine.updateSectionMetrics cfg sessionId r entries w in
  (truthy (r_section r) = false -> updated = (Return entries, w))
  /\ (forall section,
        r_section r = Some section -> truthy (r_section r) = true ->
        let key := LTAAnalyticsEngine.sectionKey section in
        let old :=
          default LTAAnalyticsEngine.emptySectionMetrics (entries !! key) in
        let recall :=
          r_questionId r = "q8"
          /\ exists text, r_value r = Some text /\ (50 < Str.length text)%nat in
        let interest := r_questionId r = "q20" /\ r_value r = Some "Extremely" in
        let pushed (i : Insight) :=
          skipn (List.length (sm_keyInsights old) - 4) (sm_keyInsights old)
          ++ [i] in
        let entry (keyInsights : list Insight) (rate : JS.number) :=
          <[key := mkSectionMetrics (S (sm_responses old)) (sm_averageScore old)
                     rate keyInsights]> entries in
        exists rate,
          LTAAnalyticsEngine.calculateSectionCompletion cfg sessionId section w
          = (Return rate, w)
          /\ (recall ->
              updated
              = (Return
                   (entry
                      (pushed (mkInsight "strong_recall"
                                 "Strong unaided recall demonstrated" "q8"
                                 (clock w (ticks w)))) rate),
                 with_ticks (S (ticks w)) w))
          /\ (interest ->
              updated
              = (Return
                   (entry
                      (pushed (mkInsight "high_interest"
                                 "Extremely high interest generated" "q20"
                                 (clock w (ticks w)))) rate),
                 with_ticks (S (ticks w)) w))
          /\ (~ recall -> ~ interest ->
              updated = (Return (entry (sm_keyInsights old) rate), w))
          /\ (forall i, (List.length (pushed i) <= 5)%nat)).
Proof.
  intros updated. subst updated.
  unfold LTAAnalyticsEngine.updateSectionMetrics. split.
  - intros ->. reflexivity.
  - intros section Hsection Htruthy. rewrite Htruthy, Hsection.
    cbn [default].
    destruct (calculateSectionCompletion_run cfg sessionId section w)
      as (rate & Hrate & _).
    exists rate. split; [exact Hrate |].
    erewrite bind_Return by exact Hrate.
    unfold LTAAnalyticsEngine.extractInsight.
    split; [| split; [| split]].
    + intros (Hid & text & Hvalue & Hlen). rewrite Hid, Hvalue.
      cbn [String.eqb Ascii.eqb Bool.eqb truthy from_option id andb].
      assert (Hne : String.eqb text "" = false).
      { apply String.eqb_neq, length_positive. lia. }
      rewrite Hne. apply Nat.ltb_lt in Hlen. rewrite Hlen.
      cbn [negb andb]. unfold bind, newDate, ret.
      now rewrite lastFive_pushed.
    + intros [Hid Hvalue]. rewrite Hid, Hvalue.
      cbn [String.eqb Ascii.eqb Bool.eqb andb].
      rewrite bool_decide_eq_true_2 by reflexivity.
      unfold bind, newDate, ret. now rewrite lastFive_pushed.
    + intros Hrecall Hinterest.
      destruct (String.eqb (r_questionId r) "q8" && truthy (r_value r)
                && (50 <? Str.length (default "" (r_value r)))%nat) eqn:Hq8.
      { exfalso. apply Hrecall.
        apply andb_true_iff in Hq8 as [Hq8 Hlen].
        apply andb_true_iff in Hq8 as [Hid Hvalue].
        apply String.eqb_eq in Hid. apply Nat.ltb_lt in Hlen.
        split; [exact Hid |]. destruct (r_value r) as [text |];
          [| discriminate]. eauto. }
      destruct (String.eqb (r_questionId r) "q20"
                && bool_decide (r_value r = Some "Extremely")) eqn:Hq20.
      { exfalso. apply Hinterest.
        apply andb_true_iff in Hq20 as [Hid Hvalue].
        apply String.eqb_eq in Hid. apply bool_decide_eq_true in Hvalue.
        now split. }
      reflexivity.
    + intros i. rewrite length_app, length_skipn.
      cbn [List.length]. lia.
Qed.

(* a sixth insight for the interest section evicts the oldest of five; an
   answer to q8 of 52 letters is an insight, one of 30 accented letters
   (60 bytes, 30 code units) is none *)
Lemma updateSectionMetrics_entry_witness :
  sm_keyInsights
    <$> (match outcome (LTAAnalyticsEngine.updateSectionMetrics Sample.catalog 1
                          (Sample.answer "q20" "interest" "Extremely")
                          Sample.fullInsights Sample.world) with
         | Return entries => entries !! "section_interest"
         | Throw _ => None
         end)
  = Some [mkInsight "high_interest" "second" "q20" 2;
          mkInsight "high_interest" "third" "q20" 3;
          mkInsight "high_interest" "fourth" "q20" 4;
          mkInsight "high_interest" "fifth" "q20" 5;
          mkInsight "high_interest" "Extremely high interest generated" "q20" 0]
  /\ sm_keyInsights
       <$> (match outcome
                    (LTAAnalyticsEngine.updateSectionMetrics Sample.catalog 1
                       (Sample.answer "q8" "awareness"
                          "abcdefghijklmnopqrstuvwxyzabcdefghijklmnopqrstuvwxyz")
                       ∅ Sample.world) with
            | Return entries => entries !! "section_awareness"
            | Throw _ => None
            end)
     = Some [mkInsight "strong_recall" "Strong unaided recall demonstrated"
               "q8" 0]
  /\ sm_keyInsights
       <$> (match outcome
                    (LTAAnalyticsEngine.updateSectionMetrics Sample.catalog 1
                       (Sample.answer "q8" "awareness"
                          "éééééééééééééééééééééééééééééé")
                       ∅ Sample.world) with
            | Return entries => entries !! "section_awareness"
            | Throw _ => None
            end)
     = Some [].
Proof.
  destruct (updateSectionMetrics_entry Sample.catalog 1
              (Sample.answer "q20" "interest" "Extremely")
              Sample.fullInsights Sample.world) as [_ Hinterest].
  destruct (Hinterest "interest" eq_refl eq_refl)
    as (rate1 & _ & _ & Hq20 & _).
  destruct (updateSectionMetrics_entry Sample.catalog 1
              (Sample.answer "q8" "awareness"
                 "abcdefghijklmnopqrstuvwxyzabcdefghijklmnopqrstuvwxyz")
              ∅ Sample.world) as [_ Hrecall].
  destruct (Hrecall "awareness" eq_refl eq_refl) as (rate2 & _ & Hq8 & _).
  destruct (updateSectionMetrics_entry Sample.catalog 1
              (Sample.answer "q8" "awareness"
                 "éééééééééééééééééééééééééééééé")
              ∅ Sample.world) as [_ Hshort].
  destruct (Hshort "awareness" eq_refl eq_refl)
    as (rate3 & _ & _ & _ & Hnone & _).
  split; [| split].
  - rewrite Hq20 by (split; reflexivity).
    cbn [outcome fst]. rewrite lookup_insert. reflexivity.
  - rewrite Hq8 by (split; [reflexivity |]; eexists; split;
                    [reflexivity | vm_compute; lia]).
    cbn [outcome fst]. rewrite lookup_insert. reflexivity.
  - rewrite Hnone.
    + cbn [outcome fst]. rewrite lookup_insert. reflexivity.
    + intros (_ & text & [= <-] & Hlen). vm_compute in Hlen. lia.
    + intros [Hid _]. discriminate Hid.
Defined.

(** X25: updateStakeholderInsights throws a TypeError when the session
    store has no record of the session, and changes nothing while the
    stored session has no stakeholder type.  Once the type is known, each
    call appends one pattern for the response to responsePatterns of that
    type's entry: the earlier patterns all stay (the list is never cut),
    and no other entry is written. *)
Theorem updateStakeholderInsights_appends
    (sessionId : Z) (r : Response) (entries : gmap string StakeholderMetrics)
    (w : World) :
  let updated :=
    LTAAnalyticsEngine.updateStakeholderInsights sessionId r entries w in
  (sessions w !! sessionId = None ->
   updated = (Throw (TypeError "session is undefined"), w))
  /\ (forall d,
        sessions w !! sessionId = Some d -> truthy (s_stakeholderType d) = false ->
        updated = (Return entries, w))
  /\ (forall d stakeholderType,
        sessions w !! sessionId = Some d ->
        s_stakeholderType d = Some stakeholderType ->
        truthy (s_stakeholderType d) = true ->
        let key := LTAAnalyticsEngine.stakeholderKey stakeholderType in
        let old :=
          default LTAAnalyticsEngine.emptyStakeholderMetrics (entries !! key) in
        outcome updated
        = Return
            (<[key :=
                 mkStakeholderMetrics
                   (responsePatterns old
                    ++ [mkPattern (r_questionId r) stakeholderType (r_value r)
                          "Pattern detected" (clock w (ticks w))])
                   (specificConcerns old) (recommendations old)]>
               entries)).
Proof.
  intros updated. subst updated.
  unfold LTAAnalyticsEngine.updateStakeholderInsights,
    LTAAnalyticsEngine.analyzeStakeholderPattern, LTAIndexedDB.getSession,
    bind, gets, newDate, ret, throw, outcome.
  split; [now intros -> |]. split.
  - intros d -> ->. reflexivity.
  - intros d stakeholderType -> Htype Htruthy. cbn zeta.
    rewrite Htruthy, Htype. reflexivity.
Qed.

Lemma updateStakeholderInsights_appends_witness :
  responsePatterns
    <$> (match outcome (LTAAnalyticsEngine.updateStakeholderInsights 1
                          (Sample.answer "q3" "awareness" "radio") ∅
                          Sample.retailerWorld) with
         | Return entries => entries !! "stakeholder_retailer"
         | Throw _ => None
         end)
  = Some [mkPattern "q3" "retailer" (Some "radio") "Pattern detected" 0]
  /\ LTAAnalyticsEngine.updateStakeholderInsights 1
       (Sample.answer "q3" "awareness" "radio") ∅ Sample.world
     = (Return ∅, Sample.world).
Proof.
  destruct (updateStakeholderInsights_appends 1
              (Sample.answer "q3" "awareness" "radio") ∅ Sample.retailerWorld)
    as (_ & _ & Hknown).
  destruct (updateStakeholderInsights_appends 1
              (Sample.answer "q3" "awareness" "radio") ∅ Sample.world)
    as (_ & Hunknown & _).
  split.
  - rewrite (Hknown (set_stakeholderType (Some "retailer") Sample.session)
               "retailer");
      [| vm_compute; reflexivity | reflexivity | reflexivity].
    cbv zeta. vm_compute. reflexivity.
  - apply (Hunknown Sample.session); [vm_compute; reflexivity | reflexivity].
Defined.

(* --------------------------------------------------------------------- *)
(* The executive summary: key strength and primary opportunity            *)
(* --------------------------------------------------------------------- *)

Lemma le_antisym a b :
  JS.le a b = true -> JS.le b a = true -> JS.cmp a b = Some Eq.
Proof.
  unfold JS.le. destruct (JS.cmp a b) as [c |] eqn:Hc; [| discriminate].
  rewrite (cmp_antisym _ _ _ Hc). destruct c; cbn; congruence.
Qed.

Lemma lt_le a b : JS.lt a b = true -> JS.le a b = true.
Proof. unfold JS.lt, JS.le. now destruct (JS.cmp a b) as [[| |] |]. Qed.

Lemma not_lt_le a b :
  JS.isNaN a = false -> JS.isNaN b = false ->
  JS.lt b a = false -> JS.le a b = true.
Proof.
  intros Ha Hb. unfold JS.lt, JS.le.
  destruct (JS.cmp b a) as [c |] eqn:Hc.
  - rewrite (cmp_antisym _ _ _ Hc). now destruct c.
  - destruct (cmp_None _ _ Hc); congruence.
Qed.

Lemma cmp_Eq_not_lt a b : JS.cmp a b = Some Eq -> JS.lt a b = false.
Proof. unfold JS.lt. now intros ->. Qed.

Lemma orZero_number n :
  JS.isNaN (LTAAnalyticsEngine.orZero (Some (JS.Number n))) = false.
Proof.
  destruct n as [q | | |]; try reflexivity.
  unfold LTAAnalyticsEngine.orZero, JS.cmp, JS.ofZ.
  now destruct (q ?= inject_Z 0)%Q.
Qed.

(* a function or an object is kept by `|| 0` and compares as NaN *)
Lemma orZero_member v :
  (forall n, v <> JS.Number n) -> LTAAnalyticsEngine.orZero (Some v) = JS.NaN.
Proof. intros Hv. destruct v; try reflexivity. now destruct (Hv n). Qed.

Section Reduce.

Variable prefer : JS.number -> JS.number -> bool.
(* [atLeast x y]: y is as good a choice as x *)
Variable atLeast : JS.number -> JS.number -> bool.

Hypothesis atLeast_refl : forall a, JS.isNaN a = false -> atLeast a a = true.
Hypothesis atLeast_trans :
  forall a b c, atLeast a b = true -> atLeast b c = true -> atLeast a c = true.
Hypothesis prefer_kept : forall a b, prefer a b = true -> atLeast b a = true.
Hypothesis prefer_replaced :
  forall a b, JS.isNaN a = false -> JS.isNaN b = false ->
              prefer a b = false -> atLeast a b = true.

(* the reduce keeps an entry that is as good as every entry seen *)
Lemma fold_best (rest : list (string * JS.number)) :
  forall (first : string * JS.number) (seen : list (string * JS.number)),
    In first seen ->
    (forall x, In x seen -> atLeast (snd x) (snd first) = true) ->
    JS.isNaN (snd first) = false ->
    (forall x, In x rest -> JS.isNaN (snd x) = false) ->
    let kept :=
      fold_left (fun a b => if prefer (snd a) (snd b) then a else b) rest first in
    In kept (seen ++ rest)
    /\ forall x, In x (seen ++ rest) -> atLeast (snd x) (snd kept) = true.
Proof.
  induction rest as [| b rest IH]; intros first seen Hin Hbest Hfirst Hrest;
    cbn zeta; cbn [fold_left].
  - rewrite app_nil_r. split; assumption.
  - assert (Hb : JS.isNaN (snd b) = false) by (apply Hrest; now left).
    assert (Hrest' : forall x, In x rest -> JS.isNaN (snd x) = false)
      by (intros x Hx; apply Hrest; now right).
    replace (seen ++ b :: rest) with ((seen ++ [b]) ++ rest)
      by (now rewrite <- app_assoc).
    destruct (prefer (snd first) (snd b)) eqn:Hp.
    + apply IH; [apply in_or_app; now left | | assumption | assumption].
      intros x Hx. apply in_app_or in Hx. destruct Hx as [Hx | [<- | []]].
      * now apply Hbest.
      * now apply prefer_kept.
    + apply IH; [apply in_or_app; right; now left | | assumption | assumption].
      intros x Hx. apply in_app_or in Hx. destruct Hx as [Hx | [<- | []]].
      * eapply atLeast_trans; [now apply Hbest |]. now apply prefer_replaced.
      * now apply atLeast_refl.
Qed.

Lemma reduceKeys_best (scores : list (string * JS.number)) :
  scores <> [] ->
  (forall x, In x scores -> JS.isNaN (snd x) = false) ->
  exists kept,
    LTAAnalyticsEngine.reduceKeys prefer scores = Some kept
    /\ In kept scores
    /\ forall x, In x scores -> atLeast (snd x) (snd kept) = true.
Proof.
  destruct scores as [| first rest]; [congruence |]. intros _ Hnum.
  eexists. split; [reflexivity |].
  apply (fold_best rest first [first]).
  - now left.
  - intros x [<- | []]. apply atLeast_refl. apply Hnum. now left.
  - apply Hnum. now left.
  - intros x Hx. apply Hnum. now right.
Qed.

End Reduce.

Lemma reduceKeys_greatest scores :
  scores <> [] ->
  (forall x, In x scores -> JS.isNaN (snd x) = false) ->
  exists kept,
    LTAAnalyticsEngine.reduceKeys JS.gt scores = Some kept
    /\ In kept scores
    /\ forall x, In x scores -> JS.le (snd x) (snd kept) = true.
Proof.
  apply (reduceKeys_best JS.gt JS.le).
  - apply le_refl.
  - apply le_trans.
  - intros a b. unfold JS.gt. apply lt_le.
  - intros a b Ha Hb. unfold JS.gt. now apply not_lt_le.
Qed.

Lemma reduceKeys_least scores :
  scores <> [] ->
  (forall x, In x scores -> JS.isNaN (snd x) = false) ->
  exists kept,
    LTAAnalyticsEngine.reduceKeys JS.lt scores = Some kept
    /\ In kept scores
    /\ forall x, In x scores -> JS.le (snd kept) (snd x) = true.
Proof.
  apply (reduceKeys_best JS.lt (fun x y => JS.le y x)).
  - apply le_refl.
  - intros a b c Hab Hbc. now apply (le_trans c b a).
  - intros a b. apply lt_le.
  - intros a b Ha Hb. now apply not_lt_le.
Qed.

Lemma scoresOf_numbers record x :
  numericInterest record ->
  In x (LTAAnalyticsEngine.scoresOf record) -> JS.isNaN (snd x) = false.
Proof.
  unfold numericInterest, LTAAnalyticsEngine.scoresOf. intros Hnum.
  destruct (LTAAnalyticsEngine.dataOf (Some record)) as [d |].
  - destruct (Hnum d eq_refl) as [n Hn]. cbn [option_map]. rewrite Hn.
    intros [<- | [<- | [<- | []]]]; apply orZero_number.
  - intros [<- | [<- | [<- | []]]]; reflexivity.
Qed.

Lemma primaryStrength_greatest record :
  numericInterest record ->
  exists best,
    In (LTAAnalyticsEngine.identifyPrimaryStrength (Some record), best)
       (LTAAnalyticsEngine.scoresOf record)
    /\ forall x, In x (LTAAnalyticsEngine.scoresOf record) ->
                 JS.le (snd x) best = true.
Proof.
  intros Hnum.
  destruct (reduceKeys_greatest (LTAAnalyticsEngine.scoresOf record))
    as ([key best] & Hkept & Hin & Hbest);
    [discriminate | intros x; now apply scoresOf_numbers |].
  exists best. unfold LTAAnalyticsEngine.identifyPrimaryStrength.
  rewrite Hkept. split; assumption.
Qed.

Lemma primaryOpportunity_least record :
  numericInterest record ->
  exists least,
    In (LTAAnalyticsEngine.identifyPrimaryOpportunity (Some record), least)
       (LTAAnalyticsEngine.scoresOf record)
    /\ forall x, In x (LTAAnalyticsEngine.scoresOf record) ->
                 JS.le least (snd x) = true.
Proof.
  intros Hnum.
  destruct (reduceKeys_least (LTAAnalyticsEngine.scoresOf record))
    as ([key least] & Hkept & Hin & Hleast);
    [discriminate | intros x; now apply scoresOf_numbers |].
  exists least. unfold LTAAnalyticsEngine.identifyPrimaryOpportunity.
  rewrite Hkept. split; assumption.
Qed.

Lemma lt_NaN_r a : JS.lt a JS.NaN = false.
Proof. now destruct a. Qed.

(* an interest score that is no number loses every comparison, and so
   does the score that is compared with it: both reduces end at the last
   key *)
Lemma primary_of_member record d :
  LTAAnalyticsEngine.dataOf (Some record) = Some d ->
  (forall n, interestScore (engagement d) <> JS.Number n) ->
  LTAAnalyticsEngine.identifyPrimaryStrength (Some record) = "conversion"
  /\ LTAAnalyticsEngine.identifyPrimaryOpportunity (Some record) = "conversion".
Proof.
  intros Hdata Hmember.
  unfold LTAAnalyticsEngine.identifyPrimaryStrength,
    LTAAnalyticsEngine.identifyPrimaryOpportunity,
    LTAAnalyticsEngine.scoresOf, LTAAnalyticsEngine.reduceKeys.
  rewrite Hdata. cbn [option_map]. rewrite (orZero_member _ Hmember).
  cbn [fold_left snd]. unfold JS.gt.
  repeat (rewrite ?lt_NaN_l, ?lt_NaN_r; cbn [snd]).
  split; reflexivity.
Qed.

(* a key of scores has one score *)
Lemma scoresOf_functional record key s1 s2 :
  In (key, s1) (LTAAnalyticsEngine.scoresOf record) ->
  In (key, s2) (LTAAnalyticsEngine.scoresOf record) -> s1 = s2.
Proof.
  unfold LTAAnalyticsEngine.scoresOf.
  intros [H1 | [H1 | [H1 | []]]] [H2 | [H2 | [H2 | []]]];
    injection H1 as Hk1 <-; injection H2 as Hk2 <-;
    try reflexivity; rewrite <- Hk2 in Hk1; discriminate.
Qed.

(* with three equal scores both reduces end at the last key *)
Lemma primary_of_equal_scores record :
  (forall x y,
     In x (LTAAnalyticsEngine.scoresOf record) ->
     In y (LTAAnalyticsEngine.scoresOf record) ->
     JS.cmp (snd x) (snd y) = Some Eq) ->
  LTAAnalyticsEngine.identifyPrimaryStrength (Some record) = "conversion"
  /\ LTAAnalyticsEngine.identifyPrimaryOpportunity (Some record) = "conversion".
Proof.
  unfold LTAAnalyticsEngine.identifyPrimaryStrength,
    LTAAnalyticsEngine.identifyPrimaryOpportunity,
    LTAAnalyticsEngine.scoresOf, LTAAnalyticsEngine.reduceKeys.
  set (a := LTAAnalyticsEngine.orZero _).
  set (e := LTAAnalyticsEngine.orZero _).
  set (c := LTAAnalyticsEngine.orZero _).
  intros Hequal.
  assert (Hea : JS.cmp e a = Some Eq)
    by (apply (Hequal ("engagement", e) ("awareness", a)); cbn; tauto).
  assert (Hae : JS.cmp a e = Some Eq)
    by (apply (Hequal ("awareness", a) ("engagement", e)); cbn; tauto).
  assert (Hce : JS.cmp c e = Some Eq)
    by (apply (Hequal ("conversion", c) ("engagement", e)); cbn; tauto).
  assert (Hec : JS.cmp e c = Some Eq)
    by (apply (Hequal ("engagement", e) ("conversion", c)); cbn; tauto).
  cbn [fold_left snd]. unfold JS.gt.
  rewrite (cmp_Eq_not_lt _ _ Hea), (cmp_Eq_not_lt _ _ Hae).
  cbn [snd]. rewrite (cmp_Eq_not_lt _ _ Hce), (cmp_Eq_not_lt _ _ Hec).
  split; reflexivity.
Qed.

(** X26: for a stored record whose interest score is a number (or that
    carries no final analytics data) the key identifyPrimaryStrength
    returns is a key of the scores object whose score is at least every
    score of the object, and the key identifyPrimaryOpportunity returns is
    one whose score is at most every score: `|| 0` has replaced undefined
    and NaN, so the comparisons of the reduce are never between
    incomparable values.  An interest score that is no number (the object
    a q20 answer "__proto__" reads from the score table) is kept by `|| 0`
    and loses every comparison: both functions then return "conversion",
    whatever the other two scores are. *)
Theorem primary_strength_and_opportunity (record : AnalyticsRecord) :
  let scores := LTAAnalyticsEngine.scoresOf record in
  (numericInterest record ->
   (exists best,
      In (LTAAnalyticsEngine.identifyPrimaryStrength (Some record), best) scores
      /\ forall key score, In (key, score) scores -> JS.le score best = true)
   /\ (exists least,
         In (LTAAnalyticsEngine.identifyPrimaryOpportunity (Some record), least)
            scores
         /\ forall key score, In (key, score) scores ->
                              JS.le least score = true))
  /\ (forall d,
        LTAAnalyticsEngine.dataOf (Some record) = Some d ->
        (forall n, interestScore (engagement d) <> JS.Number n) ->
        LTAAnalyticsEngine.identifyPrimaryStrength (Some record) = "conversion"
        /\ LTAAnalyticsEngine.identifyPrimaryOpportunity (Some record)
           = "conversion").
Proof.
  cbn zeta. split; [intros Hnum; split |].
  - destruct (primaryStrength_greatest record Hnum) as (best & Hin & Hbest).
    exists best. split; [exact Hin |].
    intros key score Hx. apply (Hbest (key, score) Hx).
  - destruct (primaryOpportunity_least record Hnum) as (least & Hin & Hleast).
    exists least. split; [exact Hin |].
    intros key score Hx. apply (Hleast (key, score) Hx).
  - apply primary_of_member.
Qed.

(* the final analytics of the sample session (no answer to q8, q20 or
   q54), and those of a session with recall score 10 whose answer to q20
   is "__proto__": "conversion", with score 0, is returned as the
   strength *)
Lemma primary_strength_and_opportunity_witness :
  (exists best,
     In (LTAAnalyticsEngine.identifyPrimaryStrength
           (Some (finalRecord Sample.world Sample.session)), best)
        (LTAAnalyticsEngine.scoresOf (finalRecord Sample.world Sample.session))
     /\ forall key score,
          In (key, score)
             (LTAAnalyticsEngine.scoresOf
                (finalRecord Sample.world Sample.session)) ->
          JS.le score best = true)
  /\ LTAAnalyticsEngine.scoresOf
       (finalRecord Sample.protoInterest Sample.session)
     = [("awareness", JS.ofZ 10); ("engagement", JS.NaN);
        ("conversion", JS.ofZ 0)]
  /\ LTAAnalyticsEngine.identifyPrimaryStrength
       (Some (finalRecord Sample.protoInterest Sample.session))
     = "conversion".
Proof.
  destruct (primary_strength_and_opportunity
              (finalRecord Sample.world Sample.session)) as [Hnumeric _].
  destruct (primary_strength_and_opportunity
              (finalRecord Sample.protoInterest Sample.session))
    as [_ Hmember].
  split; [| split].
  - apply Hnumeric. intros d [= <-]. eexists. reflexivity.
  - vm_compute. reflexivity.
  - apply (Hmember (LTARouter.finalAnalyticsOf Sample.protoInterest) eq_refl).
    intros n Hn. vm_compute in Hn. discriminate Hn.
Defined.

(** X27: the executive summary and ties.  When the three scores are equal
    the key strength and the primary opportunity are the same key, and
    whenever they are the same key that key is "conversion", the last key
    of the scores object (both reduces keep the later key on a tie).  For
    a record whose interest score is a number the converse holds too: the
    two keys are the same exactly when the three scores are equal.  They
    are also the same, with the scores not equal, when the interest score
    is no number.  A record that carries no final analytics data has
    three scores 0. *)
Theorem strength_is_opportunity_when_tied (record : AnalyticsRecord) :
  let scores := LTAAnalyticsEngine.scoresOf record in
  let strength := LTAAnalyticsEngine.identifyPrimaryStrength (Some record) in
  let opportunity :=
    LTAAnalyticsEngine.identifyPrimaryOpportunity (Some record) in
  let tied :=
    forall x y, In x scores -> In y scores ->
                JS.cmp (snd x) (snd y) = Some Eq in
  (tied -> strength = opportunity)
  /\ (numericInterest record -> strength = opportunity -> tied)
  /\ (strength = opportunity -> strength = "conversion")
  /\ (LTAAnalyticsEngine.dataOf (Some record) = None ->
      strength = "conversion" /\ opportunity = "conversion")
  /\ (forall d,
        LTAAnalyticsEngine.dataOf (Some record) = Some d ->
        (forall n, interestScore (engagement d) <> JS.Number n) ->
        strength = opportunity /\ ~ tied).
Proof.
  cbn zeta.
  assert (Htied :
    numericInterest record ->
    LTAAnalyticsEngine.identifyPrimaryStrength (Some record)
    = LTAAnalyticsEngine.identifyPrimaryOpportunity (Some record) ->
    forall x y,
      In x (LTAAnalyticsEngine.scoresOf record) ->
      In y (LTAAnalyticsEngine.scoresOf record) ->
      JS.cmp (snd x) (snd y) = Some Eq).
  { intros Hnum Hsame x y Hx Hy.
    destruct (primaryStrength_greatest record Hnum) as (best & Hin & Hbest).
    destruct (primaryOpportunity_least record Hnum) as (least & Hin' & Hleast).
    rewrite <- Hsame in Hin'.
    rewrite <- (scoresOf_functional _ _ _ _ Hin Hin') in Hleast.
    apply le_antisym.
    - eapply le_trans; [apply (Hbest x Hx) | apply (Hleast y Hy)].
    - eapply le_trans; [apply (Hbest y Hy) | apply (Hleast x Hx)]. }
  split; [| split; [exact Htied | split; [| split]]].
  - intros Hequal. destruct (primary_of_equal_scores record Hequal) as [-> ->].
    reflexivity.
  - intros Hsame.
    destruct (LTAAnalyticsEngine.dataOf (Some record)) as [d |] eqn:Hdata.
    + destruct (interestScore (engagement d)) as [n | name | |] eqn:Hscore.
      * apply primary_of_equal_scores, Htied; [| exact Hsame].
        intros d' Hd'. rewrite Hdata in Hd'. injection Hd' as <-. eauto.
      * apply (primary_of_member record d Hdata).
        intros n. rewrite Hscore. discriminate.
      * apply (primary_of_member record d Hdata).
        intros n. rewrite Hscore. discriminate.
      * apply (primary_of_member record d Hdata).
        intros n. rewrite Hscore. discriminate.
    + apply primary_of_equal_scores, Htied; [| exact Hsame].
      intros d' Hd'. rewrite Hdata in Hd'. discriminate Hd'.
  - intros Hdata. apply primary_of_equal_scores.
    unfold LTAAnalyticsEngine.scoresOf. rewrite Hdata. cbn.
    intros x y [<- | [<- | [<- | []]]] [<- | [<- | [<- | []]]]; reflexivity.
  - intros d Hdata Hmember.
    destruct (primary_of_member record d Hdata Hmember) as [-> ->].
    split; [reflexivity |]. intros Htie.
    set (e := ("engagement",
               LTAAnalyticsEngine.orZero
                 (option_map (fun d => interestScore (engagement d))
                    (LTAAnalyticsEngine.dataOf (Some record))))).
    assert (Hin : In e (LTAAnalyticsEngine.scoresOf record))
      by (right; left; reflexivity).
    specialize (Htie e e Hin Hin). subst e. cbn [snd] in Htie.
    rewrite Hdata in Htie. cbn [option_map] in Htie.
    rewrite (orZero_member _ Hmember) in Htie. discriminate Htie.
Qed.

(* the final analytics of the sample session: no answer to q8, q20 or
   q54, so the three scores are all 0 *)
Lemma strength_is_opportunity_when_tied_witness :
  LTAAnalyticsEngine.identifyPrimaryStrength
    (Some (finalRecord Sample.world Sample.session))
  = LTAAnalyticsEngine.identifyPrimaryOpportunity
      (Some (finalRecord Sample.world Sample.session))
  /\ LTAAnalyticsEngine.identifyPrimaryStrength
       (Some (finalRecord Sample.world Sample.session))
     = "conversion"
  /\ forall x y,
       In x (LTAAnalyticsEngine.scoresOf
               (finalRecord Sample.world Sample.session)) ->
       In y (LTAAnalyticsEngine.scoresOf
               (finalRecord Sample.world Sample.session)) ->
       JS.cmp (snd x) (snd y) = Some Eq.
Proof.
  destruct (strength_is_opportunity_when_tied
              (finalRecord Sample.world Sample.session))
    as (_ & Htied & Hkey & _).
  assert (Hsame :
    LTAAnalyticsEngine.identifyPrimaryStrength
      (Some (finalRecord Sample.world Sample.session))
    = LTAAnalyticsEngine.identifyPrimaryOpportunity
        (Some (finalRecord Sample.world Sample.session)))
    by (vm_compute; reflexivity).
  split; [exact Hsame |]. split; [exact (Hkey Hsame) |].
  apply Htied; [| exact Hsame]. intros d [= <-]. eexists. reflexivity.
Defined.

(* --------------------------------------------------------------------- *)
(* Recommendations of the final report                                    *)
(* --------------------------------------------------------------------- *)

Lemma not_le_lt a b :
  JS.isNaN a = false -> JS.isNaN b = false ->
  JS.le a b = false -> JS.lt b a = true.
Proof.
  intros Ha Hb. unfold JS.lt, JS.le.
  destruct (JS.cmp a b) as [c |] eqn:Hc.
  - rewrite (cmp_antisym _ _ _ Hc). now destruct c.
  - destruct (cmp_None _ _ Hc); congruence.
Qed.

(* the Advocacy recommendation is emitted exactly by the third test *)
Lemma advocacy_iff_below (fa : option AnalyticsRecord) :
  In LTAAnalyticsEngine.advocacyRecommendation
    (LTAAnalyticsEngine.generateRecommendations fa)
  <-> LTAAnalyticsEngine.below
        (option_map (fun d => JS.Number (npsScore (conversion d)))
           (LTAAnalyticsEngine.dataOf fa)) 7 = true.
Proof.
  unfold LTAAnalyticsEngine.generateRecommendations. cbn zeta.
  destruct (LTAAnalyticsEngine.below
              (option_map
                 (fun d => JS.Number (unaidedRecallScore (awareness d))) _) 5);
    destruct (LTAAnalyticsEngine.below
                (option_map (fun d => interestScore (engagement d)) _) 5);
    destruct (LTAAnalyticsEngine.below
                (option_map (fun d => JS.Number (npsScore (conversion d))) _) 7);
    cbn; split; intros H; try tauto; try discriminate;
    repeat (destruct H as [H | H]; try discriminate H); try contradiction.
Qed.

(* the category of a score that is a number *)
Lemma calculateNPSCategory_detractor (n : JS.number) :
  (JS.lt n (JS.ofZ 7) = true -> LTARouter.calculateNPSCategory n = "detractor")
  /\ (JS.isNaN n = false -> LTARouter.calculateNPSCategory n = "detractor" ->
      JS.lt n (JS.ofZ 7) = true)
  /\ (JS.isNaN n = true -> LTARouter.calculateNPSCategory n = "detractor").
Proof.
  unfold LTARouter.calculateNPSCategory, JS.ge. split; [| split].
  - intros Hlt.
    assert (H7 : JS.le (JS.ofZ 7) n = false).
    { destruct (JS.le (JS.ofZ 7) n) eqn:Hle; [| reflexivity].
      apply le_not_lt in Hle. congruence. }
    assert (H9 : JS.le (JS.ofZ 9) n = false).
    { destruct (JS.le (JS.ofZ 9) n) eqn:Hle; [| reflexivity].
      assert (Hle' : JS.le (JS.ofZ 7) n = true)
        by (eapply le_trans; [| exact Hle]; reflexivity).
      congruence. }
    now rewrite H9, H7.
  - intros Hnum.
    destruct (JS.le (JS.ofZ 9) n); [discriminate |].
    destruct (JS.le (JS.ofZ 7) n) eqn:H7; [discriminate |].
    intros _. now apply not_le_lt.
  - intros Hnan. apply isNaN_true in Hnan. now subst n.
Qed.

(** X28: generateRecommendations never returns an empty list.  Its result
    is either the single 'General' recommendation or a selection of the
    'Awareness', 'Engagement' and 'Advocacy' recommendations in this order,
    each at most once; 'General' never accompanies another
    recommendation, and it is the result whenever the record is absent or
    carries no final analytics data. *)
Theorem generateRecommendations_shape (fa : option AnalyticsRecord) :
  let recs := LTAAnalyticsEngine.generateRecommendations fa in
  recs <> []
  /\ (recs = [LTAAnalyticsEngine.generalRecommendation]
      \/ sublist recs
           [LTAAnalyticsEngine.awarenessRecommendation;
            LTAAnalyticsEngine.engagementRecommendation;
            LTAAnalyticsEngine.advocacyRecommendation])
  /\ (In LTAAnalyticsEngine.generalRecommendation recs ->
      recs = [LTAAnalyticsEngine.generalRecommendation])
  /\ (LTAAnalyticsEngine.dataOf fa = None ->
      recs = [LTAAnalyticsEngine.generalRecommendation]).
Proof.
  cbn zeta. unfold LTAAnalyticsEngine.generateRecommendations. cbn zeta.
  split; [| split; [| split]].
  - destruct (LTAAnalyticsEngine.below _ 5);
      destruct (LTAAnalyticsEngine.below _ 5);
      destruct (LTAAnalyticsEngine.below _ 7); cbn; discriminate.
  - destruct (LTAAnalyticsEngine.below _ 5);
      destruct (LTAAnalyticsEngine.below _ 5);
      destruct (LTAAnalyticsEngine.below _ 7); cbn;
      first [ left; reflexivity
            | right;
              repeat first [ apply sublist_nil | apply sublist_skip
                           | apply sublist_cons ] ].
  - destruct (LTAAnalyticsEngine.below _ 5);
      destruct (LTAAnalyticsEngine.below _ 5);
      destruct (LTAAnalyticsEngine.below _ 7); cbn; intros H;
      try reflexivity;
      repeat (destruct H as [H | H]; try discriminate H); contradiction.
  - intros ->. reflexivity.
Qed.

(** X29: in the final analytics router.js computes from the response map,
    the NPS category and the 'Advocacy' recommendation of the report agree
    as long as the NPS score is a number: the recommendation is emitted
    exactly when the category is 'detractor'.  They disagree when the
    answer to q54 cannot be read by parseInt: the score is then NaN, the
    category is 'detractor', and no 'Advocacy' recommendation is
    emitted. *)
Theorem nps_category_and_advocacy (w : World) (record : AnalyticsRecord) :
  a_data record = FinalAssessment (LTARouter.finalAnalyticsOf w) ->
  let c := LTARouter.calculateConversionMetrics w in
  let recs := LTAAnalyticsEngine.generateRecommendations (Some record) in
  (In LTAAnalyticsEngine.advocacyRecommendation recs ->
   npsCategory c = "detractor")
  /\ (JS.isNaN (npsScore c) = false -> npsCategory c = "detractor" ->
      In LTAAnalyticsEngine.advocacyRecommendation recs)
  /\ (JS.isNaN (npsScore c) = true ->
      npsCategory c = "detractor"
      /\ ~ In LTAAnalyticsEngine.advocacyRecommendation recs)
  /\ (JS.isNaN (npsScore c) = true
      <-> exists r, responses w !! "q54" = Some r
                    /\ Str.parseInt (r_value r) = JS.NaN).
Proof.
  intros Hdata. cbn zeta.
  assert (Hrec :
    In LTAAnalyticsEngine.advocacyRecommendation
      (LTAAnalyticsEngine.generateRecommendations (Some record))
    <-> JS.lt (npsScore (LTARouter.calculateConversionMetrics w)) (JS.ofZ 7)
        = true).
  { rewrite advocacy_iff_below. cbn [LTAAnalyticsEngine.dataOf].
    rewrite Hdata. reflexivity. }
  assert (Hcat :
    npsCategory (LTARouter.calculateConversionMetrics w)
    = LTARouter.calculateNPSCategory
        (npsScore (LTARouter.calculateConversionMetrics w))) by reflexivity.
  destruct (calculateNPSCategory_detractor
              (npsScore (LTARouter.calculateConversionMetrics w)))
    as (Hlt & Hnum & Hnan).
  rewrite Hcat. split; [| split; [| split]].
  - intros Hin. apply Hlt. now apply Hrec.
  - intros Hn Hd. apply Hrec. now apply Hnum.
  - intros Hn. split; [now apply Hnan |].
    intros Hin. apply Hrec in Hin. apply isNaN_true in Hn.
    rewrite Hn in Hin. discriminate.
  - rewrite isNaN_true. unfold LTARouter.calculateConversionMetrics.
    cbn [npsScore]. destruct (responses w !! "q54") as [r |].
    + split; [intros H; now exists r | intros (r' & [= <-] & H); exact H].
    + split; [discriminate | intros (r' & [=] & _)].
Qed.

(* an answer "n/a" to q54: category 'detractor', and the report recommends
   Awareness and Engagement only *)
Lemma nps_category_and_advocacy_witness :
  npsCategory (LTARouter.calculateConversionMetrics Sample.undecided)
  = "detractor"
  /\ ~ In LTAAnalyticsEngine.advocacyRecommendation
         (LTAAnalyticsEngine.generateRecommendations
            (Some (finalRecord Sample.undecided Sample.session)))
  /\ map area
       (LTAAnalyticsEngine.generateRecommendations
          (Some (finalRecord Sample.undecided Sample.session)))
     = ["Awareness"; "Engagement"].
Proof.
  destruct (nps_category_and_advocacy Sample.undecided
              (finalRecord Sample.undecided Sample.session) eq_refl)
    as (_ & _ & Hnan & _).
  destruct (Hnan eq_refl) as [Hcat Hnot].
  split; [exact Hcat |]. split; [exact Hnot |]. vm_compute. reflexivity.
Defined.

(* --------------------------------------------------------------------- *)
(* Improvement areas of the progress report                               *)
(* --------------------------------------------------------------------- *)

Lemma notDecreased_max_r a b : notDecreased b (JS.Math_max a b).
Proof.
  unfold notDecreased.
  destruct (Math_max_cases a b) as [[-> _] | (_ & _ & _ & Hb)]; auto.
Qed.

(* once a response of a stage scored at least the bound, the stage is
   never below the bound again *)
Lemma processed_not_below rs entry r s (bound : Z) :
  In r rs ->
  LTAAnalyticsEngine.determineFunnelStage r = Some s ->
  JS.le (JS.ofZ bound)
    (JS.ToNumber (LTAAnalyticsEngine.calculateStageScore r)) = true ->
  LTAAnalyticsEngine.stageBelow (LTAAnalyticsEngine.processed rs entry) s bound
  = false.
Proof.
  intros Hin Hstage Hscore.
  apply in_split in Hin. destruct Hin as (before & later & ->).
  assert (Hkept :
    notDecreased (JS.ofZ bound)
      (stageScore
         (LTAAnalyticsEngine.funnelOf
            (LTAAnalyticsEngine.processed (before ++ r :: later) entry)) s)).
  { unfold LTAAnalyticsEngine.processed. rewrite fold_left_app.
    cbn [fold_left].
    eapply notDecreased_trans; [| apply processed_notDecreased].
    rewrite updateFunnelMetrics_stage.
    destruct (decide _) as [_ | Hne]; [| congruence].
    eapply notDecreased_trans; [right; exact Hscore |].
    apply notDecreased_max_r. }
  apply notDecreased_not_lt in Hkept.
  unfold LTAAnalyticsEngine.stageBelow.
  destruct (LTAAnalyticsEngine.processed (before ++ r :: later) entry);
    [exact Hkept | reflexivity].
Qed.

(** X30: the improvement areas of the progress report and the processed
    responses.  Once a response of the consideration (action) section
    scored at least 5, which every response to a question other than q8,
    q20, q31, q43 and q54 does, the hint for consideration (action) is
    not listed, whatever responses follow.  Before any funnel entry
    exists no hint is listed; but the first response of the awareness,
    interest or advocacy section creates the entry with consideration and
    action at 0, and both hints are listed from then on until such
    responses arrive. *)
Theorem improvement_areas_follow_responses :
  (forall rs entry r,
     In r rs ->
     JS.le (JS.ofZ 5)
       (JS.ToNumber (LTAAnalyticsEngine.calculateStageScore r)) = true ->
     (LTAAnalyticsEngine.determineFunnelStage r = Some Consideration ->
      ~ In "Need to improve consideration conversion"
          (LTAAnalyticsEngine.identifyImprovementAreas
             (LTAAnalyticsEngine.processed rs entry)))
     /\ (LTAAnalyticsEngine.determineFunnelStage r = Some Action ->
         ~ In "Action conversion requires optimization"
             (LTAAnalyticsEngine.identifyImprovementAreas
                (LTAAnalyticsEngine.processed rs entry))))
  /\ (forall r, ~ In (r_questionId r) scoredQuestions ->
                JS.le (JS.ofZ 5)
                  (JS.ToNumber (LTAAnalyticsEngine.calculateStageScore r))
                = true)
  /\ LTAAnalyticsEngine.identifyImprovementAreas None
     = ["Continue current optimization efforts"]
  /\ (forall r s,
        LTAAnalyticsEngine.determineFunnelStage r = Some s ->
        s <> Consideration -> s <> Action ->
        LTAAnalyticsEngine.identifyImprovementAreas
          (LTAAnalyticsEngine.updateFunnelMetrics r None)
        = ["Need to improve consideration conversion";
           "Action conversion requires optimization"]).
Proof.
  split; [| split; [| split]].
  - intros rs entry r Hin Hscore. split; intros Hstage;
      pose proof (processed_not_below rs entry r _ 5 Hin Hstage Hscore) as Hnot;
      unfold LTAAnalyticsEngine.identifyImprovementAreas; rewrite Hnot.
    + destruct (LTAAnalyticsEngine.stageBelow _ Action 5); cbn;
        intros [H | []]; discriminate H.
    + destruct (LTAAnalyticsEngine.stageBelow _ Consideration 5); cbn;
        intros [H | []]; discriminate H.
  - intros r Hdefault. now rewrite calculateStageScore_default.
  - reflexivity.
  - intros r s Hstage Hc Ha.
    unfold LTAAnalyticsEngine.updateFunnelMetrics. rewrite Hstage.
    destruct s; try congruence; reflexivity.
Qed.

(* a consideration response to q33, a question scored by default, clears
   the consideration hint for good *)
Lemma improvement_areas_follow_responses_witness :
  ~ In "Need to improve consideration conversion"
      (LTAAnalyticsEngine.identifyImprovementAreas
         (LTAAnalyticsEngine.processed
            [Sample.answer "q3" "awareness" "radio";
             Sample.answer "q33" "consideration" "maybe";
             Sample.answer "q31" "consideration" ""]
            None))
  /\ LTAAnalyticsEngine.identifyImprovementAreas
       (LTAAnalyticsEngine.processed
          [Sample.answer "q3" "awareness" "radio"] None)
     = ["Need to improve consideration conversion";
        "Action conversion requires optimization"].
Proof.
  destruct improvement_areas_follow_responses as (Hcleared & Hdefault & _ & Hfirst).
  split.
  - apply (Hcleared _ None (Sample.answer "q33" "consideration" "maybe"));
      [cbn; tauto | apply Hdefault | reflexivity].
    cbn. intros H. repeat (destruct H as [H | H]; try discriminate H).
    contradiction.
  - apply (Hfirst (Sample.answer "q3" "awareness" "radio") Awareness);
      [reflexivity | discriminate | discriminate].
Defined.
